(** * Unified calendar (Code.gs): a shallow embedding and its verification

    The development follows the layout of the script: the ECMAScript date
    arithmetic the script relies on, string helpers, the MD5 content hash,
    the error sheet, the event normaliser, the filter engine, the month
    grid, the cell background selection and the Google Calendar
    reconciliation run; then the error log, the project triggers and the
    edit handler, the tracking sheet, the events of a day cell and the
    department emojis.

    Conventions.  A JavaScript [Date] is modelled by its time value, the
    number of milliseconds since the epoch, as a [Z]; where the script can
    build an Invalid Date (a time value outside the range kept by TimeClip)
    the Date object is an [option Z] and [None] is the Invalid Date.  The
    local time zone is a fixed offset [LocalTZA] (Hong Kong has no daylight
    saving time).  A JavaScript string is modelled by the [string] of its
    UTF-8 bytes. *)

From Stdlib Require Import ZArith Lia List Bool String Ascii.
From Stdlib Require Import DecimalString DecimalN DecimalZ.
From Stdlib Require QArith_base.
From Stdlib Require Import Permutation Sorted.
Import ListNotations.

Local Open Scope Z_scope.

(* ====================================================================== *)
(** ** ECMAScript date arithmetic (ECMA-262, section "Time Values") *)
(* ====================================================================== *)

Module JSDate.

Definition msPerSecond : Z := 1000.
Definition msPerMinute : Z := 60000.
Definition msPerHour : Z := 3600000.
Definition msPerDay : Z := 86400000.

Definition Day (t : Z) : Z := t / msPerDay.
Definition TimeWithinDay (t : Z) : Z := t mod msPerDay.

Definition isLeapYear (y : Z) : bool :=
  if negb (y mod 4 =? 0) then false
  else if negb (y mod 100 =? 0) then true
  else if negb (y mod 400 =? 0) then false
  else true.

Definition DaysInYear (y : Z) : Z := if isLeapYear y then 366 else 365.

Definition DayFromYear (y : Z) : Z :=
  365 * (y - 1970) + (y - 1969) / 4 - (y - 1901) / 100 + (y - 1601) / 400.

Definition TimeFromYear (y : Z) : Z := msPerDay * DayFromYear y.

(** The year and the day within the year of a day number, computed over
    the 400-year cycle counted from 1 January 1601. *)
Definition civilOfDay (d : Z) : Z * Z :=
  let n := d + 134774 in
  let n400 := n / 146097 in
  let r400 := n mod 146097 in
  let n100 := Z.min (r400 / 36524) 3 in
  let r100 := r400 - n100 * 36524 in
  let n4 := r100 / 1461 in
  let r4 := r100 mod 1461 in
  let n1 := Z.min (r4 / 365) 3 in
  (1601 + 400 * n400 + 100 * n100 + 4 * n4 + n1, r4 - n1 * 365).

Definition YearFromTime (t : Z) : Z := fst (civilOfDay (Day t)).
Definition DayWithinYear (t : Z) : Z := Day t - DayFromYear (YearFromTime t).
Definition InLeapYear (t : Z) : Z :=
  if isLeapYear (YearFromTime t) then 1 else 0.

(** Number of days of the year before month [m] (0-indexed), [l] being 1
    in a leap year and 0 otherwise. *)
Definition daysBeforeMonth (l m : Z) : Z :=
  if m <=? 0 then 0
  else if m =? 1 then 31
  else if m =? 2 then 59 + l
  else if m =? 3 then 90 + l
  else if m =? 4 then 120 + l
  else if m =? 5 then 151 + l
  else if m =? 6 then 181 + l
  else if m =? 7 then 212 + l
  else if m =? 8 then 243 + l
  else if m =? 9 then 273 + l
  else if m =? 10 then 304 + l
  else if m =? 11 then 334 + l
  else 365 + l.

Definition monthOfYearDay (l dwy : Z) : Z :=
  if dwy <? 31 then 0
  else if dwy <? 59 + l then 1
  else if dwy <? 90 + l then 2
  else if dwy <? 120 + l then 3
  else if dwy <? 151 + l then 4
  else if dwy <? 181 + l then 5
  else if dwy <? 212 + l then 6
  else if dwy <? 243 + l then 7
  else if dwy <? 273 + l then 8
  else if dwy <? 304 + l then 9
  else if dwy <? 334 + l then 10
  else 11.

Definition MonthFromTime (t : Z) : Z :=
  monthOfYearDay (InLeapYear t) (DayWithinYear t).

Definition DateFromTime (t : Z) : Z :=
  DayWithinYear t - daysBeforeMonth (InLeapYear t) (MonthFromTime t) + 1.

Definition WeekDay (t : Z) : Z := (Day t + 4) mod 7.

Definition HourFromTime (t : Z) : Z := (t / msPerHour) mod 24.
Definition MinFromTime (t : Z) : Z := (t / msPerMinute) mod 60.
Definition SecFromTime (t : Z) : Z := (t / msPerSecond) mod 60.
Definition msFromTime (t : Z) : Z := t mod msPerSecond.

Definition MakeTime (h m s ms : Z) : Z :=
  h * msPerHour + m * msPerMinute + s * msPerSecond + ms.

Definition MakeDay (year month date : Z) : Z :=
  let ym := year + month / 12 in
  let mn := month mod 12 in
  DayFromYear ym + daysBeforeMonth (if isLeapYear ym then 1 else 0) mn
  + date - 1.

Definition MakeDate (day time : Z) : Z := day * msPerDay + time.

(** TimeClip: a time value outside +-8.64e15 ms is not a valid date. *)
Definition TimeClip (t : Z) : option Z :=
  if Z.abs t <=? 8640000000000000 then Some t else None.

Definition daysInMonth (y m : Z) : Z :=
  let l := if isLeapYear y then 1 else 0 in
  daysBeforeMonth l (m + 1) - daysBeforeMonth l m.

(** *** Facts *)

Lemma DayFromYear_succ (y : Z) :
  DayFromYear (y + 1) = DayFromYear y + DaysInYear y.
Proof.
  unfold DayFromYear, DaysInYear, isLeapYear.
  destruct (y mod 4 =? 0) eqn:E4; cbn [negb];
    [destruct (y mod 100 =? 0) eqn:E100; cbn [negb];
      [destruct (y mod 400 =? 0) eqn:E400; cbn [negb]|]|];
    repeat match goal with
           | H : (_ =? _) = true |- _ => apply Z.eqb_eq in H
           | H : (_ =? _) = false |- _ => apply Z.eqb_neq in H
           end;
    Z.div_mod_to_equations; lia.
Qed.

Lemma civilOfDay_spec (d : Z) :
  let '(y, r) := civilOfDay d in
  DayFromYear y + r = d /\ 0 <= r < DaysInYear y.
Proof.
  unfold civilOfDay.
  set (n := d + 134774).
  set (n400 := n / 146097). set (r400 := n mod 146097).
  set (n100 := Z.min (r400 / 36524) 3).
  set (r100 := r400 - n100 * 36524).
  set (n4 := r100 / 1461). set (r4 := r100 mod 1461).
  set (n1 := Z.min (r4 / 365) 3).
  assert (Hn : n = 146097 * n400 + r400 /\ 0 <= r400 < 146097)
    by (subst n400 r400; Z.div_mod_to_equations; lia).
  assert (H100 : 0 <= n100 <= 3 /\ 0 <= r100 /\
                 (n100 < 3 -> r100 < 36524) /\ r100 <= 36524).
  { subst n100 r100. Z.div_mod_to_equations. lia. }
  assert (H4 : r100 = 1461 * n4 + r4 /\ 0 <= r4 < 1461 /\ 0 <= n4 <= 24)
    by (subst n4 r4; Z.div_mod_to_equations; lia).
  assert (H1 : 0 <= n1 <= 3 /\ 0 <= r4 - n1 * 365 /\
               (n1 < 3 -> r4 - n1 * 365 < 365) /\ r4 - n1 * 365 <= 365)
    by (subst n1; Z.div_mod_to_equations; lia).
  assert (Hlast : n4 = 24 -> n100 < 3 -> r4 < 1460) by lia.
  set (y := 1601 + 400 * n400 + 100 * n100 + 4 * n4 + n1).
  assert (Hd : DayFromYear y =
               146097 * n400 + 36524 * n100 + 1461 * n4 + 365 * n1 - 134774).
  { unfold DayFromYear. subst y. Z.div_mod_to_equations. lia. }
  split; [lia|].
  split; [lia|].
  unfold DaysInYear, isLeapYear.
  assert (Hy4 : (y mod 4 =? 0) = (n1 =? 3)).
  { subst y. destruct (n1 =? 3) eqn:E;
      [apply Z.eqb_eq in E; apply Z.eqb_eq
      |apply Z.eqb_neq in E; apply Z.eqb_neq]; Z.div_mod_to_equations; lia. }
  assert (Hy100 : n1 = 3 -> (y mod 100 =? 0) = (n4 =? 24)).
  { intros. subst y. destruct (n4 =? 24) eqn:E;
      [apply Z.eqb_eq in E; apply Z.eqb_eq
      |apply Z.eqb_neq in E; apply Z.eqb_neq]; Z.div_mod_to_equations; lia. }
  assert (Hy400 : n1 = 3 -> n4 = 24 -> (y mod 400 =? 0) = (n100 =? 3)).
  { intros. subst y. destruct (n100 =? 3) eqn:E;
      [apply Z.eqb_eq in E; apply Z.eqb_eq
      |apply Z.eqb_neq in E; apply Z.eqb_neq]; Z.div_mod_to_equations; lia. }
  rewrite Hy4.
  destruct (n1 =? 3) eqn:E1; cbn [negb].
  - apply Z.eqb_eq in E1. rewrite (Hy100 E1).
    destruct (n4 =? 24) eqn:E4; cbn [negb].
    + apply Z.eqb_eq in E4. rewrite (Hy400 E1 E4).
      destruct (n100 =? 3) eqn:E100; cbn [negb].
      * lia.
      * apply Z.eqb_neq in E100. lia.
    + lia.
  - apply Z.eqb_neq in E1. lia.
Qed.

Ltac zbool :=
  repeat match goal with
         | |- context [?a <? ?b] => destruct (Z.ltb_spec a b)
         | |- context [?a <=? ?b] => destruct (Z.leb_spec a b)
         | |- context [?a =? ?b] => destruct (Z.eqb_spec a b)
         end.

Lemma DaysInYear_cases (y : Z) : DaysInYear y = 365 \/ DaysInYear y = 366.
Proof. unfold DaysInYear. destruct (isLeapYear y); auto. Qed.

Lemma DaysInYear_leap (y : Z) :
  DaysInYear y = 365 + (if isLeapYear y then 1 else 0).
Proof. unfold DaysInYear. destruct (isLeapYear y); reflexivity. Qed.

Lemma DayFromYear_mono (y1 y2 : Z) :
  y1 < y2 -> DayFromYear y1 + DaysInYear y1 <= DayFromYear y2.
Proof.
  intros H. replace y2 with (y1 + 1 + (y2 - y1 - 1)) by lia.
  assert (Hk : 0 <= y2 - y1 - 1) by lia.
  generalize dependent (y2 - y1 - 1). intros k Hk.
  pattern k. apply natlike_ind; [| |exact Hk].
  - rewrite Z.add_0_r, DayFromYear_succ. lia.
  - intros x Hx IH. replace (y1 + 1 + Z.succ x) with (y1 + 1 + x + 1) by lia.
    rewrite DayFromYear_succ. pose proof (DaysInYear_cases (y1 + 1 + x)). lia.
Qed.

(** A day number lies in exactly one year. *)
Lemma year_unique (y1 y2 d : Z) :
  DayFromYear y1 <= d < DayFromYear y1 + DaysInYear y1 ->
  DayFromYear y2 <= d < DayFromYear y2 + DaysInYear y2 ->
  y1 = y2.
Proof.
  intros H1 H2.
  destruct (Z.lt_trichotomy y1 y2) as [L|[E|L]]; [|exact E|];
    apply DayFromYear_mono in L; lia.
Qed.

(** [YearFromTime t] is the largest year that starts no later than [t]. *)
Lemma YearFromTime_spec (t : Z) :
  TimeFromYear (YearFromTime t) <= t < TimeFromYear (YearFromTime t + 1).
Proof.
  unfold TimeFromYear, YearFromTime. rewrite DayFromYear_succ.
  pose proof (civilOfDay_spec (Day t)) as H.
  destruct (civilOfDay (Day t)) as [y r]. cbn [fst].
  unfold Day, msPerDay in *. Z.div_mod_to_equations. lia.
Qed.

Lemma DayWithinYear_range (t : Z) :
  0 <= DayWithinYear t < DaysInYear (YearFromTime t).
Proof.
  unfold DayWithinYear, YearFromTime.
  pose proof (civilOfDay_spec (Day t)) as H.
  destruct (civilOfDay (Day t)) as [y r]. cbn [fst]. lia.
Qed.

Lemma monthOfYearDay_range (l dwy : Z) :
  0 <= l <= 1 -> 0 <= dwy < 365 + l ->
  let m := monthOfYearDay l dwy in
  0 <= m <= 11 /\ daysBeforeMonth l m <= dwy < daysBeforeMonth l (m + 1).
Proof.
  intros Hl Hd.
  assert (Hc : l = 0 \/ l = 1) by lia.
  destruct Hc; subst l; unfold monthOfYearDay; zbool; cbn; lia.
Qed.

Lemma monthOfYearDay_unique (l dwy m : Z) :
  0 <= l <= 1 -> 0 <= m <= 11 ->
  daysBeforeMonth l m <= dwy < daysBeforeMonth l (m + 1) ->
  monthOfYearDay l dwy = m.
Proof.
  intros Hl Hm.
  assert (Hc : m = 0 \/ m = 1 \/ m = 2 \/ m = 3 \/ m = 4 \/ m = 5 \/ m = 6 \/
               m = 7 \/ m = 8 \/ m = 9 \/ m = 10 \/ m = 11) by lia.
  assert (Hc' : l = 0 \/ l = 1) by lia.
  destruct Hc'; subst l;
    (repeat (destruct Hc as [Hc|Hc]; [subst m; cbn; intros H;
       unfold monthOfYearDay; zbool; lia|]));
    subst m; cbn; intros H; unfold monthOfYearDay; zbool; lia.
Qed.

Lemma daysInMonth_range (y m : Z) :
  0 <= m <= 11 -> 28 <= daysInMonth y m <= 31.
Proof.
  intros Hm. unfold daysInMonth.
  assert (Hc : m = 0 \/ m = 1 \/ m = 2 \/ m = 3 \/ m = 4 \/ m = 5 \/ m = 6 \/
               m = 7 \/ m = 8 \/ m = 9 \/ m = 10 \/ m = 11) by lia.
  repeat (destruct Hc as [Hc|Hc]; [subst m; destruct (isLeapYear y); cbn; lia|]).
  subst m; destruct (isLeapYear y); cbn; lia.
Qed.

Lemma Day_MakeDate (day time : Z) :
  0 <= time < msPerDay ->
  Day (MakeDate day time) = day /\ TimeWithinDay (MakeDate day time) = time.
Proof.
  unfold Day, TimeWithinDay, MakeDate, msPerDay. intros H.
  Z.div_mod_to_equations. lia.
Qed.

Lemma MakeDate_Day (t : Z) : MakeDate (Day t) (TimeWithinDay t) = t.
Proof.
  unfold Day, TimeWithinDay, MakeDate, msPerDay.
  Z.div_mod_to_equations. lia.
Qed.

(** Civil date of a day built by [MakeDay] from a date of the calendar. *)
Lemma civil_of_MakeDay (y m d time : Z) :
  0 <= m <= 11 -> 1 <= d <= daysInMonth y m -> 0 <= time < msPerDay ->
  let t := MakeDate (MakeDay y m d) time in
  YearFromTime t = y /\ MonthFromTime t = m /\ DateFromTime t = d.
Proof.
  intros Hm Hd Ht t.
  assert (HD : Day t = MakeDay y m d) by (apply Day_MakeDate; exact Ht).
  assert (Hmd : MakeDay y m d =
                DayFromYear y
                + daysBeforeMonth (if isLeapYear y then 1 else 0) m + d - 1).
  { unfold MakeDay. rewrite (Z.div_small m 12), (Z.mod_small m 12) by lia.
    rewrite Z.add_0_r. reflexivity. }
  set (l := if isLeapYear y then 1 else 0) in *.
  assert (Hl : 0 <= l <= 1) by (subst l; destruct (isLeapYear y); lia).
  assert (Hb : 0 <= daysBeforeMonth l m /\
               daysBeforeMonth l (m + 1) <= 365 + l).
  { assert (Hc : m = 0 \/ m = 1 \/ m = 2 \/ m = 3 \/ m = 4 \/ m = 5 \/ m = 6 \/
                 m = 7 \/ m = 8 \/ m = 9 \/ m = 10 \/ m = 11) by lia.
    clear - Hc. subst l. destruct (isLeapYear y);
      (repeat (destruct Hc as [Hc|Hc]; [subst m; cbn; lia|]));
      subst m; cbn; lia. }
  assert (Hdim : daysInMonth y m =
                 daysBeforeMonth l (m + 1) - daysBeforeMonth l m)
    by reflexivity.
  assert (Hy : YearFromTime t = y).
  { pose proof (civilOfDay_spec (Day t)) as H.
    unfold YearFromTime. destruct (civilOfDay (Day t)) as [y' r]. cbn [fst].
    apply (year_unique y' y (Day t)); [lia|].
    rewrite DaysInYear_leap. fold l. lia. }
  assert (Hw : DayWithinYear t = daysBeforeMonth l m + d - 1)
    by (unfold DayWithinYear; rewrite Hy; lia).
  assert (HL : InLeapYear t = l) by (unfold InLeapYear; rewrite Hy; reflexivity).
  assert (HM : MonthFromTime t = m).
  { unfold MonthFromTime. rewrite HL, Hw.
    apply monthOfYearDay_unique; lia. }
  split; [exact Hy|]. split; [exact HM|].
  unfold DateFromTime. rewrite HM, HL, Hw. lia.
Qed.

(** Conversely the civil fields of a time value rebuild it. *)
Lemma MakeDay_of_civil (t : Z) :
  MakeDay (YearFromTime t) (MonthFromTime t) (DateFromTime t) = Day t.
Proof.
  pose proof (DayWithinYear_range t) as Hr.
  rewrite DaysInYear_leap in Hr.
  assert (Hl : 0 <= InLeapYear t <= 1)
    by (unfold InLeapYear; destruct (isLeapYear _); lia).
  pose proof (monthOfYearDay_range (InLeapYear t) (DayWithinYear t) Hl) as Hm.
  unfold InLeapYear in Hm at 1. specialize (Hm Hr). cbn zeta in Hm.
  fold (MonthFromTime t) in Hm. destruct Hm as [Hm _].
  unfold MakeDay.
  rewrite (Z.div_small (MonthFromTime t) 12), (Z.mod_small (MonthFromTime t) 12)
    by lia.
  rewrite Z.add_0_r. fold (InLeapYear t).
  unfold DateFromTime, DayWithinYear. lia.
Qed.

Lemma DateFromTime_range (t : Z) :
  0 <= MonthFromTime t <= 11 /\
  1 <= DateFromTime t <= daysInMonth (YearFromTime t) (MonthFromTime t).
Proof.
  pose proof (DayWithinYear_range t) as Hr.
  rewrite DaysInYear_leap in Hr.
  assert (Hl : 0 <= InLeapYear t <= 1)
    by (unfold InLeapYear; destruct (isLeapYear _); lia).
  pose proof (monthOfYearDay_range (InLeapYear t) (DayWithinYear t) Hl) as Hm.
  unfold InLeapYear in Hm at 1. specialize (Hm Hr). cbn zeta in Hm.
  fold (MonthFromTime t) in Hm.
  unfold DateFromTime, daysInMonth. fold (InLeapYear t). lia.
Qed.

Lemma WeekDay_range (t : Z) : 0 <= WeekDay t <= 6.
Proof. unfold WeekDay. Z.div_mod_to_equations. lia. Qed.

End JSDate.

(* ====================================================================== *)
(** ** Strings *)
(* ====================================================================== *)

Module Str.

Local Open Scope string_scope.
Local Open Scope Z_scope.

Lemma length_append (s1 s2 : string) :
  String.length (s1 ++ s2) = (String.length s1 + String.length s2)%nat.
Proof. induction s1; cbn; [reflexivity|now rewrite IHs1]. Qed.

(** Two concatenations with heads of the same length agree piecewise. *)
Lemma append_eq_length (s1 s2 a b : string) :
  String.length s1 = String.length s2 ->
  s1 ++ a = s2 ++ b -> s1 = s2 /\ a = b.
Proof.
  revert s2. induction s1 as [|c s1 IH]; intros [|c2 s2] Hl H; cbn in *;
    try discriminate.
  - auto.
  - injection H as -> H. destruct (IH s2) as [-> ->]; auto.
Qed.

Lemma append_inv_head (s a b : string) : s ++ a = s ++ b -> a = b.
Proof. intros H. now apply (append_eq_length s s a b) in H. Qed.

Lemma append_inv_tail (a b s : string) : a ++ s = b ++ s -> a = b.
Proof.
  intros H. apply (append_eq_length a b s s); [|exact H].
  apply (f_equal String.length) in H. rewrite !length_append in H. lia.
Qed.

(** Decimal digit and fixed-width, zero-padded decimal fields. *)
Definition digitChar (d : Z) : ascii := ascii_of_nat (48 + Z.to_nat d).

Fixpoint padDigits (w : nat) (n : Z) : string :=
  match w with
  | O => ""
  | S w' => padDigits w' (n / 10) ++ String (digitChar (n mod 10)) ""
  end.

Lemma digitChar_inj (a b : Z) :
  0 <= a < 10 -> 0 <= b < 10 -> digitChar a = digitChar b -> a = b.
Proof.
  intros Ha Hb H. unfold digitChar in H.
  apply (f_equal nat_of_ascii) in H.
  rewrite !nat_ascii_embedding in H by lia. lia.
Qed.

Lemma length_padDigits (w : nat) (n : Z) : String.length (padDigits w n) = w.
Proof.
  revert n. induction w as [|w IH]; intros n; cbn; [reflexivity|].
  rewrite length_append, IH. cbn. lia.
Qed.

Lemma padDigits_inj (w : nat) (a b : Z) :
  0 <= a < 10 ^ Z.of_nat w -> 0 <= b < 10 ^ Z.of_nat w ->
  padDigits w a = padDigits w b -> a = b.
Proof.
  revert a b. induction w as [|w IH]; intros a b Ha Hb H.
  - cbn in Ha, Hb. lia.
  - cbn [padDigits] in H.
    apply append_eq_length in H; [|now rewrite !length_padDigits].
    destruct H as [H1 H2]. injection H2 as H2.
    rewrite Nat2Z.inj_succ, Z.pow_succ_r in Ha, Hb by lia.
    apply digitChar_inj in H2; [|apply Z.mod_pos_bound; lia ..].
    apply IH in H1; [|Z.div_mod_to_equations; nia ..].
    Z.div_mod_to_equations. lia.
Qed.

(** [String(n)] for an integer. *)
Definition ofZ (n : Z) : string := NilEmpty.string_of_int (Z.to_int n).

Lemma ofZ_inj (a b : Z) : ofZ a = ofZ b -> a = b.
Proof.
  unfold ofZ. intros H. apply DecimalZ.to_int_inj.
  apply (f_equal NilEmpty.int_of_string) in H.
  rewrite !NilEmpty.isi in H. now injection H.
Qed.

(** [String.prototype.padStart(2, '0')]. *)
Definition padStart2 (s : string) : string :=
  match s with
  | "" => "00"
  | String c "" => String "0" (String c "")
  | _ => s
  end.

End Str.

(* ====================================================================== *)
(** ** Date.prototype.toISOString *)
(* ====================================================================== *)

Module ISO.

Import JSDate Str.
Local Open Scope string_scope.
Local Open Scope Z_scope.

Definition yearString (y : Z) : string :=
  if (0 <=? y) && (y <=? 9999) then padDigits 4 y
  else String (if y <? 0 then "-"%char else "+"%char) (padDigits 6 (Z.abs y)).

Definition sep (c : ascii) (field rest : string) : string :=
  String c (field ++ rest).

Definition timeString (t : Z) : string :=
  sep "-" (padDigits 2 (MonthFromTime t + 1))
  (sep "-" (padDigits 2 (DateFromTime t))
  (sep "T" (padDigits 2 (HourFromTime t))
  (sep ":" (padDigits 2 (MinFromTime t))
  (sep ":" (padDigits 2 (SecFromTime t))
  (sep "." (padDigits 3 (msFromTime t)) "Z"))))).

(** YYYY-MM-DDTHH:mm:ss.sssZ, the year expanded to a sign and six digits
    outside 0..9999. *)
Definition toISOString (t : Z) : string :=
  yearString (YearFromTime t) ++ timeString t.

Definition validTime (t : Z) : Prop := Z.abs t <= 8640000000000000.

Lemma String_tail_inj (c1 c2 : ascii) (s1 s2 : string) :
  String c1 s1 = String c2 s2 -> s1 = s2.
Proof. intros H. injection H. auto. Qed.

Lemma sep_inj (c : ascii) (w : nat) (a b : Z) (r1 r2 : string) :
  0 <= a < 10 ^ Z.of_nat w -> 0 <= b < 10 ^ Z.of_nat w ->
  sep c (padDigits w a) r1 = sep c (padDigits w b) r2 -> a = b /\ r1 = r2.
Proof.
  intros Ha Hb H. unfold sep in H. apply String_tail_inj in H.
  apply append_eq_length in H; [|now rewrite !length_padDigits].
  destruct H as [H ->]. apply padDigits_inj in H; auto.
Qed.

Lemma length_sep (c : ascii) (w : nat) (a : Z) (r : string) :
  String.length (sep c (padDigits w a) r) = S (w + String.length r).
Proof.
  unfold sep. cbn [String.length]. now rewrite length_append, length_padDigits.
Qed.

Lemma length_timeString (t1 t2 : Z) :
  String.length (timeString t1) = String.length (timeString t2).
Proof. unfold timeString. now rewrite !length_sep. Qed.

Lemma YearFromTime_bound (t : Z) :
  validTime t -> -300000 < YearFromTime t < 300000.
Proof.
  unfold validTime. intros Hv.
  pose proof (YearFromTime_spec t) as H.
  unfold TimeFromYear, DayFromYear, msPerDay in H.
  Z.div_mod_to_equations. lia.
Qed.

Lemma yearString_inj (y1 y2 : Z) :
  -300000 < y1 < 300000 -> -300000 < y2 < 300000 ->
  String.length (yearString y1) = String.length (yearString y2) ->
  yearString y1 = yearString y2 -> y1 = y2.
Proof.
  unfold yearString. intros H1 H2 Hl H.
  destruct ((0 <=? y1) && (y1 <=? 9999)) eqn:E1;
    destruct ((0 <=? y2) && (y2 <=? 9999)) eqn:E2.
  - apply andb_prop in E1, E2. apply padDigits_inj in H; lia.
  - cbn [String.length] in Hl. rewrite !length_padDigits in Hl. lia.
  - cbn [String.length] in Hl. rewrite !length_padDigits in Hl. lia.
  - assert (Hs : (y1 <? 0) = (y2 <? 0)).
    { destruct (y1 <? 0), (y2 <? 0); congruence. }
    apply String_tail_inj in H.
    apply padDigits_inj in H; change (10 ^ Z.of_nat 6) with 1000000;
      [|lia ..].
    destruct (Z.ltb_spec y1 0), (Z.ltb_spec y2 0); try discriminate; lia.
Qed.

Lemma MakeTime_of_fields (t : Z) :
  MakeTime (HourFromTime t) (MinFromTime t) (SecFromTime t) (msFromTime t)
  = TimeWithinDay t.
Proof.
  unfold MakeTime, HourFromTime, MinFromTime, SecFromTime, msFromTime,
    TimeWithinDay, msPerHour, msPerMinute, msPerSecond, msPerDay.
  Z.div_mod_to_equations. lia.
Qed.

Lemma time_fields_range (t : Z) :
  0 <= HourFromTime t < 24 /\ 0 <= MinFromTime t < 60 /\
  0 <= SecFromTime t < 60 /\ 0 <= msFromTime t < 1000.
Proof.
  unfold HourFromTime, MinFromTime, SecFromTime, msFromTime, msPerSecond.
  repeat split; try apply Z.mod_pos_bound; try lia;
    apply Z.mod_pos_bound; lia.
Qed.

(** The ISO string determines the time value. *)
Lemma toISOString_inj (t1 t2 : Z) :
  validTime t1 -> validTime t2 ->
  toISOString t1 = toISOString t2 -> t1 = t2.
Proof.
  intros V1 V2 H. unfold toISOString in H.
  assert (Hl : String.length (yearString (YearFromTime t1)) =
               String.length (yearString (YearFromTime t2))).
  { apply (f_equal String.length) in H. rewrite !length_append in H.
    rewrite (length_timeString t1 t2) in H. lia. }
  apply append_eq_length in H; [|exact Hl]. destruct H as [Hy Ht].
  apply yearString_inj in Hy; try (apply YearFromTime_bound; assumption);
    [|exact Hl].
  pose proof (DateFromTime_range t1) as R1.
  pose proof (DateFromTime_range t2) as R2.
  pose proof (daysInMonth_range (YearFromTime t1) (MonthFromTime t1)
                (proj1 R1)) as D1.
  pose proof (daysInMonth_range (YearFromTime t2) (MonthFromTime t2)
                (proj1 R2)) as D2.
  pose proof (time_fields_range t1) as F1.
  pose proof (time_fields_range t2) as F2.
  unfold timeString in Ht.
  change (10 ^ Z.of_nat 2) with 100 in *.
  apply sep_inj in Ht; [|change (10 ^ Z.of_nat 2) with 100; lia ..].
  destruct Ht as [E Ht].
  apply sep_inj in Ht; [|change (10 ^ Z.of_nat 2) with 100; lia ..].
  destruct Ht as [E0 Ht].
  apply sep_inj in Ht; [|change (10 ^ Z.of_nat 2) with 100; lia ..].
  destruct Ht as [E1 Ht].
  apply sep_inj in Ht; [|change (10 ^ Z.of_nat 2) with 100; lia ..].
  destruct Ht as [E2 Ht].
  apply sep_inj in Ht; [|change (10 ^ Z.of_nat 2) with 100; lia ..].
  destruct Ht as [E3 Ht].
  apply sep_inj in Ht; [|change (10 ^ Z.of_nat 3) with 1000; lia ..].
  destruct Ht as [E4 _].
  rewrite <- (MakeDate_Day t1), <- (MakeDate_Day t2).
  rewrite <- (MakeDay_of_civil t1), <- (MakeDay_of_civil t2).
  rewrite <- (MakeTime_of_fields t1), <- (MakeTime_of_fields t2).
  replace (MonthFromTime t2) with (MonthFromTime t1) by lia.
  rewrite Hy, E0, E1, E2, E3, E4. reflexivity.
Qed.

Lemma toISOString_nonempty (t : Z) : toISOString t <> "".
Proof.
  intros H. apply (f_equal String.length) in H.
  unfold toISOString, timeString in H.
  rewrite length_append, !length_sep in H.
  change (String.length "") with 0%nat in H. lia.
Qed.

End ISO.

(* ====================================================================== *)
(** ** Utilities.computeDigest(MD5, ...)  (RFC 1321) *)
(* ====================================================================== *)

Module MD5.

Local Open Scope list_scope.
Local Open Scope Z_scope.

Definition two32 : Z := 4294967296.

Definition not32 (x : Z) : Z := Z.lxor x 4294967295.

Definition rotl32 (x c : Z) : Z :=
  Z.lor (Z.shiftl x c) (Z.shiftr x (32 - c)) mod two32.

Definition K : list Z :=
  [3614090360; 3905402710; 606105819; 3250441966;
   4118548399; 1200080426; 2821735955; 4249261313;
   1770035416; 2336552879; 4294925233; 2304563134;
   1804603682; 4254626195; 2792965006; 1236535329;
   4129170786; 3225465664; 643717713; 3921069994;
   3593408605; 38016083; 3634488961; 3889429448;
   568446438; 3275163606; 4107603335; 1163531501;
   2850285829; 4243563512; 1735328473; 2368359562;
   4294588738; 2272392833; 1839030562; 4259657740;
   2763975236; 1272893353; 4139469664; 3200236656;
   681279174; 3936430074; 3572445317; 76029189;
   3654602809; 3873151461; 530742520; 3299628645;
   4096336452; 1126891415; 2878612391; 4237533241;
   1700485571; 2399980690; 4293915773; 2240044497;
   1873313359; 4264355552; 2734768916; 1309151649;
   4149444226; 3174756917; 718787259; 3951481745].

Definition shifts : list Z :=
  [7; 12; 17; 22; 7; 12; 17; 22; 7; 12; 17; 22; 7; 12; 17; 22;
   5; 9; 14; 20; 5; 9; 14; 20; 5; 9; 14; 20; 5; 9; 14; 20;
   4; 11; 16; 23; 4; 11; 16; 23; 4; 11; 16; 23; 4; 11; 16; 23;
   6; 10; 15; 21; 6; 10; 15; 21; 6; 10; 15; 21; 6; 10; 15; 21].

Definition at_ (l : list Z) (i : Z) : Z := nth (Z.to_nat i) l 0.

Definition State : Type := (Z * Z * Z * Z)%type.

Definition init : State := (1732584193, 4023233417, 2562383102, 271733878).

(** One of the 64 operations of a block; [M] holds the 16 words. *)
Definition step (M : list Z) (st : State) (i : Z) : State :=
  let '(a, b, c, d) := st in
  let '(f, g) :=
    if i <? 16 then (Z.lor (Z.land b c) (Z.land (not32 b) d), i)
    else if i <? 32 then
      (Z.lor (Z.land d b) (Z.land (not32 d) c), (5 * i + 1) mod 16)
    else if i <? 48 then (Z.lxor (Z.lxor b c) d, (3 * i + 5) mod 16)
    else (Z.lxor c (Z.lor b (not32 d)), (7 * i) mod 16) in
  let f' := (f + a + at_ K i + at_ M g) mod two32 in
  (d, (b + rotl32 f' (at_ shifts i)) mod two32, b, c).

Fixpoint wordsOf (n : nat) (bs : list Z) : list Z :=
  match n, bs with
  | S n', b0 :: b1 :: b2 :: b3 :: r =>
      (b0 + 256 * b1 + 65536 * b2 + 16777216 * b3) :: wordsOf n' r
  | _, _ => []
  end.

Definition rounds : list Z := map Z.of_nat (seq 0 64).

Definition processBlock (st : State) (block : list Z) : State :=
  let M := wordsOf 16 block in
  let '(a0, b0, c0, d0) := st in
  let '(a, b, c, d) := fold_left (step M) rounds st in
  ((a0 + a) mod two32, (b0 + b) mod two32,
   (c0 + c) mod two32, (d0 + d) mod two32).

Fixpoint leBytes (n : nat) (x : Z) : list Z :=
  match n with
  | O => []
  | S n' => x mod 256 :: leBytes n' (x / 256)
  end.

Definition pad (msg : list Z) : list Z :=
  let len := Z.of_nat (List.length msg) in
  msg ++ [128] ++ repeat 0 (Z.to_nat ((55 - len) mod 64))
      ++ leBytes 8 (8 * len).

Fixpoint blocks (n : nat) (bs : list Z) : list (list Z) :=
  match n with
  | O => []
  | S n' => firstn 64 bs :: blocks n' (skipn 64 bs)
  end.

Definition finalState (msg : list Z) : State :=
  let p := pad msg in
  fold_left processBlock (blocks (Nat.div (List.length p) 64) p) init.

Definition bytesOfState (st : State) : list Z :=
  let '(a, b, c, d) := st in
  leBytes 4 a ++ leBytes 4 b ++ leBytes 4 c ++ leBytes 4 d.

(** The 16 bytes of the digest, each in 0..255. *)
Definition digest (msg : list Z) : list Z := bytesOfState (finalState msg).

Definition bytesOfString (s : string) : list Z :=
  map (fun c => Z.of_nat (nat_of_ascii c)) (list_ascii_of_string s).

(** Apps Script returns the digest as signed bytes. *)
Definition toSigned (b : Z) : Z := if 128 <=? b then b - 256 else b.

Definition computeDigest (input : string) : list Z :=
  map toSigned (digest (bytesOfString input)).

End MD5.

(* ====================================================================== *)
(** ** Events and their content hash *)
(* ====================================================================== *)

(** The event object pushed by [getAllEvents]. *)
Record Event : Type := mkEvent {
  date : Z;
  startDate : Z;
  endDate : option Z;
  hasTime : bool;
  service : string;
  event : string;
  department : string;
  sheetId : Z;
  rowIndex : Z;
  surSiteCCFHK : bool;
  surCalendrierExcel : bool;
  surCalendrierExcelRaw : string
}.

Module Hash.

Import Str.
Local Open Scope string_scope.
Local Open Scope Z_scope.

Definition hexDigit (d : Z) : ascii :=
  if d <? 10 then ascii_of_nat (48 + Z.to_nat d)
  else ascii_of_nat (87 + Z.to_nat d).

(** [Number.prototype.toString(16)] on 0..255. *)
Definition toString16 (u : Z) : string :=
  if u <? 16 then String (hexDigit u) ""
  else String (hexDigit (u / 16)) (String (hexDigit (u mod 16)) "").

(** The callback of [rawHash.map] in [computeEventHash]. *)
Definition hexOfByte (byte : Z) : string :=
  let hex := toString16 (if byte <? 0 then byte + 256 else byte) in
  if (String.length hex =? 1)%nat then "0" ++ hex else hex.

Definition join (l : list string) : string := fold_right append "" l.

Definition hashInput (e : Event) : string :=
  let startStr := ISO.toISOString (startDate e) in
  let endStr :=
    match endDate e with Some d => ISO.toISOString d | None => "" end in
  let surSiteStr := if surSiteCCFHK e then "1" else "0" in
  department e ++ "|" ++ startStr ++ "|" ++ endStr ++ "|" ++ service e
    ++ "|" ++ event e ++ "|" ++ surSiteStr.

Definition computeEventHash (e : Event) : string :=
  let rawHash := MD5.computeDigest (hashInput e) in
  join (map hexOfByte rawHash).

End Hash.

Module HashFacts.

Import Str Hash.
Local Open Scope string_scope.
Local Open Scope Z_scope.

(** *** The hexadecimal rendering loses nothing *)

Lemma hexDigit_inj (a b : Z) :
  0 <= a < 16 -> 0 <= b < 16 -> hexDigit a = hexDigit b -> a = b.
Proof.
  intros Ha Hb H. unfold hexDigit in H.
  destruct (Z.ltb_spec a 10), (Z.ltb_spec b 10);
    apply (f_equal nat_of_ascii) in H;
    rewrite !nat_ascii_embedding in H by lia; lia.
Qed.

Definition unsigned (byte : Z) : Z := if byte <? 0 then byte + 256 else byte.

Lemma hexOfByte_digits (byte : Z) :
  -128 <= byte <= 127 ->
  hexOfByte byte =
  String (hexDigit (unsigned byte / 16))
    (String (hexDigit (unsigned byte mod 16)) "").
Proof.
  intros Hb. unfold hexOfByte. fold (unsigned byte).
  assert (Hu : 0 <= unsigned byte < 256)
    by (unfold unsigned; destruct (Z.ltb_spec byte 0); lia).
  unfold toString16. destruct (Z.ltb_spec (unsigned byte) 16) as [L|L].
  - cbn. rewrite Z.div_small, Z.mod_small by lia. reflexivity.
  - reflexivity.
Qed.

Lemma hexOfByte_inj (a b : Z) :
  -128 <= a <= 127 -> -128 <= b <= 127 -> hexOfByte a = hexOfByte b -> a = b.
Proof.
  intros Ha Hb H. rewrite !hexOfByte_digits in H by assumption.
  injection H as H1 H2.
  assert (Hua : 0 <= unsigned a < 256)
    by (unfold unsigned; destruct (Z.ltb_spec a 0); lia).
  assert (Hub : 0 <= unsigned b < 256)
    by (unfold unsigned; destruct (Z.ltb_spec b 0); lia).
  apply hexDigit_inj in H1; [|Z.div_mod_to_equations; lia ..].
  apply hexDigit_inj in H2; [|Z.div_mod_to_equations; lia ..].
  assert (unsigned a = unsigned b) by (Z.div_mod_to_equations; lia).
  unfold unsigned in *.
  destruct (Z.ltb_spec a 0), (Z.ltb_spec b 0); lia.
Qed.

Definition signedBytes (l : list Z) : Prop :=
  Forall (fun b => -128 <= b <= 127) l.

Lemma join_hex_inj (l1 l2 : list Z) :
  signedBytes l1 -> signedBytes l2 ->
  join (map hexOfByte l1) = join (map hexOfByte l2) -> l1 = l2.
Proof.
  intros H1. revert l2.
  induction H1 as [|a l1 Ha _ IH]; intros l2 H2 H; destruct H2 as [|b l2 Hb H2].
  - reflexivity.
  - cbn in H. rewrite (hexOfByte_digits b Hb) in H. discriminate.
  - cbn in H. rewrite (hexOfByte_digits a Ha) in H. discriminate.
  - cbn [map join fold_right] in H.
    apply append_eq_length in H.
    + destruct H as [E1 E2]. apply hexOfByte_inj in E1; auto.
      f_equal; auto.
    + now rewrite (hexOfByte_digits a Ha), (hexOfByte_digits b Hb).
Qed.

(** *** The digest is made of 16 bytes determined by four 32-bit words *)

Definition wordsInRange (st : MD5.State) : Prop :=
  let '(a, b, c, d) := st in
  0 <= a < MD5.two32 /\ 0 <= b < MD5.two32 /\
  0 <= c < MD5.two32 /\ 0 <= d < MD5.two32.

Lemma processBlock_range (st : MD5.State) (block : list Z) :
  wordsInRange (MD5.processBlock st block).
Proof.
  unfold MD5.processBlock. destruct st as [[[a0 b0] c0] d0].
  destruct (fold_left _ _ _) as [[[a b] c] d]. unfold wordsInRange, MD5.two32.
  repeat split; apply Z.mod_pos_bound; lia.
Qed.

Lemma finalState_range (msg : list Z) : wordsInRange (MD5.finalState msg).
Proof.
  unfold MD5.finalState.
  generalize (MD5.blocks (Nat.div (List.length (MD5.pad msg)) 64) (MD5.pad msg)).
  intros bl.
  assert (H : wordsInRange MD5.init) by (cbv; repeat split; congruence).
  revert H. generalize MD5.init. induction bl as [|b bl IH]; intros st H.
  - exact H.
  - cbn [fold_left]. apply IH, processBlock_range.
Qed.

Lemma leBytes_range (n : nat) (x : Z) :
  Forall (fun b => 0 <= b <= 255) (MD5.leBytes n x).
Proof.
  revert x. induction n as [|n IH]; intros x; cbn; constructor; auto.
  Z.div_mod_to_equations. lia.
Qed.

Lemma digest_range (msg : list Z) :
  Forall (fun b => 0 <= b <= 255) (MD5.digest msg).
Proof.
  unfold MD5.digest, MD5.bytesOfState.
  destruct (MD5.finalState msg) as [[[a b] c] d].
  repeat (apply Forall_app; split); apply leBytes_range.
Qed.

Lemma computeDigest_signed (s : string) : signedBytes (MD5.computeDigest s).
Proof.
  unfold MD5.computeDigest, signedBytes. apply Forall_map.
  eapply Forall_impl; [|apply digest_range].
  intros b Hb. cbn beta in *. unfold MD5.toSigned.
  destruct (Z.leb_spec 128 b); lia.
Qed.

Lemma toSigned_inj (l1 l2 : list Z) :
  Forall (fun b => 0 <= b <= 255) l1 -> Forall (fun b => 0 <= b <= 255) l2 ->
  map MD5.toSigned l1 = map MD5.toSigned l2 -> l1 = l2.
Proof.
  intros H1. revert l2.
  induction H1 as [|a l1 Ha _ IH]; intros l2 H2 H;
    destruct H2 as [|b l2 Hb H2]; try discriminate; [reflexivity|].
  cbn in H. injection H as E1 E2. f_equal; [|auto].
  unfold MD5.toSigned in E1.
  destruct (Z.leb_spec 128 a), (Z.leb_spec 128 b); lia.
Qed.

(** Two hashes are equal exactly when the MD5 digests of the inputs are. *)
Lemma computeEventHash_eq_iff (e1 e2 : Event) :
  computeEventHash e1 = computeEventHash e2 <->
  MD5.digest (MD5.bytesOfString (hashInput e1)) =
  MD5.digest (MD5.bytesOfString (hashInput e2)).
Proof.
  unfold computeEventHash. split; intros H.
  - apply join_hex_inj in H; try apply computeDigest_signed.
    unfold MD5.computeDigest in H.
    apply toSigned_inj in H; auto using digest_range.
  - unfold MD5.computeDigest. now rewrite H.
Qed.

(** *** Which fields the hash input depends on *)

Inductive HashedField : Type :=
  FDepartment | FStart | FEnd | FOnSite | FService | FTitle.

Definition agreeOn (f : HashedField) (e1 e2 : Event) : Prop :=
  match f with
  | FDepartment => department e1 = department e2
  | FStart => startDate e1 = startDate e2
  | FEnd => endDate e1 = endDate e2
  | FOnSite => surSiteCCFHK e1 = surSiteCCFHK e2
  | FService => service e1 = service e2
  | FTitle => event e1 = event e2
  end.

(** [e2] is [e1] with the hashed field [f] changed and the other hashed
    fields kept; the fields outside the hash are unconstrained. *)
Definition changesExactly (f : HashedField) (e1 e2 : Event) : Prop :=
  ~ agreeOn f e1 e2 /\ forall g, g <> f -> agreeOn g e1 e2.

(** The dates of an event are valid time values. *)
Definition validDates (e : Event) : Prop :=
  ISO.validTime (startDate e) /\
  forall d, endDate e = Some d -> ISO.validTime d.

Definition endStr (e : Event) : string :=
  match endDate e with Some d => ISO.toISOString d | None => "" end.

Lemma endStr_inj (e1 e2 : Event) :
  validDates e1 -> validDates e2 -> endStr e1 = endStr e2 ->
  endDate e1 = endDate e2.
Proof.
  unfold validDates, endStr. intros [_ V1] [_ V2] H.
  destruct (endDate e1) as [a|], (endDate e2) as [b|].
  - f_equal. apply ISO.toISOString_inj; auto.
  - now apply ISO.toISOString_nonempty in H.
  - symmetry in H. now apply ISO.toISOString_nonempty in H.
  - reflexivity.
Qed.

Lemma hashInput_agree (e1 e2 : Event) :
  (forall g, agreeOn g e1 e2) -> hashInput e1 = hashInput e2.
Proof.
  intros H. unfold hashInput.
  pose proof (H FDepartment) as Hd. pose proof (H FStart) as Hs.
  pose proof (H FEnd) as He. pose proof (H FOnSite) as Ho.
  pose proof (H FService) as Hv. pose proof (H FTitle) as Ht.
  cbn in *. now rewrite Hd, Hs, He, Ho, Hv, Ht.
Qed.

(** Changing one hashed field changes the hash input. *)
Lemma hashInput_sensitive (f : HashedField) (e1 e2 : Event) :
  validDates e1 -> validDates e2 -> changesExactly f e1 e2 ->
  hashInput e1 <> hashInput e2.
Proof.
  intros V1 V2 [Hne Hag] H. apply Hne. clear Hne.
  unfold hashInput in H. fold (endStr e1) in H. fold (endStr e2) in H.
  assert (Hd : f <> FDepartment -> department e1 = department e2)
    by (intros N; apply (Hag FDepartment); congruence).
  assert (Hs : f <> FStart -> startDate e1 = startDate e2)
    by (intros N; apply (Hag FStart); congruence).
  assert (He : f <> FEnd -> endStr e1 = endStr e2).
  { intros N. unfold endStr. pose proof (Hag FEnd) as E. cbn in E.
    rewrite E by congruence. reflexivity. }
  assert (Ho : f <> FOnSite -> surSiteCCFHK e1 = surSiteCCFHK e2)
    by (intros N; apply (Hag FOnSite); congruence).
  assert (Hv : f <> FService -> service e1 = service e2)
    by (intros N; apply (Hag FService); congruence).
  assert (Ht : f <> FTitle -> event e1 = event e2)
    by (intros N; apply (Hag FTitle); congruence).
  clear Hag.
  destruct f; cbn;
    try (rewrite Hd in H by discriminate);
    try (rewrite Hs in H by discriminate);
    try (rewrite He in H by discriminate);
    try (rewrite Ho in H by discriminate);
    try (rewrite Hv in H by discriminate);
    try (rewrite Ht in H by discriminate).
  - now apply append_inv_tail in H.
  - do 2 apply append_inv_head in H. apply append_inv_tail in H.
    apply ISO.toISOString_inj; [exact (proj1 V1)|exact (proj1 V2)|exact H].
  - do 4 apply append_inv_head in H. apply append_inv_tail in H.
    now apply endStr_inj.
  - do 10 apply append_inv_head in H.
    destruct (surSiteCCFHK e1), (surSiteCCFHK e2); congruence.
  - do 6 apply append_inv_head in H. now apply append_inv_tail in H.
  - do 8 apply append_inv_head in H. now apply append_inv_tail in H.
Qed.

(** Two distinct inputs with the same MD5 digest. *)
Definition md5Collision (s1 s2 : string) : Prop :=
  s1 <> s2 /\
  MD5.digest (MD5.bytesOfString s1) = MD5.digest (MD5.bytesOfString s2).

(** The conversion of the raw digest to text, the last step of
    [computeEventHash]. *)
Definition hexOfDigest (rawHash : list Z) : string :=
  join (map hexOfByte rawHash).

Lemma computeEventHash_hexOfDigest (e : Event) :
  computeEventHash e = hexOfDigest (MD5.computeDigest (hashInput e)).
Proof. reflexivity. Qed.

End HashFacts.

Module HashTests.
Import Hash.
Local Open Scope string_scope.

Definition hexOfString (s : string) : string :=
  join (map hexOfByte (MD5.computeDigest s)).

Example md5_empty : hexOfString "" = "d41d8cd98f00b204e9800998ecf8427e".
Proof. vm_compute. reflexivity. Qed.

Example md5_abc : hexOfString "abc" = "900150983cd24fb0d6963f7d28e17f72".
Proof. vm_compute. reflexivity. Qed.

Example iso_epoch : ISO.toISOString 0 = "1970-01-01T00:00:00.000Z".
Proof. vm_compute. reflexivity. Qed.

Example iso_2025 :
  ISO.toISOString 1756684800123 = "2025-09-01T00:00:00.123Z".
Proof. vm_compute. reflexivity. Qed.

Example iso_bc :
  ISO.toISOString (-62167219200001) = "-000001-12-31T23:59:59.999Z".
Proof. vm_compute. reflexivity. Qed.
End HashTests.

(* ====================================================================== *)
(** ** Spreadsheet values and the platform functions left abstract *)
(* ====================================================================== *)

Module Sheets.

Local Open Scope string_scope.
Local Open Scope list_scope.
Local Open Scope Z_scope.

(** A value returned by [Range.getValues()]: text, number, boolean or
    date.  An empty cell is the empty text. *)
Inductive Cell : Type :=
| CStr (s : string)
| CNum (q : QArith_base.Q)
| CBool (b : bool)
| CDate (t : Z).

(** How a call ends: it returns a value, or it throws an error with a
    message. *)
Inductive Completion (A : Type) : Type :=
| Normal (a : A)
| Throw (message : string).
Arguments Normal {A} a.
Arguments Throw {A} message.

(** Functions of the JavaScript runtime whose result depends on Unicode
    tables, on the locale or on the engine; [formatInvalidDate] is what
    [Utilities.formatDate] does when it is given an Invalid Date. *)
Record Platform : Type := {
  LocalTZA : Z;
  numberToString : QArith_base.Q -> string;
  dateToString : Z -> string;
  dateParse : string -> option Z;
  toLocaleDateString : Z -> string;
  toLocaleString : Z -> string;
  toLowerCase : string -> string;
  normalizeNFD : string -> string;
  formatInvalidDate : Completion string
}.

Definition isEmptyString (s : string) : bool :=
  match s with "" => true | _ => false end.

(** JavaScript truthiness of a cell value. *)
Definition truthy (c : Cell) : bool :=
  match c with
  | CStr s => negb (isEmptyString s)
  | CNum q => negb (QArith_base.Qnum q =? 0)
  | CBool b => b
  | CDate _ => true
  end.

(** [c || d] *)
Definition orElse (c d : Cell) : Cell := if truthy c then c else d.

(** [String(c)] *)
Definition ToString (pf : Platform) (c : Cell) : string :=
  match c with
  | CStr s => s
  | CNum q => numberToString pf q
  | CBool b => if b then "true" else "false"
  | CDate t => dateToString pf t
  end.

(** [row[col]]; a missing element is [undefined], which behaves like the
    empty text everywhere the script uses it. *)
Definition getCell (row : list Cell) (col : Z) : Cell :=
  if col <? 0 then CStr "" else nth (Z.to_nat col) row (CStr "").

(** *** String.prototype.trim, on UTF-8 bytes *)

Definition bytes (l : list nat) : list ascii := map ascii_of_nat l.

(** WhiteSpace and LineTerminator code points of ECMAScript. *)
Definition whiteSpace : list (list ascii) :=
  map bytes
    [[9]; [10]; [11]; [12]; [13]; [32]; [194; 160]; [225; 154; 128];
     [226; 128; 128]; [226; 128; 129]; [226; 128; 130]; [226; 128; 131];
     [226; 128; 132]; [226; 128; 133]; [226; 128; 134]; [226; 128; 135];
     [226; 128; 136]; [226; 128; 137]; [226; 128; 138]; [226; 128; 168];
     [226; 128; 169]; [226; 128; 175]; [226; 129; 159]; [227; 128; 128];
     [239; 187; 191]]%nat.

Fixpoint stripPrefix (p s : list ascii) : option (list ascii) :=
  match p, s with
  | [], _ => Some s
  | a :: p', b :: s' => if Ascii.eqb a b then stripPrefix p' s' else None
  | _ :: _, [] => None
  end.

Fixpoint stripAny (ps : list (list ascii)) (s : list ascii)
  : option (list ascii) :=
  match ps with
  | [] => None
  | p :: ps' =>
      match stripPrefix p s with
      | Some r => Some r
      | None => stripAny ps' s
      end
  end.

Fixpoint stripAll (fuel : nat) (ps : list (list ascii)) (s : list ascii)
  : list ascii :=
  match fuel with
  | O => s
  | S fuel' =>
      match stripAny ps s with
      | Some r => stripAll fuel' ps r
      | None => s
      end
  end.

Definition trimStart (s : list ascii) : list ascii :=
  stripAll (List.length s) whiteSpace s.

Definition trimEnd (s : list ascii) : list ascii :=
  rev (stripAll (List.length s) (map (@rev ascii) whiteSpace) (rev s)).

Definition trim (s : string) : string :=
  string_of_list_ascii (trimEnd (trimStart (list_ascii_of_string s))).

(** [Array.prototype.indexOf] on texts and [findIndex]; -1 when absent. *)
Fixpoint findIndexFrom {A : Type} (p : A -> bool) (l : list A) (i : Z) : Z :=
  match l with
  | [] => -1
  | x :: r => if p x then i else findIndexFrom p r (i + 1)
  end.

Definition findIndex {A : Type} (p : A -> bool) (l : list A) : Z :=
  findIndexFrom p l 0.

Definition indexOf (l : list string) (s : string) : Z :=
  findIndex (String.eqb s) l.

(** The elements of a list with their indices, counted from [i]. *)
Fixpoint indexedFrom {A : Type} (i : Z) (l : list A) : list (Z * A) :=
  match l with
  | [] => []
  | x :: r => (i, x) :: indexedFrom (i + 1) r
  end.

(** The double quote character, as a text. *)
Definition dq : string := String (ascii_of_nat 34) "".

Example trim_example : trim "  Messe de Noel 	" = "Messe de Noel".
Proof. vm_compute. reflexivity. Qed.

End Sheets.

(* ====================================================================== *)
(** ** The error sheet *)
(* ====================================================================== *)

Module Errors.

Import Sheets.
Local Open Scope string_scope.
Local Open Scope list_scope.
Local Open Scope Z_scope.

(** A data row of the sheet: the six columns Horodatage, Type, Departement,
    Ligne, Description, Details. *)
Record ErrorRow : Type := {
  horodatage : Cell;
  errType : Cell;
  errDepartment : Cell;
  ligne : Cell;
  description : Cell;
  details : Cell
}.

(** The sheet is absent ([None]) or holds the rows under its header. *)
Definition ErrorSheet : Type := option (list ErrorRow).

Definition getLastRow (rows : list ErrorRow) : Z :=
  1 + Z.of_nat (List.length rows).

(** [cell !== type] for a text [type]. *)
Definition strictNeqStr (c : Cell) (type : string) : bool :=
  match c with
  | CStr s => negb (String.eqb s type)
  | _ => true
  end.

(** [getRange(2, 1, n, 6).setValues(values)] on a cleared data area. *)
Definition setValuesAt2 (values cleared : list ErrorRow) : list ErrorRow :=
  values ++ skipn (List.length values) cleared.

Definition clearErrorsByType (type : string) (sh : ErrorSheet) : ErrorSheet :=
  match sh with
  | None => None
  | Some rows =>
      let lastRow := getLastRow rows in
      if lastRow <=? 1 then Some rows
      else
        let data := rows in
        let rowsToKeep := filter (fun row => strictNeqStr (errType row) type) data in
        let cleared := @nil ErrorRow in
        if (0 <? Z.of_nat (List.length rowsToKeep))
        then Some (setValuesAt2 rowsToKeep cleared)
        else Some cleared
  end.

(** [getErrorSheet]: the sheet is created with its header when missing. *)
Definition getErrorSheet (sh : ErrorSheet) : list ErrorRow :=
  match sh with
  | None => []
  | Some rows => rows
  end.

Definition logError (pf : Platform) (now : Z)
    (type department : string) (row : Cell) (descr det : string)
    (sh : ErrorSheet) : ErrorSheet :=
  let errorSheet := getErrorSheet sh in
  let timestamp := toLocaleString pf now in
  Some (errorSheet ++
        [{| horodatage := CStr timestamp;
            errType := CStr type;
            errDepartment := orElse (CStr department) (CStr "");
            ligne := orElse row (CStr "");
            description := CStr descr;
            details := orElse (CStr det) (CStr "") |}]).

Definition DONNEES : string := "DONNÉES".
Definition SYNC_GCAL : string := "SYNC_GCAL".

Definition hasType (type : string) (r : ErrorRow) : Prop :=
  errType r = CStr type.

(** The rows of [rows'] are those of [rows] with the rows of the given
    type erased, in the same order. *)
Inductive Erased (type : string) : list ErrorRow -> list ErrorRow -> Prop :=
| Erased_nil : Erased type [] []
| Erased_drop r rows rows' :
    hasType type r -> Erased type rows rows' -> Erased type (r :: rows) rows'
| Erased_keep r rows rows' :
    ~ hasType type r -> Erased type rows rows' ->
    Erased type (r :: rows) (r :: rows').

Lemma strictNeqStr_false (c : Cell) (type : string) :
  strictNeqStr c type = false <-> c = CStr type.
Proof.
  destruct c; cbn; split; intros H; try discriminate.
  - apply negb_false_iff, String.eqb_eq in H. now subst.
  - injection H as ->. now rewrite String.eqb_refl.
Qed.

Lemma Erased_filter (type : string) (rows : list ErrorRow) :
  Erased type rows (filter (fun row => strictNeqStr (errType row) type) rows).
Proof.
  induction rows as [|r rows IH]; cbn.
  - constructor.
  - destruct (strictNeqStr (errType r) type) eqn:E.
    + apply Erased_keep; [|exact IH]. unfold hasType. intros H.
      apply strictNeqStr_false in H. congruence.
    + apply Erased_drop; [|exact IH]. now apply strictNeqStr_false.
Qed.

Lemma Erased_functional (type : string) (rows r1 r2 : list ErrorRow) :
  Erased type rows r1 -> Erased type rows r2 -> r1 = r2.
Proof.
  intros H1. revert r2.
  induction H1; intros r2 H2; inversion H2; subst; try contradiction; auto.
  f_equal. auto.
Qed.

End Errors.

(* ====================================================================== *)
(** ** Event normaliser: [getAllEvents] *)
(* ====================================================================== *)

Module Normalizer.

Import Sheets Errors JSDate.
Local Open Scope string_scope.
Local Open Scope list_scope.
Local Open Scope Z_scope.

Record Sheet : Type := {
  getName : string;
  getSheetId : Z;
  getValues : list (list Cell)
}.

Module CONFIG.
Definition calendarSheetName : string := "Calendrier Unifié".
Definition startColumn : string := "Début".
Definition endColumn : string := "Fin".
Definition dateColumn : string := "Date".
Definition syncTrackingSheetName : string := "_CalendarSync".
Definition errorSheetName : string := "Erreurs".
Definition maxEventsPerDay : Z := 8.
Definition defaultEventDurationHours : Z := 1.
End CONFIG.

(** Removes the combining marks U+0300..U+036F (CC 80..CD AF in UTF-8). *)
Definition isCombining (a b : ascii) : bool :=
  let x := nat_of_ascii a in
  let y := nat_of_ascii b in
  ((x =? 204) && (128 <=? y) && (y <=? 191)
   || (x =? 205) && (128 <=? y) && (y <=? 175))%nat.

Fixpoint stripCombining (s : list ascii) : list ascii :=
  match s with
  | [] => []
  | a :: t =>
      match t with
      | [] => [a]
      | b :: r =>
          if isCombining a b then stripCombining r
          else a :: stripCombining t
      end
  end.

Definition normalizeForComparison (pf : Platform) (str : string) : string :=
  string_of_list_ascii
    (stripCombining
       (list_ascii_of_string (normalizeNFD pf (toLowerCase pf str)))).

Definition includes (hay needle : string) : bool :=
  match String.index 0 needle hay with Some _ => true | None => false end.

Definition isEventColumn (pf : Platform) (header : string) : bool :=
  String.eqb (normalizeForComparison pf header) "evenement".

Definition isSurSiteColumn (pf : Platform) (header : string) : bool :=
  let normalized := normalizeForComparison pf header in
  includes normalized "sur site ccfhk"
  || String.eqb normalized "sur site ccfhk?".

Definition isSurCalendrierColumn (pf : Platform) (header : string) : bool :=
  let normalized := normalizeForComparison pf header in
  includes normalized "sur calendrier excel"
  || String.eqb normalized "sur calendrier excel?".

Definition toBooleanFilter (pf : Platform) (value : Cell) : bool :=
  if negb (truthy value) then false
  else
    let str := trim (toLowerCase pf (ToString pf value)) in
    String.eqb str "oui" || String.eqb str "yes" || String.eqb str "true"
    || String.eqb str "1" || String.eqb str "x".

Definition hasTimeComponent (pf : Platform) (value : Cell) : bool :=
  match value with
  | CDate t =>
      let lt := t + LocalTZA pf in
      negb (HourFromTime lt =? 0) || negb (MinFromTime lt =? 0)
      || negb (SecFromTime lt =? 0)
  | CNum q =>
      negb (Z.rem (QArith_base.Qnum q) (Z.pos (QArith_base.Qden q)) =? 0)
  | _ => false
  end.

Record Parsed : Type := { pdate : Z; phasTime : bool }.

(** [null] is [None]; a parsed date is always a valid time value. *)
Definition parseDateTimeValue (pf : Platform) (value : Cell) : option Parsed :=
  if negb (truthy value) then None
  else
    match value with
    | CDate t => Some {| pdate := t; phasTime := hasTimeComponent pf value |}
    | CNum q =>
        match TimeClip (Z.quot (QArith_base.Qnum q)
                               (Z.pos (QArith_base.Qden q))) with
        | Some t => Some {| pdate := t; phasTime := hasTimeComponent pf value |}
        | None => None
        end
    | CStr s =>
        match dateParse pf s with
        | Some t => Some {| pdate := t; phasTime := false |}
        | None => None
        end
    | CBool _ => Some {| pdate := 1; phasTime := false |}
    end.

(** The column indices found in a header row; -1 when absent. *)
Record Columns : Type := {
  useLegacy : bool;
  dateColIndex : Z;
  endCol : Z;
  serviceCol : Z;
  eventCol : Z;
  surSiteCol : Z;
  surCalendrierCol : Z
}.

Definition sheetColumns (pf : Platform) (headerRow : list Cell)
  : option Columns :=
  let headers := map (fun h => trim (ToString pf h)) headerRow in
  let startCol := indexOf headers CONFIG.startColumn in
  let endCol_ := indexOf headers CONFIG.endColumn in
  let legacyDateCol := indexOf headers CONFIG.dateColumn in
  let serviceCol_ := indexOf headers "Service" in
  let eventCol_ := findIndex (isEventColumn pf) headers in
  let surSiteCol_ := findIndex (isSurSiteColumn pf) headers in
  let surCalendrierCol_ := findIndex (isSurCalendrierColumn pf) headers in
  let useLegacy_ := (startCol =? -1) && negb (legacyDateCol =? -1) in
  let dateColIndex_ := if useLegacy_ then legacyDateCol else startCol in
  if (dateColIndex_ =? -1) || (serviceCol_ =? -1) || (eventCol_ =? -1)
  then None
  else Some {| useLegacy := useLegacy_; dateColIndex := dateColIndex_;
               endCol := endCol_; serviceCol := serviceCol_;
               eventCol := eventCol_; surSiteCol := surSiteCol_;
               surCalendrierCol := surCalendrierCol_ |}.

Definition rowNumber (i : Z) : Cell := CNum (QArith_base.Qmake (i + 1) 1).

Definition missingDateDetails (pf : Platform) (eventName : string)
    (rawDateValue : Cell) : string :=
  "Événement: " ++ dq ++ eventName ++ dq ++ ", Valeur date: " ++ dq
  ++ ToString pf (orElse rawDateValue (CStr "(vide)")) ++ dq.

Definition invalidEndDetails (pf : Platform) (eventName : string)
    (rawEnd : Cell) : string :=
  "Événement: " ++ dq ++ eventName ++ dq ++ ", Valeur fin: " ++ dq
  ++ ToString pf rawEnd ++ dq.

Definition missingNameDetails (pf : Platform) (start : Z) (service : string)
  : string :=
  "Date: " ++ toLocaleDateString pf start ++ ", Service: " ++ dq
  ++ ToString pf (orElse (CStr service) (CStr "(vide)")) ++ dq.

(** The body of the row loop of [getAllEvents], for the data row of index
    [i] (so of row number [i + 1]): the error sheet after the row and the
    event pushed, if any. *)
Definition processRow (pf : Platform) (now : Z) (sheetName : string)
    (sheetId_ : Z) (cols : Columns) (i : Z) (row : list Cell)
    (errs : ErrorSheet) : ErrorSheet * option Event :=
  let service_ :=
    trim (ToString pf (orElse (getCell row (serviceCol cols)) (CStr ""))) in
  let eventName :=
    trim (ToString pf (orElse (getCell row (eventCol cols)) (CStr ""))) in
  let rawDateValue := getCell row (dateColIndex cols) in
  match parseDateTimeValue pf rawDateValue with
  | None =>
      if negb (isEmptyString eventName) then
        (logError pf now DONNEES sheetName (rowNumber i)
           "Date manquante ou invalide"
           (missingDateDetails pf eventName rawDateValue) errs, None)
      else (errs, None)
  | Some startParsed =>
      let '(errs1, endParsed) :=
        if negb (useLegacy cols) && negb (endCol cols =? -1)
           && truthy (getCell row (endCol cols))
        then
          match parseDateTimeValue pf (getCell row (endCol cols)) with
          | Some ep => (errs, Some ep)
          | None =>
              (logError pf now DONNEES sheetName (rowNumber i)
                 "Date de fin invalide"
                 (invalidEndDetails pf eventName (getCell row (endCol cols)))
                 errs, None)
          end
        else (errs, None) in
      let surSiteCCFHK_ :=
        if negb (surSiteCol cols =? -1)
        then toBooleanFilter pf (getCell row (surSiteCol cols)) else false in
      let surCalendrierExcel_ :=
        if negb (surCalendrierCol cols =? -1)
        then toBooleanFilter pf (getCell row (surCalendrierCol cols))
        else false in
      let surCalendrierExcelRaw_ :=
        if negb (surCalendrierCol cols =? -1)
        then toLowerCase pf
               (trim (ToString pf
                        (orElse (getCell row (surCalendrierCol cols))
                                (CStr ""))))
        else "" in
      if isEmptyString eventName then
        (logError pf now DONNEES sheetName (rowNumber i)
           "Nom d'événement manquant"
           (missingNameDetails pf (pdate startParsed) service_) errs1, None)
      else
        (errs1,
         Some {| date := pdate startParsed;
                 startDate := pdate startParsed;
                 endDate := option_map pdate endParsed;
                 hasTime :=
                   phasTime startParsed
                   || match endParsed with
                      | Some ep => phasTime ep
                      | None => false
                      end;
                 service := service_;
                 event := eventName;
                 department := sheetName;
                 sheetId := sheetId_;
                 rowIndex := i + 1;
                 surSiteCCFHK := surSiteCCFHK_;
                 surCalendrierExcel := surCalendrierExcel_;
                 surCalendrierExcelRaw := surCalendrierExcelRaw_ |})
  end.

(** The rows [data[i]], [data[i+1]], ... of a sheet. *)
Fixpoint processRows (pf : Platform) (now : Z) (sheetName : string)
    (sheetId_ : Z) (cols : Columns) (i : Z) (rows : list (list Cell))
    (st : ErrorSheet * list Event) : ErrorSheet * list Event :=
  match rows with
  | [] => st
  | row :: rest =>
      let '(errs, events) := st in
      let '(errs', ev) := processRow pf now sheetName sheetId_ cols i row errs in
      processRows pf now sheetName sheetId_ cols (i + 1) rest
        (errs', match ev with Some e => events ++ [e] | None => events end)
  end.

(** The callback of [sheets.forEach]. *)
Definition processSheet (pf : Platform) (now : Z)
    (st : ErrorSheet * list Event) (sheet : Sheet)
  : ErrorSheet * list Event :=
  let sheetName := getName sheet in
  if String.eqb sheetName CONFIG.calendarSheetName then st
  else if String.eqb sheetName CONFIG.syncTrackingSheetName then st
  else if String.eqb sheetName CONFIG.errorSheetName then st
  else
    match getValues sheet with
    | headerRow :: ((_ :: _) as rows) =>
        match sheetColumns pf headerRow with
        | None => st
        | Some cols =>
            processRows pf now sheetName (getSheetId sheet) cols 1 rows st
        end
    | _ => st
    end.

(** [events.sort((a, b) => a.startDate - b.startDate)], a stable sort. *)
Fixpoint insertByStart (e : Event) (sorted : list Event) : list Event :=
  match sorted with
  | [] => [e]
  | x :: r =>
      if startDate e <=? startDate x then e :: sorted
      else x :: insertByStart e r
  end.

Definition sortByStart (events : list Event) : list Event :=
  fold_right insertByStart [] events.

Definition getAllEvents (pf : Platform) (now : Z) (sheets : list Sheet)
    (errs : ErrorSheet) : ErrorSheet * list Event :=
  let errs0 := clearErrorsByType DONNEES errs in
  let '(errs1, events) := fold_left (processSheet pf now) sheets (errs0, []) in
  (errs1, sortByStart events).

(** *** Every event read has its legacy [date] equal to its start *)

Lemma processRow_date (pf : Platform) (now : Z) (name : string) (id : Z)
    (cols : Columns) (i : Z) (row : list Cell) (errs : ErrorSheet) (ev : Event) :
  snd (processRow pf now name id cols i row errs) = Some ev ->
  date ev = startDate ev.
Proof.
  unfold processRow.
  destruct (parseDateTimeValue pf (getCell row (dateColIndex cols))) as [sp|].
  - destruct (negb (useLegacy cols) && negb (endCol cols =? -1)
              && truthy (getCell row (endCol cols)));
      [destruct (parseDateTimeValue pf (getCell row (endCol cols)))|];
      destruct (isEmptyString _); cbn; intros H; try discriminate;
      injection H as <-; reflexivity.
  - destruct (negb (isEmptyString _)); cbn; discriminate.
Qed.

Lemma processRows_date (pf : Platform) (now : Z) (name : string) (id : Z)
    (cols : Columns) (rows : list (list Cell)) (i : Z)
    (st : ErrorSheet * list Event) :
  Forall (fun ev => date ev = startDate ev) (snd st) ->
  Forall (fun ev => date ev = startDate ev)
         (snd (processRows pf now name id cols i rows st)).
Proof.
  revert i st. induction rows as [|row rows IH]; intros i [errs evs] H;
    cbn [processRows]; [exact H|].
  pose proof (processRow_date pf now name id cols i row errs) as D.
  destruct (processRow pf now name id cols i row errs) as [errs' [ev|]];
    apply IH; cbn [snd] in *; [|exact H].
  apply Forall_app. split; [exact H|]. constructor; [now apply D|constructor].
Qed.

Lemma insertByStart_In (e x : Event) (l : list Event) :
  In x (insertByStart e l) <-> x = e \/ In x l.
Proof.
  induction l as [|y l IH]; cbn; [intuition|].
  destruct (startDate e <=? startDate y); cbn; [intuition|].
  rewrite IH. intuition.
Qed.

Lemma sortByStart_In (x : Event) (l : list Event) :
  In x (sortByStart l) <-> In x l.
Proof.
  unfold sortByStart. induction l as [|y l IH]; cbn; [tauto|].
  rewrite insertByStart_In, IH. intuition.
Qed.

Lemma getAllEvents_date (pf : Platform) (now : Z) (ss : list Sheet)
    (errs : ErrorSheet) (ev : Event) :
  In ev (snd (getAllEvents pf now ss errs)) -> date ev = startDate ev.
Proof.
  unfold getAllEvents.
  assert (H : forall st,
             Forall (fun ev => date ev = startDate ev) (snd st) ->
             Forall (fun ev => date ev = startDate ev)
                    (snd (fold_left (processSheet pf now) ss st))).
  { induction ss as [|s ss IH]; intros st F; cbn [fold_left]; [exact F|].
    apply IH. unfold processSheet.
    destruct (String.eqb _ CONFIG.calendarSheetName); [exact F|].
    destruct (String.eqb _ CONFIG.syncTrackingSheetName); [exact F|].
    destruct (String.eqb _ CONFIG.errorSheetName); [exact F|].
    destruct (getValues s) as [|headerRow [|row rows]]; try exact F.
    destruct (sheetColumns pf headerRow); [|exact F].
    now apply processRows_date. }
  specialize (H (clearErrorsByType DONNEES errs, []) (Forall_nil _)).
  destruct (fold_left (processSheet pf now) ss _) as [errs1 events].
  cbn [snd] in *. intros I. apply (proj1 (sortByStart_In _ _)) in I.
  rewrite Forall_forall in H. exact (H ev I).
Qed.

End Normalizer.

(* ====================================================================== *)
(** ** Filter engine: [parseAcademicYear], [getFilteredEvents] *)
(* ====================================================================== *)

Module Filters.

Import Sheets JSDate.
Local Open Scope string_scope.
Local Open Scope list_scope.
Local Open Scope Z_scope.

(** [new Date(year, month, date, hours, minutes, seconds)], in local time;
    a year from 0 to 99 means 1900 + year.  [newDate] is the time value the
    constructor computes before TimeClip, which is the time value of the
    date whenever it lies in the range of valid dates; [newDateObject] is
    the Date object itself, [None] when it is an Invalid Date. *)
Definition fullYear (year : Z) : Z :=
  if (0 <=? year) && (year <=? 99) then 1900 + year else year.

Definition newDate (pf : Platform) (year month day hours minutes seconds : Z)
  : Z :=
  let yr := fullYear year in
  MakeDate (MakeDay yr month day) (MakeTime hours minutes seconds 0)
  - LocalTZA pf.

Definition newDateObject (pf : Platform)
    (year month day hours minutes seconds : Z) : option Z :=
  TimeClip (newDate pf year month day hours minutes seconds).

Definition getFullYear (pf : Platform) (t : Z) : Z :=
  YearFromTime (t + LocalTZA pf).
Definition getMonth (pf : Platform) (t : Z) : Z :=
  MonthFromTime (t + LocalTZA pf).
Definition getDate (pf : Platform) (t : Z) : Z :=
  DateFromTime (t + LocalTZA pf).
Definition getDay (pf : Platform) (t : Z) : Z :=
  WeekDay (t + LocalTZA pf).

(** The filter values read from the calendar sheet. *)
Record FilterSpec : Type := {
  year : string;
  timeRange : string;
  fdepartment : string;
  fsurCalendrierExcel : string;
  fsurSiteCCFHK : string;
  search : string
}.

Record YearRange : Type := { rstart : Z; rend : Z }.

Definition isDigit (c : ascii) : bool :=
  let n := nat_of_ascii c in ((48 <=? n) && (n <=? 57))%nat.

Definition digitVal (c : ascii) : Z := Z.of_nat (nat_of_ascii c) - 48.

Definition fourDigits (a b c d : ascii) : Z :=
  1000 * digitVal a + 100 * digitVal b + 10 * digitVal c + digitVal d.

(** The pattern /(\d{4})-(\d{4})/ anchored at the head of [s]. *)
Definition yearsAt (s : list ascii) : option (Z * Z) :=
  match s with
  | a :: b :: c :: d :: m :: e :: f :: g :: h :: _ =>
      if isDigit a && isDigit b && isDigit c && isDigit d
         && Ascii.eqb m "-"
         && isDigit e && isDigit f && isDigit g && isDigit h
      then Some (fourDigits a b c d, fourDigits e f g h)
      else None
  | _ => None
  end.

(** [yearStr.match(/(\d{4})-(\d{4})/)]: the leftmost match, with the
    values of its two groups. *)
Fixpoint matchYears (s : list ascii) : option (Z * Z) :=
  match s with
  | [] => None
  | _ :: t =>
      match yearsAt s with
      | Some r => Some r
      | None => matchYears t
      end
  end.

Definition parseAcademicYear (pf : Platform) (now : Z) (yearStr : string)
  : YearRange :=
  match matchYears (list_ascii_of_string yearStr) with
  | None =>
      let year_ :=
        if 7 <=? getMonth pf now then getFullYear pf now
        else getFullYear pf now - 1 in
      {| rstart := newDate pf year_ 7 1 0 0 0;
         rend := newDate pf (year_ + 1) 6 31 23 59 59 |}
  | Some (startYear, _) =>
      {| rstart := newDate pf startYear 7 1 0 0 0;
         rend := newDate pf (startYear + 1) 6 31 23 59 59 |}
  end.

Definition monthNames : list string :=
  ["août"; "septembre"; "octobre"; "novembre"; "décembre";
   "janvier"; "février"; "mars"; "avril"; "mai"; "juin"; "juillet"].

Definition passesTimeRangeFilter (pf : Platform) (now : Z) (ev : Event)
    (timeRange_ : string) (yearRange : YearRange) : bool :=
  if String.eqb timeRange_ "Tout" then true
  else if String.eqb timeRange_ "Actuel + À venir" then
    let startOfMonth :=
      newDate pf (getFullYear pf now) (getMonth pf now) 1 0 0 0 in
    startOfMonth <=? date ev
  else
    let monthIndex := indexOf monthNames (toLowerCase pf timeRange_) in
    if negb (monthIndex =? -1) then
      let calendarMonth := (monthIndex + 7) mod 12 in
      let eventMonth := getMonth pf (date ev) in
      if negb (eventMonth =? calendarMonth) then false
      else (rstart yearRange <=? date ev) && (date ev <=? rend yearRange)
    else true.

(** The first test of the filter callback: the academic-year window. *)
Definition outsideYear (yearRange : YearRange) (ev : Event) : bool :=
  (date ev <? rstart yearRange) || (rend yearRange <? date ev).

Definition keepEvent (pf : Platform) (now : Z) (filters : FilterSpec)
    (yearRange : YearRange) (ev : Event) : bool :=
  if outsideYear yearRange ev then false
  else if negb (passesTimeRangeFilter pf now ev (timeRange filters) yearRange)
  then false
  else if negb (String.eqb (fdepartment filters) "Tous")
          && negb (String.eqb (department ev) (fdepartment filters))
  then false
  else if negb (isEmptyString (search filters))
          && negb (Normalizer.includes
                     (toLowerCase pf (service ev ++ " " ++ event ev))
                     (search filters))
  then false
  else if negb (isEmptyString (fsurSiteCCFHK filters))
          && negb (String.eqb (fsurSiteCCFHK filters) "Tous")
          && negb (Bool.eqb (surSiteCCFHK ev)
                            (String.eqb (fsurSiteCCFHK filters) "Oui"))
  then false
  else if negb (isEmptyString (fsurCalendrierExcel filters))
          && negb (String.eqb (fsurCalendrierExcel filters) "Tous")
          && negb (Bool.eqb (surCalendrierExcel ev)
                            (String.eqb (fsurCalendrierExcel filters) "Oui"))
  then false
  else true.

Definition getFilteredEvents (pf : Platform) (now : Z)
    (allEvents : list Event) (filters : FilterSpec) : list Event :=
  let yearRange := parseAcademicYear pf now (year filters) in
  filter (keepEvent pf now filters yearRange) allEvents.

(** *** Facts *)

Lemma fullYear_id (y : Z) : 100 <= y -> fullYear y = y.
Proof.
  intros H. unfold fullYear.
  destruct (Z.leb_spec 0 y), (Z.leb_spec y 99); cbn [andb]; lia.
Qed.

(** Local civil fields of [newDate] for a date of the calendar. *)
Lemma newDate_fields (pf : Platform) (y m d h mi s : Z) :
  100 <= y -> 0 <= m <= 11 -> 1 <= d <= daysInMonth y m ->
  0 <= h < 24 -> 0 <= mi < 60 -> 0 <= s < 60 ->
  let t := newDate pf y m d h mi s in
  getFullYear pf t = y /\ getMonth pf t = m /\ getDate pf t = d /\
  TimeWithinDay (t + LocalTZA pf) = MakeTime h mi s 0.
Proof.
  intros Hy Hm Hd Hh Hmi Hs t.
  assert (Ht : 0 <= MakeTime h mi s 0 < msPerDay)
    by (unfold MakeTime, msPerHour, msPerMinute, msPerSecond, msPerDay; lia).
  assert (E : t + LocalTZA pf = MakeDate (MakeDay y m d) (MakeTime h mi s 0)).
  { subst t. unfold newDate. rewrite (fullYear_id y Hy). lia. }
  unfold getFullYear, getMonth, getDate. rewrite E.
  pose proof (civil_of_MakeDay y m d _ Hm Hd Ht) as (A & B & C).
  pose proof (Day_MakeDate (MakeDay y m d) _ Ht) as [_ D].
  auto.
Qed.

Lemma newDate_mono_year (pf : Platform) (y : Z) :
  100 <= y ->
  newDate pf y 7 1 0 0 0 < newDate pf (y + 1) 6 31 23 59 59 /\
  newDate pf (y + 1) 6 31 23 59 59 + 1000 = newDate pf (y + 1) 7 1 0 0 0.
Proof.
  intros Hy. unfold newDate.
  rewrite (fullYear_id y), (fullYear_id (y + 1)) by lia.
  unfold MakeDate, MakeDay, MakeTime, msPerDay, msPerHour, msPerMinute,
    msPerSecond.
  change (7 / 12) with 0. change (6 / 12) with 0.
  change (7 mod 12) with 7. change (6 mod 12) with 6.
  rewrite !Z.add_0_r.
  rewrite (DayFromYear_succ y).
  pose proof (DaysInYear_leap y) as L. rewrite L.
  destruct (isLeapYear y), (isLeapYear (y + 1)); cbn; lia.
Qed.

End Filters.

(* ====================================================================== *)
(** ** Maps with text keys *)
(* ====================================================================== *)

(** A JavaScript [Map], or an object used as one, with text keys: an
    association list without repeated keys, in insertion order. *)
Module JsMap.

Section WithValues.

Context {V : Type}.

Definition t : Type := list (string * V).

Fixpoint get (k : string) (m : t) : option V :=
  match m with
  | [] => None
  | (k', v) :: r => if String.eqb k' k then Some v else get k r
  end.

Fixpoint set (k : string) (v : V) (m : t) : t :=
  match m with
  | [] => [(k, v)]
  | (k', v') :: r =>
      if String.eqb k' k then (k', v) :: r else (k', v') :: set k v r
  end.

Definition keys (m : t) : list string := map fst m.

Lemma get_set_same (k : string) (v : V) (m : t) : get k (set k v m) = Some v.
Proof.
  induction m as [|[k' v'] r IH]; cbn.
  - now rewrite String.eqb_refl.
  - destruct (String.eqb k' k) eqn:E; cbn; rewrite E; [reflexivity|exact IH].
Qed.

Lemma get_set_other (k k0 : string) (v : V) (m : t) :
  k0 <> k -> get k0 (set k v m) = get k0 m.
Proof.
  intros N. induction m as [|[k' v'] r IH]; cbn.
  - destruct (String.eqb_spec k k0); [congruence|reflexivity].
  - destruct (String.eqb_spec k' k) as [->|N']; cbn.
    + destruct (String.eqb_spec k k0); [congruence|reflexivity].
    + destruct (String.eqb_spec k' k0); [reflexivity|exact IH].
Qed.

Lemma get_None_keys (k : string) (m : t) : get k m = None <-> ~ In k (keys m).
Proof.
  induction m as [|[k' v'] r IH]; cbn.
  - tauto.
  - destruct (String.eqb_spec k' k) as [->|N].
    + split; [discriminate|]. intros H. elim H. now left.
    + rewrite IH. split; [intros H [E|I]; [congruence|contradiction]|tauto].
Qed.

Lemma keys_set (k k0 : string) (v : V) (m : t) :
  In k0 (keys (set k v m)) <-> k0 = k \/ In k0 (keys m).
Proof.
  induction m as [|[k' v'] r IH]; cbn.
  - split; [intros [E|[]]; auto|intros [E|[]]; auto].
  - destruct (String.eqb_spec k' k) as [->|N]; cbn.
    + split; [tauto|intros [E|H]; [left; congruence|exact H]].
    + rewrite IH. tauto.
Qed.

Lemma NoDup_set (k : string) (v : V) (m : t) :
  NoDup (keys m) -> NoDup (keys (set k v m)).
Proof.
  induction m as [|[k' v'] r IH]; cbn; intros H.
  - constructor; [intros []|constructor].
  - destruct (String.eqb_spec k' k) as [->|N]; cbn; [exact H|].
    inversion H as [|? ? H1 H2]; subst. constructor; [|now apply IH].
    intros I. apply keys_set in I. destruct I as [E|I]; [congruence|].
    contradiction.
Qed.

End WithValues.

Arguments t : clear implicits.

End JsMap.

(** A plain JavaScript object read by [obj[key]]: besides its own
    properties it has those it inherits from [Object.prototype].  The text
    is what the inherited value becomes when it is joined to a string. *)
Module JsObject.

Local Open Scope string_scope.
Local Open Scope list_scope.

Definition inheritedProperties : list (string * string) :=
  [("constructor", "function Object() { [native code] }");
   ("hasOwnProperty", "function hasOwnProperty() { [native code] }");
   ("isPrototypeOf", "function isPrototypeOf() { [native code] }");
   ("propertyIsEnumerable",
    "function propertyIsEnumerable() { [native code] }");
   ("toLocaleString", "function toLocaleString() { [native code] }");
   ("toString", "function toString() { [native code] }");
   ("valueOf", "function valueOf() { [native code] }");
   ("__defineGetter__", "function __defineGetter__() { [native code] }");
   ("__defineSetter__", "function __defineSetter__() { [native code] }");
   ("__lookupGetter__", "function __lookupGetter__() { [native code] }");
   ("__lookupSetter__", "function __lookupSetter__() { [native code] }");
   ("__proto__", "[object Object]")].

Definition isInherited (key : string) : bool :=
  match JsMap.get key inheritedProperties with
  | Some _ => true
  | None => false
  end.

(** The outcome of [obj[key]]: an own property, an inherited one (a
    function or an object, so truthy and not iterable), or [undefined]. *)
Inductive Lookup (V : Type) : Type :=
| Own (v : V)
| Inherited (text : string)
| Undefined.
Arguments Own {V} v.
Arguments Inherited {V} text.
Arguments Undefined {V}.

Definition get {V : Type} (key : string) (own : JsMap.t V) : Lookup V :=
  match JsMap.get key own with
  | Some v => Own v
  | None =>
      match JsMap.get key inheritedProperties with
      | Some text => Inherited text
      | None => Undefined
      end
  end.

(** [obj[key] = v] for a text [v]: the own property is created or
    replaced, except that assigning a text to [__proto__] does nothing. *)
Definition setText (key v : string) (own : JsMap.t string) : JsMap.t string :=
  if String.eqb key "__proto__" then own else JsMap.set key v own.

End JsObject.

(* ====================================================================== *)
(** ** Grid builder: [formatDayCell], [generateMonthGrid] *)
(* ====================================================================== *)

Module Grid.

Import Sheets JSDate Filters.
Local Open Scope string_scope.
Local Open Scope list_scope.
Local Open Scope Z_scope.

Record Period : Type := { pname : string; pstart : string; pend : string }.
Record Holiday : Type := { hdate : string; hname : string }.

(** [CONFIG.schoolHolidays[academicYear]] *)
Definition schoolHolidays (academicYear : string) : option (list Period) :=
  if String.eqb academicYear "2024-2025" then
    Some [ {| pname := "Vacances été"; pstart := "2024-06-28"; pend := "2024-08-27" |};
           {| pname := "Vacances d'octobre"; pstart := "2024-10-25"; pend := "2024-11-01" |};
           {| pname := "Vacances d'hiver"; pstart := "2024-12-23"; pend := "2025-01-05" |};
           {| pname := "Vacances Nouvel An chinois"; pstart := "2025-01-29"; pend := "2025-02-02" |};
           {| pname := "Vacances de Pâques"; pstart := "2025-04-14"; pend := "2025-04-27" |};
           {| pname := "Vacances de printemps"; pstart := "2025-05-26"; pend := "2025-05-29" |};
           {| pname := "Vacances été"; pstart := "2025-06-27"; pend := "2025-08-27" |} ]
  else if String.eqb academicYear "2025-2026" then
    Some [ {| pname := "Vacances été"; pstart := "2025-06-27"; pend := "2025-08-27" |};
           {| pname := "Vacances d'octobre"; pstart := "2025-10-24"; pend := "2025-10-31" |};
           {| pname := "Vacances d'hiver"; pstart := "2025-12-22"; pend := "2026-01-02" |};
           {| pname := "Vacances Nouvel An chinois"; pstart := "2026-02-16"; pend := "2026-02-20" |};
           {| pname := "Vacances de Pâques"; pstart := "2026-03-30"; pend := "2026-04-10" |};
           {| pname := "Vacances de printemps"; pstart := "2026-05-26"; pend := "2026-05-29" |};
           {| pname := "Vacances été"; pstart := "2026-06-27"; pend := "2026-08-27" |} ]
  else None.

(** [CONFIG.publicHolidays[academicYear]] *)
Definition publicHolidays (academicYear : string) : option (list Holiday) :=
  if String.eqb academicYear "2024-2025" then
    Some [ {| hdate := "2024-09-18"; hname := "Après Mi-automne" |};
           {| hdate := "2024-10-01"; hname := "Fête nationale" |};
           {| hdate := "2024-10-11"; hname := "Chung Yeung" |};
           {| hdate := "2024-12-25"; hname := "Noël" |};
           {| hdate := "2024-12-26"; hname := "Boxing Day" |};
           {| hdate := "2025-01-01"; hname := "Jour de l'an" |};
           {| hdate := "2025-01-29"; hname := "Nouvel An chinois" |};
           {| hdate := "2025-01-30"; hname := "2e jour Nouvel An chinois" |};
           {| hdate := "2025-01-31"; hname := "3e jour Nouvel An chinois" |};
           {| hdate := "2025-04-04"; hname := "Ching Ming" |};
           {| hdate := "2025-04-18"; hname := "Vendredi saint" |};
           {| hdate := "2025-04-19"; hname := "Après Vendredi saint" |};
           {| hdate := "2025-04-21"; hname := "Lundi Pâques" |};
           {| hdate := "2025-05-01"; hname := "Fête travail" |};
           {| hdate := "2025-05-05"; hname := "Bouddha" |};
           {| hdate := "2025-05-31"; hname := "Tuen Ng" |};
           {| hdate := "2025-07-01"; hname := "Fête SAR HK" |} ]
  else if String.eqb academicYear "2025-2026" then
    Some [ {| hdate := "2025-07-01"; hname := "Fête SAR HK" |};
           {| hdate := "2025-10-01"; hname := "Fête nationale" |};
           {| hdate := "2025-10-07"; hname := "Après Mi-automne" |};
           {| hdate := "2025-10-29"; hname := "Chung Yeung" |};
           {| hdate := "2025-12-25"; hname := "Noël" |};
           {| hdate := "2025-12-26"; hname := "Boxing Day" |};
           {| hdate := "2026-01-01"; hname := "Jour de l'an" |};
           {| hdate := "2026-02-17"; hname := "Nouvel An chinois" |};
           {| hdate := "2026-02-18"; hname := "2e jour Nouvel An chinois" |};
           {| hdate := "2026-02-19"; hname := "3e jour Nouvel An chinois" |};
           {| hdate := "2026-04-03"; hname := "Vendredi saint" |};
           {| hdate := "2026-04-04"; hname := "Après Vendredi saint" |};
           {| hdate := "2026-04-06"; hname := "Après Ching Ming" |};
           {| hdate := "2026-04-07"; hname := "Après Lundi Pâques" |};
           {| hdate := "2026-05-01"; hname := "Fête travail" |};
           {| hdate := "2026-05-25"; hname := "Bouddha" |};
           {| hdate := "2026-06-19"; hname := "Tuen Ng" |};
           {| hdate := "2026-07-01"; hname := "Fête SAR HK" |} ]
  else None.

(** [Utilities.formatDate(date, Session.getScriptTimeZone(), 'yyyy-MM-dd')]
    for a valid date; the year is padded to four digits from 0 to 9999 and
    printed in full otherwise. *)
Definition formatDate_yyyyMMdd (pf : Platform) (t : Z) : string :=
  let y := getFullYear pf t in
  let yyyy :=
    if (0 <=? y) && (y <=? 9999) then Str.padDigits 4 y else Str.ofZ y in
  let MM := Str.padDigits 2 (getMonth pf t + 1) in
  let dd := Str.padDigits 2 (getDate pf t) in
  (yyyy ++ "-" ++ MM ++ "-" ++ dd)%string.

(** The same call for a Date object that may be an Invalid Date. *)
Definition formatDateOf (pf : Platform) (d : option Z) : Completion string :=
  match d with
  | Some t => Normal (formatDate_yyyyMMdd pf t)
  | None => formatInvalidDate pf
  end.

(** [getCurrentAcademicYear], from the value of cell B1. *)
Definition getCurrentAcademicYear (pf : Platform) (yearFilter : Cell) : string :=
  ToString pf (orElse yearFilter (CStr "2025-2026")).

(** The error of [for (... of holidays)] when [holidays] is an inherited
    property of the table, which is not iterable. *)
Definition notIterable : string := "TypeError: holidays is not iterable".

(** [getSchoolHoliday]: the tables above hold the own properties of
    [CONFIG.schoolHolidays]; a key that names an inherited property gives a
    value that passes the test [!holidays] and makes the loop throw. *)
Definition getSchoolHoliday (pf : Platform) (d : option Z)
    (academicYear : string) : Completion (option string) :=
  match schoolHolidays academicYear with
  | Some holidays =>
      match formatDateOf pf d with
      | Normal dateStr =>
          Normal
            (option_map pname
               (find (fun period => String.leb (pstart period) dateStr
                                    && String.leb dateStr (pend period))
                     holidays))
      | Throw message => Throw message
      end
  | None =>
      if JsObject.isInherited academicYear then
        match formatDateOf pf d with
        | Normal _ => Throw notIterable
        | Throw message => Throw message
        end
      else Normal None
  end.

Definition getPublicHoliday (pf : Platform) (d : option Z)
    (academicYear : string) : Completion (option string) :=
  match publicHolidays academicYear with
  | Some holidays =>
      match formatDateOf pf d with
      | Normal dateStr =>
          Normal
            (option_map hname
               (find (fun holiday => String.eqb (hdate holiday) dateStr)
                     holidays))
      | Throw message => Throw message
      end
  | None =>
      if JsObject.isInherited academicYear then
        match formatDateOf pf d with
        | Normal _ => Throw notIterable
        | Throw message => Throw message
        end
      else Normal None
  end.

(** A cell object of a week row; [dayNumber] is [null] for a blank cell,
    whose [date] and holiday fields are undefined.  The [date] of a day
    cell is never read; it is [None] too when it is an Invalid Date. *)
Record DayCell : Type := {
  display : string;
  cellEvents : list Event;
  dayNumber : option Z;
  isToday : bool;
  cellDate : option Z;
  schoolHoliday : option string;
  publicHoliday : option string
}.

Definition blankCell : DayCell :=
  {| display := ""; cellEvents := []; dayNumber := None; isToday := false;
     cellDate := None; schoolHoliday := None; publicHoliday := None |}.

(** Truthiness of a holiday name or [null]. *)
Definition named (o : option string) : bool :=
  match o with
  | Some s => negb (isEmptyString s)
  | None => false
  end.

Definition nl : string := String (ascii_of_nat 10) "".

Definition getCalendarStatusPrefix (ev : Event) (deptEmoji : string) : string :=
  if surCalendrierExcel ev then deptEmoji
  else if isEmptyString (surCalendrierExcelRaw ev)
  then ("❓" ++ deptEmoji)%string
  else ("🙈" ++ deptEmoji)%string.

Definition formatTimeForDisplay (pf : Platform) (d : Z) : string :=
  let hours := Str.padStart2 (Str.ofZ (HourFromTime (d + LocalTZA pf))) in
  let minutes := Str.padStart2 (Str.ofZ (MinFromTime (d + LocalTZA pf))) in
  (hours ++ ":" ++ minutes)%string.

Definition departmentEmojis : list string :=
  ["🔴"; "🟡"; "🟢"; "🔵"; "🟣"; "🟠"; "🩵"; "💚"; "💛"; "🌕";
   "🧡"; "💜"; "💙"; "🩷"; "🩶"; "💚"; "🟠"; "❤️"; "🩷"].

(** [getDepartmentNames]: the sheets that have a date or start column, a
    service column and an event column. *)
Definition isDepartmentSheet (pf : Platform) (sheet : Normalizer.Sheet) : bool :=
  let name := Normalizer.getName sheet in
  if String.eqb name Normalizer.CONFIG.calendarSheetName then false
  else if String.eqb name Normalizer.CONFIG.syncTrackingSheetName then false
  else if String.eqb name Normalizer.CONFIG.errorSheetName then false
  else
    match Normalizer.getValues sheet with
    | [] => false
    | headerRow :: _ =>
        let headers := map (fun h => trim (ToString pf h)) headerRow in
        let hasDateOrDebut :=
          existsb (String.eqb Normalizer.CONFIG.dateColumn) headers
          || existsb (String.eqb Normalizer.CONFIG.startColumn) headers in
        let hasService := existsb (String.eqb "Service") headers in
        let hasEvent := existsb (Normalizer.isEventColumn pf) headers in
        hasDateOrDebut && hasService && hasEvent
    end.

Definition getDepartmentNames (pf : Platform) (sheets : list Normalizer.Sheet)
  : list string :=
  map Normalizer.getName (filter (isDepartmentSheet pf) sheets).

(** [Array.prototype.sort()] on texts, in byte order. *)
Fixpoint insertSorted (s : string) (sorted : list string) : list string :=
  match sorted with
  | [] => [s]
  | x :: r => if String.leb s x then s :: sorted else x :: insertSorted s r
  end.

Definition sortStrings (l : list string) : list string :=
  fold_right insertSorted [] l.

Definition emojiAt (index : Z) : string :=
  nth (Z.to_nat (index mod Z.of_nat (List.length departmentEmojis)))
      departmentEmojis "".

(** [buildEmojiMap], from the sorted department names; the map is a plain
    object. *)
Definition buildEmojiMap (departments : list string) : JsMap.t string :=
  fold_left (fun emojiMap '(index, dept) =>
               JsObject.setText dept (emojiAt index) emojiMap)
            (indexedFrom 0 departments) [].

(** [getDepartmentEmoji]; [departments] are the sorted department names
    used when the map has no emoji for the department.  A department whose
    name is that of an inherited property of the map, and that the map does
    not hold itself, gets the inherited value, which ends as its text in
    the cell. *)
Definition getDepartmentEmoji (departments : list string)
    (department_ : string) (emojiMap : JsMap.t string) : string :=
  let fallback :=
    let index := indexOf departments department_ in
    if 0 <=? index then emojiAt index else "⚪" in
  match JsObject.get department_ emojiMap with
  | JsObject.Own e => if negb (isEmptyString e) then e else fallback
  | JsObject.Inherited text => text
  | JsObject.Undefined => fallback
  end.

Example emoji_by_sorted_rank :
  let departments := sortStrings ["Paroisse"; "Chorale"; "Aumonerie"] in
  departments = ["Aumonerie"; "Chorale"; "Paroisse"] /\
  getDepartmentEmoji departments "Chorale" (buildEmojiMap departments) = "🟡" /\
  getDepartmentEmoji departments "Paroisse" [] = "🟢" /\
  getDepartmentEmoji departments "Scouts" (buildEmojiMap departments) = "⚪" /\
  getDepartmentEmoji departments "constructor" (buildEmojiMap departments)
  = "function Object() { [native code] }".
Proof. vm_compute. repeat split; reflexivity. Qed.

Definition eventLine (pf : Platform) (departments : list string)
    (emojiMap : JsMap.t string) (ev : Event) : string :=
  let deptEmoji := getDepartmentEmoji departments (department ev) emojiMap in
  let prefix := getCalendarStatusPrefix ev deptEmoji in
  let eventText :=
    ((if hasTime ev then formatTimeForDisplay pf (startDate ev) ++ " " else "")
     ++ (if negb (isEmptyString (service ev))
         then service ev ++ " | " ++ event ev else event ev))%string in
  (nl ++ prefix ++ " " ++ eventText)%string.

(** The cell that [formatDayCell] builds once the date and the two
    holidays are known. *)
Definition dayCellOf (pf : Platform) (departments : list string)
    (emojiMap : JsMap.t string) (dayNumber_ : Z) (events : list Event)
    (isToday_ : bool) (d : option Z)
    (schoolHoliday_ publicHoliday_ : option string) : DayCell :=
  let display0 := Str.ofZ dayNumber_ in
  let display1 :=
    match publicHoliday_ with
    | Some n =>
        if negb (isEmptyString n)
        then (display0 ++ nl ++ "HK PH - " ++ n)%string
        else if named schoolHoliday_
        then (display0 ++ nl ++ "Vacances LFI")%string
        else display0
    | None =>
        if named schoolHoliday_
        then (display0 ++ nl ++ "Vacances LFI")%string
        else display0
    end in
  let display2 :=
    if (0 <? Z.of_nat (List.length events)) then
      let displayEvents := firstn (Z.to_nat Normalizer.CONFIG.maxEventsPerDay) events in
      let shown :=
        fold_left
          (fun acc ev => (acc ++ eventLine pf departments emojiMap ev)%string)
          displayEvents display1 in
      if Normalizer.CONFIG.maxEventsPerDay <? Z.of_nat (List.length events) then
        let more :=
          Str.ofZ (Z.of_nat (List.length events)
                   - Normalizer.CONFIG.maxEventsPerDay) in
        (shown ++ nl ++ "+ " ++ more ++ " autres...")%string
      else shown
    else display1 in
  {| display := display2; cellEvents := events; dayNumber := Some dayNumber_;
     isToday := isToday_; cellDate := d;
     schoolHoliday := schoolHoliday_; publicHoliday := publicHoliday_ |}.

(** [formatDayCell]; [departments] are the sorted department names and
    [yearFilter] is the value of cell B1.  The call throws when one of the
    holiday look-ups does. *)
Definition formatDayCell (pf : Platform) (departments : list string)
    (emojiMap : JsMap.t string) (yearFilter : Cell) (dayNumber_ : Z) (events : list Event)
    (isToday_ : bool) (year_ month : Z) : Completion DayCell :=
  let d := newDateObject pf year_ month dayNumber_ 0 0 0 in
  let currentAcademicYear := getCurrentAcademicYear pf yearFilter in
  match getSchoolHoliday pf d currentAcademicYear with
  | Throw message => Throw message
  | Normal schoolHoliday_ =>
      match getPublicHoliday pf d currentAcademicYear with
      | Throw message => Throw message
      | Normal publicHoliday_ =>
          Normal (dayCellOf pf departments emojiMap dayNumber_ events isToday_
                            d schoolHoliday_ publicHoliday_)
      end
  end.

(** The cell returned by a call that did not throw. *)
Definition returned (r : Completion DayCell) : DayCell :=
  match r with
  | Normal cell => cell
  | Throw _ => blankCell
  end.

(** [formatDateKey], for a valid date. *)
Definition formatDateKey (pf : Platform) (d : Z) : string :=
  let year_ := Str.ofZ (getFullYear pf d) in
  let month := Str.padStart2 (Str.ofZ (getMonth pf d + 1)) in
  let day := Str.padStart2 (Str.ofZ (getDate pf d)) in
  (year_ ++ "-" ++ month ++ "-" ++ day)%string.

(** [formatDateKey] for a Date object that may be an Invalid Date, whose
    three fields are NaN. *)
Definition formatDateKeyOf (pf : Platform) (d : option Z) : string :=
  match d with
  | Some t => formatDateKey pf t
  | None => "NaN-NaN-NaN"
  end.

(** [groupEventsByDay]: the object maps a date key to the events of that
    day, in insertion order. *)
Definition groupEventsByDay (pf : Platform) (events : list Event)
  : JsMap.t (list Event) :=
  fold_left
    (fun grouped ev =>
       let key := formatDateKey pf (date ev) in
       let sofar :=
         match JsMap.get key grouped with Some evs => evs | None => [] end in
       JsMap.set key (sofar ++ [ev]) grouped)
    events [].

(** [eventsByDay[dateKey] || []] *)
Definition lookupDay (key : string) (grouped : JsMap.t (list Event))
  : list Event :=
  match JsMap.get key grouped with Some evs => evs | None => [] end.

(** Comparisons of a number with a number that may be NaN ([None]): they
    are false when it is. *)
Definition leNaN (a : Z) (b : option Z) : bool :=
  match b with Some b' => a <=? b' | None => false end.

Definition geNaN (a : Z) (b : option Z) : bool :=
  match b with Some b' => b' <=? a | None => false end.

Definition gtNaN (a : Z) (b : option Z) : bool :=
  match b with Some b' => b' <? a | None => false end.

(** The two nested loops of [generateMonthGrid], over any kind of cell:
    [mk d] is the call that builds the cell of day [d], which may throw,
    and [blank] the empty cell. *)
Section Loop.

Context {A : Type} (mk : Z -> Completion A) (blank : A).
Variables startingDayOfWeek daysInMonth_ : option Z.

Definition placeCell (week : Z) (st : Completion (list A * Z))
    (dayOfWeek : Z) : Completion (list A * Z) :=
  match st with
  | Throw message => Throw message
  | Normal (weekRow, currentDay) =>
      let shouldPlaceDay :=
        ((week =? 0) && geNaN dayOfWeek startingDayOfWeek)
        || ((0 <? week) && leNaN currentDay daysInMonth_) in
      if shouldPlaceDay && leNaN currentDay daysInMonth_
      then
        match mk currentDay with
        | Normal cell => Normal (weekRow ++ [cell], currentDay + 1)
        | Throw message => Throw message
        end
      else Normal (weekRow ++ [blank], currentDay)
  end.

Fixpoint weeksLoop (weeksLeft : list Z) (currentDay : Z)
    (weeks : list (list A)) : Completion (list (list A)) :=
  match weeksLeft with
  | [] => Normal weeks
  | week :: rest =>
      match fold_left (placeCell week) [0; 1; 2; 3; 4; 5; 6]
                      (Normal ([], currentDay)) with
      | Throw message => Throw message
      | Normal (weekRow, currentDay') =>
          let weeks' := weeks ++ [weekRow] in
          if gtNaN currentDay' daysInMonth_ then Normal weeks'
          else weeksLoop rest currentDay' weeks'
      end
  end.

Definition monthLoop : Completion (list (list A)) :=
  weeksLoop [0; 1; 2; 3; 4; 5] 1 [].

End Loop.

Definition generateMonthGrid (pf : Platform) (now : Z)
    (departments : list string) (emojiMap : JsMap.t string)
    (yearFilter : Cell) (year_ month : Z)
    (eventsByDay : JsMap.t (list Event))
  : Completion (list (list DayCell)) :=
  let firstDay := newDateObject pf year_ month 1 0 0 0 in
  let lastDay := newDateObject pf year_ (month + 1) 0 0 0 0 in
  let jsDayOfWeek := option_map (getDay pf) firstDay in
  let startingDayOfWeek :=
    match jsDayOfWeek with
    | Some k => if k =? 0 then Some 6 else Some (k - 1)
    | None => None
    end in
  let daysInMonth_ := option_map (getDate pf) lastDay in
  let today := now in
  let isCurrentMonth :=
    (getFullYear pf today =? year_) && (getMonth pf today =? month) in
  let todayDate := getDate pf today in
  monthLoop
    (fun currentDay =>
       let d := newDateObject pf year_ month currentDay 0 0 0 in
       let dateKey := formatDateKeyOf pf d in
       let dayEvents := lookupDay dateKey eventsByDay in
       let isToday_ := isCurrentMonth && (currentDay =? todayDate) in
       formatDayCell pf departments emojiMap yearFilter currentDay dayEvents
                     isToday_ year_ month)
    blankCell startingDayOfWeek daysInMonth_.

End Grid.

(** *** Facts about the month grid *)

Module GridFacts.

Import Sheets JSDate Filters Grid.
Local Open Scope list_scope.
Local Open Scope Z_scope.

(** The loops when the two bounds are numbers and no cell throws. *)
Section Pure.

Context {A : Type} (mk : Z -> A) (blank : A).
Variables startingDayOfWeek daysInMonth_ : Z.

Definition placeDay (week : Z) (st : list A * Z) (dayOfWeek : Z)
  : list A * Z :=
  let '(weekRow, currentDay) := st in
  let shouldPlaceDay :=
    ((week =? 0) && (startingDayOfWeek <=? dayOfWeek))
    || ((0 <? week) && (currentDay <=? daysInMonth_)) in
  if shouldPlaceDay && (currentDay <=? daysInMonth_)
  then (weekRow ++ [mk currentDay], currentDay + 1)
  else (weekRow ++ [blank], currentDay).

Fixpoint weeksOf (weeksLeft : list Z) (currentDay : Z)
    (weeks : list (list A)) : list (list A) :=
  match weeksLeft with
  | [] => weeks
  | week :: rest =>
      let '(weekRow, currentDay') :=
        fold_left (placeDay week) [0; 1; 2; 3; 4; 5; 6] ([], currentDay) in
      let weeks' := weeks ++ [weekRow] in
      if daysInMonth_ <? currentDay' then weeks'
      else weeksOf rest currentDay' weeks'
  end.

Definition monthOf : list (list A) := weeksOf [0; 1; 2; 3; 4; 5] 1 [].

End Pure.

(** The loops of the script are these when the bounds are numbers and the
    cells of the days 1 .. [dim] are built without an error. *)
Section Normal.

Context {A : Type} (mk : Z -> Completion A) (f : Z -> A) (blank : A).
Variables s dim : Z.
Hypothesis mk_normal : forall d, 1 <= d <= dim -> mk d = Normal (f d).

Lemma placeCell_normal (week dow : Z) (row : list A) (cd : Z) :
  1 <= cd ->
  placeCell mk blank (Some s) (Some dim) week (Normal (row, cd)) dow
  = Normal (placeDay f blank s dim week (row, cd) dow) /\
  1 <= snd (placeDay f blank s dim week (row, cd) dow).
Proof.
  intros H. unfold placeCell, placeDay, geNaN, leNaN.
  destruct ((((week =? 0) && (s <=? dow)) || ((0 <? week) && (cd <=? dim)))
            && (cd <=? dim)) eqn:E; cbn [snd]; [|split; [reflexivity|lia]].
  apply andb_prop in E. destruct E as [_ E]. apply Z.leb_le in E.
  rewrite mk_normal by lia. split; [reflexivity|lia].
Qed.

Lemma weekRow_normal (week : Z) (cols : list Z) (row : list A) (cd : Z) :
  1 <= cd ->
  fold_left (placeCell mk blank (Some s) (Some dim) week) cols
            (Normal (row, cd))
  = Normal (fold_left (placeDay f blank s dim week) cols (row, cd)) /\
  1 <= snd (fold_left (placeDay f blank s dim week) cols (row, cd)).
Proof.
  revert row cd. induction cols as [|c cols IH]; intros row cd H.
  - split; [reflexivity|exact H].
  - cbn [fold_left].
    destruct (placeCell_normal week c row cd H) as [E L]. rewrite E.
    destruct (placeDay f blank s dim week (row, cd) c) as [row1 cd1].
    cbn [snd] in L. now apply IH.
Qed.

Lemma weeksLoop_normal (weeksLeft : list Z) (cd : Z) (weeks : list (list A)) :
  1 <= cd ->
  weeksLoop mk blank (Some s) (Some dim) weeksLeft cd weeks
  = Normal (weeksOf f blank s dim weeksLeft cd weeks).
Proof.
  revert cd weeks. induction weeksLeft as [|w rest IH]; intros cd weeks H.
  - reflexivity.
  - cbn [weeksLoop weeksOf].
    destruct (weekRow_normal w [0; 1; 2; 3; 4; 5; 6] [] cd H) as [E L].
    rewrite E.
    destruct (fold_left (placeDay f blank s dim w) _ ([], cd)) as [row cd1].
    cbn [snd gtNaN] in *.
    destruct (dim <? cd1); [reflexivity|now apply IH].
Qed.

Lemma monthLoop_normal :
  monthLoop mk blank (Some s) (Some dim) = Normal (monthOf f blank s dim).
Proof. unfold monthLoop, monthOf. apply weeksLoop_normal. lia. Qed.

End Normal.

(** When the last day of the month is an Invalid Date no day is placed:
    the grid is six rows of blank cells. *)
Lemma placeCell_NaN {A : Type} (mk : Z -> Completion A) (blank : A)
    (startingDayOfWeek : option Z) (week dow : Z) (row : list A) (cd : Z) :
  placeCell mk blank startingDayOfWeek None week (Normal (row, cd)) dow
  = Normal (row ++ [blank], cd).
Proof. unfold placeCell, leNaN. now rewrite andb_false_r. Qed.

Lemma monthLoop_NaN {A : Type} (mk : Z -> Completion A) (blank : A)
    (startingDayOfWeek : option Z) :
  monthLoop mk blank startingDayOfWeek None
  = Normal (repeat (repeat blank 7) 6).
Proof.
  unfold monthLoop. cbn [weeksLoop fold_left].
  repeat (rewrite !placeCell_NaN; cbn [gtNaN app weeksLoop fold_left]).
  reflexivity.
Qed.

Section Transport.

Context {A B : Type} (f : A -> B) (mk : Z -> A) (blank : A) (mk' : Z -> B).
Hypothesis mk_f : forall d, f (mk d) = mk' d.
Variables s dim : Z.

Lemma placeCell_map (week dow : Z) (row : list A) (cd : Z) :
  placeDay mk' (f blank) s dim week (map f row, cd) dow =
  (map f (fst (placeDay mk blank s dim week (row, cd) dow)),
   snd (placeDay mk blank s dim week (row, cd) dow)).
Proof.
  unfold placeDay.
  destruct ((((week =? 0) && (s <=? dow)) || ((0 <? week) && (cd <=? dim)))
            && (cd <=? dim)); cbn [fst snd];
    now rewrite map_app; cbn [map]; rewrite ?mk_f.
Qed.

Lemma weekRow_map (week : Z) (cols : list Z) (row : list A) (cd : Z) :
  fold_left (placeDay mk' (f blank) s dim week) cols (map f row, cd) =
  (map f (fst (fold_left (placeDay mk blank s dim week) cols (row, cd))),
   snd (fold_left (placeDay mk blank s dim week) cols (row, cd))).
Proof.
  revert row cd. induction cols as [|c cols IH]; intros row cd.
  - reflexivity.
  - cbn [fold_left]. rewrite placeCell_map.
    destruct (placeDay mk blank s dim week (row, cd) c) as [row1 cd1].
    cbn [fst snd]. apply IH.
Qed.

Lemma weeksLoop_map (weeksLeft : list Z) (cd : Z) (weeks : list (list A)) :
  weeksOf mk' (f blank) s dim weeksLeft cd (map (map f) weeks) =
  map (map f) (weeksOf mk blank s dim weeksLeft cd weeks).
Proof.
  revert cd weeks. induction weeksLeft as [|w rest IH]; intros cd weeks.
  - reflexivity.
  - cbn [weeksOf].
    change (@nil B) with (map f (@nil A)). rewrite weekRow_map.
    destruct (fold_left (placeDay mk blank s dim w) _ ([], cd)) as [row cd1].
    cbn [fst snd].
    replace (map (map f) weeks ++ [map f row])
      with (map (map f) (weeks ++ [row])) by (now rewrite map_app).
    destruct (dim <? cd1); [reflexivity|apply IH].
Qed.

Lemma monthLoop_map :
  map (map f) (monthOf mk blank s dim) = monthOf mk' (f blank) s dim.
Proof. unfold monthOf. now rewrite <- weeksLoop_map. Qed.

End Transport.

(** The days 1, 2, ..., [n]. *)
Definition daysUpTo (n : Z) : list Z := map Z.of_nat (seq 1 (Z.to_nat n)).

(** Blank cells after the last day, up to the end of its week. *)
Definition trailing (lead dim : Z) : Z := (7 - (lead + dim) mod 7) mod 7.

(** The loops on day numbers alone, for every weekday of day 1 and every
    month length. *)
Lemma skeleton_shape (lead dim : Z) :
  0 <= lead <= 6 -> 28 <= dim <= 31 ->
  let grid := monthOf Some None lead dim in
  Forall (fun row => List.length row = 7%nat) grid /\
  (List.length grid <= 6)%nat /\
  List.length grid = Z.to_nat ((lead + dim + 6) / 7) /\
  List.concat grid =
    repeat None (Z.to_nat lead) ++ map Some (daysUpTo dim)
    ++ repeat None (Z.to_nat (trailing lead dim)).
Proof.
  intros Hl Hd.
  assert (Cl : lead = 0 \/ lead = 1 \/ lead = 2 \/ lead = 3 \/ lead = 4 \/
               lead = 5 \/ lead = 6) by lia.
  assert (Cd : dim = 28 \/ dim = 29 \/ dim = 30 \/ dim = 31) by lia.
  clear Hl Hd.
  repeat (destruct Cl as [Cl|Cl]); subst lead;
    repeat (destruct Cd as [Cd|Cd]); subst dim;
    vm_compute; (split; [repeat constructor|]);
    (split; [lia|]); split; reflexivity.
Qed.

Lemma MakeDay_norm (y m d : Z) :
  MakeDay y m d = MakeDay (y + m / 12) (m mod 12) d.
Proof.
  unfold MakeDay.
  rewrite (Z.div_small (m mod 12) 12), Z.mod_mod, Z.add_0_r
    by (try apply Z.mod_pos_bound; lia).
  reflexivity.
Qed.

(** Day 0 of the next month is the last day of the month. *)
Lemma MakeDay_last (y m : Z) :
  MakeDay y (m + 1) 0 =
  MakeDay (y + m / 12) (m mod 12) (daysInMonth (y + m / 12) (m mod 12)).
Proof.
  rewrite <- MakeDay_norm.
  unfold MakeDay, daysInMonth.
  assert (Hr : 0 <= m mod 12 < 12) by (apply Z.mod_pos_bound; lia).
  destruct (Z.eq_dec (m mod 12) 11) as [E|E].
  - assert (E1 : (m + 1) / 12 = m / 12 + 1) by (Z.div_mod_to_equations; lia).
    assert (E2 : (m + 1) mod 12 = 0) by (Z.div_mod_to_equations; lia).
    rewrite E1, E2, E. rewrite Z.add_assoc, DayFromYear_succ, DaysInYear_leap.
    destruct (isLeapYear (y + m / 12)), (isLeapYear (y + m / 12 + 1));
      cbn; lia.
  - assert (E1 : (m + 1) / 12 = m / 12) by (Z.div_mod_to_equations; lia).
    assert (E2 : (m + 1) mod 12 = m mod 12 + 1)
      by (Z.div_mod_to_equations; lia).
    rewrite E1, E2. lia.
Qed.

Lemma MakeDay_shift (y m d : Z) : MakeDay y m d = MakeDay y m 1 + d - 1.
Proof. unfold MakeDay. lia. Qed.

Section Month.

Variables (pf : Platform) (year_ month : Z).

Definition ym : Z := fullYear year_ + month / 12.
Definition mn : Z := month mod 12.

(** Monday-first index (0 = Monday) of day [d] of the month. *)
Definition mondayIndex (d : Z) : Z :=
  (WeekDay (MakeDate (MakeDay ym mn d) 0) + 6) mod 7.

Lemma mn_range : 0 <= mn <= 11.
Proof. unfold mn. pose proof (Z.mod_pos_bound month 12). lia. Qed.

Lemma lastDay_getDate :
  getDate pf (newDate pf year_ (month + 1) 0 0 0 0) = daysInMonth ym mn.
Proof.
  unfold getDate, newDate.
  replace (MakeDate (MakeDay (fullYear year_) (month + 1) 0) (MakeTime 0 0 0 0)
           - LocalTZA pf + LocalTZA pf)
    with (MakeDate (MakeDay ym mn (daysInMonth ym mn)) 0)
    by (rewrite MakeDay_last; unfold MakeDate, MakeTime, ym, mn; lia).
  pose proof mn_range as Hm.
  pose proof (daysInMonth_range ym mn Hm) as Hd.
  apply (civil_of_MakeDay ym mn (daysInMonth ym mn) 0); unfold msPerDay; lia.
Qed.

Lemma firstDay_getDay :
  getDay pf (newDate pf year_ month 1 0 0 0)
  = WeekDay (MakeDate (MakeDay ym mn 1) 0).
Proof.
  unfold getDay, newDate. f_equal.
  rewrite (MakeDay_norm (fullYear year_) month 1).
  unfold MakeDate, MakeTime, ym, mn. lia.
Qed.

(** The days of the month are one day apart, from the first to the last. *)
Lemma newDate_day (d : Z) :
  newDate pf year_ month d 0 0 0
  = newDate pf year_ month 1 0 0 0 + (d - 1) * msPerDay.
Proof.
  unfold newDate, MakeDate. rewrite (MakeDay_shift _ _ d). ring.
Qed.

Lemma newDate_last :
  newDate pf year_ (month + 1) 0 0 0 0
  = newDate pf year_ month 1 0 0 0 + (daysInMonth ym mn - 1) * msPerDay.
Proof.
  unfold newDate.
  rewrite MakeDay_last, (MakeDay_norm (fullYear year_) month 1).
  fold ym mn. rewrite (MakeDay_shift ym mn (daysInMonth ym mn)).
  unfold MakeDate. ring.
Qed.

Lemma days_valid (d : Z) :
  ISO.validTime (newDate pf year_ month 1 0 0 0) ->
  ISO.validTime (newDate pf year_ (month + 1) 0 0 0 0) ->
  1 <= d <= daysInMonth ym mn ->
  ISO.validTime (newDate pf year_ month d 0 0 0).
Proof.
  unfold ISO.validTime. rewrite newDate_last, (newDate_day d).
  intros H1 H2 Hd.
  assert (0 <= (d - 1) * msPerDay <= (daysInMonth ym mn - 1) * msPerDay)
    by (unfold msPerDay; lia).
  lia.
Qed.

Lemma mondayIndex_range (d : Z) : 0 <= mondayIndex d <= 6.
Proof. unfold mondayIndex. Z.div_mod_to_equations. lia. Qed.

Lemma mondayIndex_shift (d : Z) :
  mondayIndex d = (mondayIndex 1 + d - 1) mod 7.
Proof.
  unfold mondayIndex, WeekDay.
  rewrite (MakeDay_shift ym mn d).
  assert (H : forall x, Day (MakeDate x 0) = x)
    by (intros x; apply Day_MakeDate; unfold msPerDay; lia).
  rewrite !H. Z.div_mod_to_equations. lia.
Qed.

End Month.

Lemma TimeClip_valid (t : Z) : ISO.validTime t -> TimeClip t = Some t.
Proof.
  unfold ISO.validTime, TimeClip. intros H.
  apply Z.leb_le in H. now rewrite H.
Qed.

(** The holiday found by a look-up that did not throw. *)
Definition holidayOf (r : Completion (option string)) : option string :=
  match r with
  | Normal name => name
  | Throw _ => None
  end.

(** The cell of a valid date, when the year filter is not the name of an
    inherited property of the holiday tables. *)
Definition cellOfDay (pf : Platform) (departments : list string)
    (emojiMap : JsMap.t string) (yearFilter : Cell) (dayNumber_ : Z)
    (events : list Event) (isToday_ : bool) (year_ month : Z) : DayCell :=
  let d := Some (newDate pf year_ month dayNumber_ 0 0 0) in
  let currentAcademicYear := getCurrentAcademicYear pf yearFilter in
  dayCellOf pf departments emojiMap dayNumber_ events isToday_ d
            (holidayOf (getSchoolHoliday pf d currentAcademicYear))
            (holidayOf (getPublicHoliday pf d currentAcademicYear)).

Lemma formatDayCell_normal (pf : Platform) (departments : list string)
    (emojiMap : JsMap.t string) (yearFilter : Cell) (dayNumber_ : Z)
    (events : list Event) (isToday_ : bool) (year_ month : Z) :
  ISO.validTime (newDate pf year_ month dayNumber_ 0 0 0) ->
  JsObject.isInherited (getCurrentAcademicYear pf yearFilter) = false ->
  formatDayCell pf departments emojiMap yearFilter dayNumber_ events isToday_
                year_ month
  = Normal (cellOfDay pf departments emojiMap yearFilter dayNumber_ events
                      isToday_ year_ month).
Proof.
  intros V I. unfold formatDayCell, cellOfDay, newDateObject.
  rewrite (TimeClip_valid _ V).
  unfold getSchoolHoliday, getPublicHoliday. rewrite I.
  destruct (schoolHolidays _), (publicHolidays _); reflexivity.
Qed.

(** The cell that [generateMonthGrid] builds for a day of the month. *)
Definition dayCellAt (pf : Platform) (now : Z) (departments : list string)
    (emojiMap : JsMap.t string) (yearFilter : Cell) (year_ month : Z)
    (eventsByDay : JsMap.t (list Event)) (currentDay : Z) : DayCell :=
  let isCurrentMonth :=
    (getFullYear pf now =? year_) && (getMonth pf now =? month) in
  cellOfDay pf departments emojiMap yearFilter currentDay
    (lookupDay (formatDateKey pf (newDate pf year_ month currentDay 0 0 0))
               eventsByDay)
    (isCurrentMonth && (currentDay =? getDate pf now)) year_ month.

(** When the first and the last day of the month are valid dates and the
    year filter is not the name of an inherited property, the call returns
    the grid of the loops on the weekday of day 1 and the length of the
    month. *)
Lemma generateMonthGrid_normal (pf : Platform) (now : Z)
    (departments : list string) (emojiMap : JsMap.t string)
    (yearFilter : Cell) (year_ month : Z)
    (eventsByDay : JsMap.t (list Event)) :
  ISO.validTime (newDate pf year_ month 1 0 0 0) ->
  ISO.validTime (newDate pf year_ (month + 1) 0 0 0 0) ->
  JsObject.isInherited (getCurrentAcademicYear pf yearFilter) = false ->
  generateMonthGrid pf now departments emojiMap yearFilter year_ month
                    eventsByDay
  = Normal (monthOf (dayCellAt pf now departments emojiMap yearFilter year_
                               month eventsByDay)
                    blankCell (mondayIndex year_ month 1)
                    (daysInMonth (ym year_ month) (mn month))).
Proof.
  intros V1 V2 I. unfold generateMonthGrid, newDateObject.
  rewrite (TimeClip_valid _ V1), (TimeClip_valid _ V2). cbn [option_map].
  rewrite firstDay_getDay, lastDay_getDate.
  set (wd := WeekDay (MakeDate (MakeDay (ym year_ month) (mn month) 1) 0)).
  assert (Hlead : (if wd =? 0 then Some 6 else Some (wd - 1))
                  = Some (mondayIndex year_ month 1)).
  { unfold mondayIndex. fold wd. subst wd.
    pose proof (WeekDay_range
                  (MakeDate (MakeDay (ym year_ month) (mn month) 1) 0)) as R.
    destruct (Z.eqb_spec
                (WeekDay (MakeDate (MakeDay (ym year_ month) (mn month) 1) 0)) 0)
      as [E|E]; [rewrite E; reflexivity|].
    f_equal. Z.div_mod_to_equations. lia. }
  rewrite Hlead.
  apply monthLoop_normal. intros d Hd. unfold dayCellAt.
  pose proof (days_valid pf year_ month d V1 V2 Hd) as Vd.
  rewrite (TimeClip_valid _ Vd). cbn [formatDateKeyOf].
  now apply formatDayCell_normal.
Qed.

End GridFacts.

(* ====================================================================== *)
(** ** Cell backgrounds: the colouring pass of [applyFormatting] *)
(* ====================================================================== *)

Module Formatting.

Import Sheets Grid.
Local Open Scope string_scope.
Local Open Scope list_scope.
Local Open Scope Z_scope.

Module colors.
Definition saturday : string := "#E3F2FD".
Definition sunday : string := "#FFE0B2".
Definition schoolHoliday : string := "#E1BEE7".
Definition publicHoliday : string := "#FFCDD2".
End colors.

Definition white : string := "#FFFFFF".
Definition todayColor : string := "#BBDEFB".

(** The colour chosen for a day cell in column [colIndex] (0 = Monday). *)
Definition backgroundColor (cell : DayCell) (colIndex : Z) : string :=
  let dayOfWeek := colIndex in
  let isSaturday := dayOfWeek =? 5 in
  let isSunday := dayOfWeek =? 6 in
  if named (publicHoliday cell) then colors.publicHoliday
  else if named (schoolHoliday cell) && negb isSaturday && negb isSunday
  then colors.schoolHoliday
  else if isSaturday then colors.saturday
  else if isSunday then colors.sunday
  else white.

(** A call [getRange(row, col).setBackground(color)]. *)
Record SetBackground : Type := { atRow : Z; atCol : Z; color : string }.

(** The writes of a pass over the cells of one day row: [paint colIndex
    cell] is the colour the pass gives the cell, if it touches it. *)
Definition writesOf (paint : Z -> DayCell -> option string) (k : Z)
    (actualRow : Z) (cells : list DayCell) : list SetBackground :=
  flat_map
    (fun '(colIndex, cell) =>
       match paint colIndex cell with
       | Some c => [{| atRow := actualRow; atCol := colIndex + 1; color := c |}]
       | None => []
       end)
    (indexedFrom k cells).

(** The colouring pass: every cell that holds a day. *)
Definition overlayPaint (colIndex : Z) (cell : DayCell) : option string :=
  match dayNumber cell with
  | None => None
  | Some _ => Some (backgroundColor cell colIndex)
  end.

(** The highlight of today's cells, applied after the colouring pass. *)
Definition todayPaint (colIndex : Z) (cell : DayCell) : option string :=
  match dayNumber cell with
  | None => None
  | Some _ => if isToday cell then Some todayColor else None
  end.

Definition overlayWrites (actualRow : Z) (cells : list DayCell)
  : list SetBackground := writesOf overlayPaint 0 actualRow cells.

Definition todayWrites (actualRow : Z) (cells : list DayCell)
  : list SetBackground := writesOf todayPaint 0 actualRow cells.

(** All the writes for one day row, in the order they are made, and the
    colour a cell is left with: that of the last write at its position. *)
Definition backgroundWrites (actualRow : Z) (cells : list DayCell)
  : list SetBackground :=
  overlayWrites actualRow cells ++ todayWrites actualRow cells.

Definition lastColorFrom (row col : Z) (writes : list SetBackground)
    (acc : option string) : option string :=
  fold_left
    (fun acc wr =>
       if (atRow wr =? row) && (atCol wr =? col) then Some (color wr) else acc)
    writes acc.

Definition lastColorAt (row col : Z) (writes : list SetBackground)
  : option string := lastColorFrom row col writes None.

Lemma lastColorFrom_app (row col : Z) (w1 w2 : list SetBackground)
    (acc : option string) :
  lastColorFrom row col (w1 ++ w2) acc
  = lastColorFrom row col w2 (lastColorFrom row col w1 acc).
Proof. unfold lastColorFrom. apply fold_left_app. Qed.

(** A pass that starts at column [k] does not touch the columns before. *)
Lemma lastColorFrom_before (paint : Z -> DayCell -> option string)
    (row col : Z) (cells : list DayCell) (k : Z) (acc : option string) :
  col < k + 1 ->
  lastColorFrom row col (writesOf paint k row cells) acc = acc.
Proof.
  revert k acc. induction cells as [|x cells IH]; intros k acc H;
    [reflexivity|].
  unfold writesOf. cbn [indexedFrom flat_map]. rewrite lastColorFrom_app.
  fold (writesOf paint (k + 1) row cells). rewrite IH by lia.
  destruct (paint k x); [|reflexivity]. cbn.
  destruct (Z.eqb_spec (k + 1) col); [lia|]. now rewrite andb_false_r.
Qed.

(** After a pass, the cell of index [i] has the colour the pass gave it,
    or the colour it had. *)
Lemma lastColorFrom_writesOf (paint : Z -> DayCell -> option string)
    (row : Z) (cells : list DayCell) (i : nat) (k : Z) (cell : DayCell)
    (acc : option string) :
  nth_error cells i = Some cell ->
  lastColorFrom row (k + Z.of_nat i + 1) (writesOf paint k row cells) acc
  = match paint (k + Z.of_nat i) cell with
    | Some c => Some c
    | None => acc
    end.
Proof.
  revert i k acc. induction cells as [|x cells IH]; intros i k acc H.
  - destruct i; discriminate.
  - unfold writesOf. cbn [indexedFrom flat_map]. rewrite lastColorFrom_app.
    fold (writesOf paint (k + 1) row cells).
    destruct i as [|i].
    + injection H as ->. rewrite lastColorFrom_before by lia.
      rewrite Z.add_0_r. destruct (paint k cell); [|reflexivity]. cbn.
      now rewrite !Z.eqb_refl.
    + cbn [nth_error] in H.
      replace (k + Z.of_nat (S i) + 1) with (k + 1 + Z.of_nat i + 1) by lia.
      rewrite (IH i (k + 1) _ H).
      replace (k + Z.of_nat (S i)) with (k + 1 + Z.of_nat i) by lia.
      destruct (paint (k + 1 + Z.of_nat i) cell); [reflexivity|].
      destruct (paint k x); [|reflexivity]. cbn.
      destruct (Z.eqb_spec (k + 1) (k + 1 + Z.of_nat i + 1)); [lia|].
      now rewrite andb_false_r.
Qed.

(** The colour a day cell ends with: today's highlight if it is today,
    the colour of the colouring pass otherwise. *)
Lemma lastColorAt_backgroundWrites (row : Z) (cells : list DayCell)
    (i : nat) (cell : DayCell) (d : Z) :
  nth_error cells i = Some cell -> dayNumber cell = Some d ->
  lastColorAt row (Z.of_nat i + 1) (backgroundWrites row cells)
  = Some (if isToday cell then todayColor
          else backgroundColor cell (Z.of_nat i)).
Proof.
  intros H D. unfold lastColorAt, backgroundWrites, overlayWrites, todayWrites.
  rewrite lastColorFrom_app.
  change (Z.of_nat i + 1) with (0 + Z.of_nat i + 1).
  rewrite (lastColorFrom_writesOf overlayPaint row cells i 0 cell None H).
  rewrite (lastColorFrom_writesOf todayPaint row cells i 0 cell _ H).
  unfold overlayPaint, todayPaint. rewrite D. cbn [Z.add].
  destruct (isToday cell); reflexivity.
Qed.

(** *** The priority order, as the specification words it *)

Inductive Overlay : Type :=
  StaffAbsence | PublicHoliday | SchoolBreak | Weekend | NoOverlay.

(** staff absence > public holiday > school break > weekend > none *)
Definition dominantBySpec (absence holiday break weekend : bool) : Overlay :=
  if absence then StaffAbsence
  else if holiday then PublicHoliday
  else if break then SchoolBreak
  else if weekend then Weekend
  else NoOverlay.

(** The order the code follows: a school break colours Monday to Friday
    only. *)
Definition dominantInCode (holiday break weekend : bool) : Overlay :=
  if holiday then PublicHoliday
  else if break && negb weekend then SchoolBreak
  else if weekend then Weekend
  else NoOverlay.

Definition isWeekend (colIndex : Z) : bool :=
  (colIndex =? 5) || (colIndex =? 6).

Definition colorOfOverlay (o : Overlay) (colIndex : Z) : option string :=
  match o with
  | StaffAbsence => None
  | PublicHoliday => Some colors.publicHoliday
  | SchoolBreak => Some colors.schoolHoliday
  | Weekend => Some (if colIndex =? 5 then colors.saturday else colors.sunday)
  | NoOverlay => Some white
  end.

End Formatting.

(* ====================================================================== *)
(** ** Reconciliation with Google Calendar: [syncToGoogleCalendar] *)
(* ====================================================================== *)

Module Sync.

Import Sheets Errors Normalizer Hash.
Local Open Scope string_scope.
Local Open Scope list_scope.
Local Open Scope Z_scope.

Definition googleCalendarId : string :=
  "c_45b0a97a534d195cca5fde4c9bc29f0d73dd80413b7937243f29166680031f15@group.calendar.google.com".

(** *** The external calendar store *)

(** An event of the calendar: timed, or all-day with an optional
    exclusive end. *)
Record GCalEvent : Type := {
  gtitle : string;
  gstart : Z;
  gend : option Z;
  gallDay : bool;
  gdescription : string
}.

(** A call of the calendar service made by the script, with its outcome:
    the id returned by a creation, or whether the call went through. *)
Inductive ApiCall : Type :=
| CreateCall (ev : Event) (result : option string)
| GetEventByIdCall (id : string) (ok : bool)
| DeleteEventCall (id : string) (ok : bool).

(** The store: its events by id, a counter for fresh ids, the outcomes of
    the coming calls ([Some msg]: the call throws an error with that
    message; an exhausted list means success) and the calls made so far. *)
Record Calendar : Type := {
  stored : list (string * GCalEvent);
  nextId : Z;
  failures : list (option string);
  history : list ApiCall
}.

(** The calls made between two states of the store. *)
Definition callsDuring (before after : Calendar) : list ApiCall :=
  skipn (List.length (history before)) (history after).

Definition nextOutcome (c : Calendar) : option string :=
  match failures c with
  | [] => None
  | o :: _ => o
  end.

Definition idOf (n : Z) : string := ("evt" ++ Str.ofZ n)%string.

(** [calendar.createEvent] and [calendar.createAllDayEvent] followed by
    [getId]. *)
Definition apiCreate (c : Calendar) (ev : Event) (g : GCalEvent)
  : Calendar * Completion string :=
  match nextOutcome c with
  | Some msg =>
      ({| stored := stored c; nextId := nextId c;
          failures := tl (failures c);
          history := history c ++ [CreateCall ev None] |}, Throw msg)
  | None =>
      let id := idOf (nextId c) in
      ({| stored := stored c ++ [(id, g)]; nextId := nextId c + 1;
          failures := tl (failures c);
          history := history c ++ [CreateCall ev (Some id)] |}, Normal id)
  end.

(** [calendar.getEventById]: the event, [null] when it is gone. *)
Definition apiGetEventById (c : Calendar) (id : string)
  : Calendar * Completion (option GCalEvent) :=
  match nextOutcome c with
  | Some msg =>
      ({| stored := stored c; nextId := nextId c;
          failures := tl (failures c);
          history := history c ++ [GetEventByIdCall id false] |}, Throw msg)
  | None =>
      ({| stored := stored c; nextId := nextId c;
          failures := tl (failures c);
          history := history c ++ [GetEventByIdCall id true] |},
       Normal (JsMap.get id (stored c)))
  end.

(** [gcalEvent.deleteEvent] *)
Definition apiDeleteEvent (c : Calendar) (id : string)
  : Calendar * Completion unit :=
  match nextOutcome c with
  | Some msg =>
      ({| stored := stored c; nextId := nextId c;
          failures := tl (failures c);
          history := history c ++ [DeleteEventCall id false] |}, Throw msg)
  | None =>
      ({| stored := filter (fun p => negb (String.eqb (fst p) id)) (stored c);
          nextId := nextId c;
          failures := tl (failures c);
          history := history c ++ [DeleteEventCall id true] |}, Normal tt)
  end.

Definition eventTitleOf (ev : Event) : string :=
  if negb (isEmptyString (service ev))
  then (service ev ++ " | " ++ event ev)%string else event ev.

Definition gcalOf (ev : Event) : GCalEvent :=
  let title := eventTitleOf ev in
  let description_ :=
    ("[[[" ++ department ev ++ "]]]" ++ Grid.nl ++ Grid.nl
     ++ "Source: CCFHK Events")%string in
  if hasTime ev then
    let endTime :=
      match endDate ev with
      | Some e => e
      | None =>
          startDate ev + CONFIG.defaultEventDurationHours * 60 * 60 * 1000
      end in
    {| gtitle := title; gstart := startDate ev; gend := Some endTime;
       gallDay := false; gdescription := description_ |}
  else
    match endDate ev with
    | Some e =>
        let exclusiveEnd := e + JSDate.msPerDay in
        {| gtitle := title; gstart := startDate ev; gend := Some exclusiveEnd;
           gallDay := true; gdescription := description_ |}
    | None =>
        {| gtitle := title; gstart := startDate ev; gend := None;
           gallDay := true; gdescription := description_ |}
    end.

Definition createCalendarEvent (c : Calendar) (ev : Event)
  : Calendar * Completion string :=
  apiCreate c ev (gcalOf ev).

(** [deleteCalendarEvent]: every exception is caught and logged inside. *)
Definition deleteCalendarEvent (c : Calendar) (gcalEventId : string)
    (logger : list string) : Calendar * list string * Completion unit :=
  match apiGetEventById c gcalEventId with
  | (c1, Throw msg) =>
      (c1, logger ++ [("Error deleting event: " ++ msg)%string], Normal tt)
  | (c1, Normal None) => (c1, logger, Normal tt)
  | (c1, Normal (Some _)) =>
      match apiDeleteEvent c1 gcalEventId with
      | (c2, Throw msg) =>
          (c2, logger ++ [("Error deleting event: " ++ msg)%string], Normal tt)
      | (c2, Normal _) => (c2, logger, Normal tt)
      end
  end.

(** *** The tracking sheet *)

Record TrackingEntry : Type := {
  gcalEventId : string;
  tdepartment : string;
  eventDate : string;
  lastSynced : Z
}.

(** The sheet is absent or holds rows (hash, entry) under its header. *)
Definition SyncSheet : Type := option (list (string * TrackingEntry)).

Definition getSyncTrackingData (sh : SyncSheet) : JsMap.t TrackingEntry :=
  match sh with
  | None => []
  | Some data =>
      fold_left
        (fun trackingMap '(hash, entry) =>
           if negb (isEmptyString hash) then JsMap.set hash entry trackingMap
           else trackingMap)
        data []
  end.

Definition writeSyncTracking (trackingMap : JsMap.t TrackingEntry)
    (sh : SyncSheet) : SyncSheet :=
  let cleared := @nil (string * TrackingEntry) in
  if 0 <? Z.of_nat (List.length trackingMap)
  then Some (trackingMap ++ skipn (List.length trackingMap) cleared)
  else Some cleared.

(** [Utilities.formatDate(d, 'GMT', 'yyyy-MM-dd')] *)
Definition formatDateGMT (d : Z) : string :=
  let y := JSDate.YearFromTime d in
  let yyyy :=
    if (0 <=? y) && (y <=? 9999) then Str.padDigits 4 y else Str.ofZ y in
  let MM := Str.padDigits 2 (JSDate.MonthFromTime d + 1) in
  let dd := Str.padDigits 2 (JSDate.DateFromTime d) in
  (yyyy ++ "-" ++ MM ++ "-" ++ dd)%string.

(** *** The run *)

Record Stats : Type := {
  created : Z;
  unchanged : Z;
  deleted : Z;
  errors : Z
}.

Record World : Type := {
  sheets : list Sheet;
  errorSheet : ErrorSheet;
  syncSheet : SyncSheet;
  calendar : option Calendar;
  statusF4 : option Cell;
  logger : list string
}.

(** The variables of the run that the two loops update. *)
Record SyncState : Type := {
  cal : Calendar;
  newTrackingMap : JsMap.t TrackingEntry;
  seenHashes : list string;
  stats : Stats;
  errs : ErrorSheet;
  logs : list string
}.

Definition setAdd (h : string) (s : list string) : list string :=
  if existsb (String.eqb h) s then s else s ++ [h].

Definition setHas (h : string) (s : list string) : bool :=
  existsb (String.eqb h) s.

Definition newEntry (now : Z) (ev : Event) (id : string) : TrackingEntry :=
  {| gcalEventId := id; tdepartment := department ev;
     eventDate := formatDateGMT (date ev); lastSynced := now |}.

Definition syncErrorDetails (eventTitle message : string) : string :=
  ("Événement: " ++ dq ++ eventTitle ++ dq ++ ", Erreur: " ++ message)%string.

Definition deleteErrorDetails (eventDate_ message : string) : string :=
  ("Date: " ++ eventDate_ ++ ", Erreur: " ++ message)%string.

(** The callback of [eventsToSync.forEach]. *)
Definition syncEvent (pf : Platform) (now : Z)
    (trackingMap : JsMap.t TrackingEntry) (st : SyncState) (ev : Event)
  : SyncState :=
  let hash := computeEventHash ev in
  let seen := setAdd hash (seenHashes st) in
  let eventTitle := eventTitleOf ev in
  match JsMap.get hash trackingMap with
  | Some existingEntry =>
      {| cal := cal st;
         newTrackingMap := JsMap.set hash existingEntry (newTrackingMap st);
         seenHashes := seen;
         stats := {| created := created (stats st);
                     unchanged := unchanged (stats st) + 1;
                     deleted := deleted (stats st);
                     errors := errors (stats st) |};
         errs := errs st; logs := logs st |}
  | None =>
      match createCalendarEvent (cal st) ev with
      | (c, Normal id) =>
          {| cal := c;
             newTrackingMap :=
               JsMap.set hash (newEntry now ev id) (newTrackingMap st);
             seenHashes := seen;
             stats := {| created := created (stats st) + 1;
                         unchanged := unchanged (stats st);
                         deleted := deleted (stats st);
                         errors := errors (stats st) |};
             errs := errs st; logs := logs st |}
      | (c, Throw message) =>
          {| cal := c;
             newTrackingMap := newTrackingMap st;
             seenHashes := seen;
             stats := {| created := created (stats st);
                         unchanged := unchanged (stats st);
                         deleted := deleted (stats st);
                         errors := errors (stats st) + 1 |};
             errs := logError pf now SYNC_GCAL (department ev)
                       (CNum (QArith_base.Qmake (rowIndex ev) 1))
                       "Échec synchronisation Google Calendar"
                       (syncErrorDetails eventTitle message) (errs st);
             logs := logs st |}
      end
  end.

(** The callback of [trackingMap.forEach]. *)
Definition syncStale (pf : Platform) (now : Z) (st : SyncState)
    (kv : string * TrackingEntry) : SyncState :=
  let '(hash, value) := kv in
  if negb (setHas hash (seenHashes st)) then
    match deleteCalendarEvent (cal st) (gcalEventId value) (logs st) with
    | (c, lg, Normal _) =>
        {| cal := c; newTrackingMap := newTrackingMap st;
           seenHashes := seenHashes st;
           stats := {| created := created (stats st);
                       unchanged := unchanged (stats st);
                       deleted := deleted (stats st) + 1;
                       errors := errors (stats st) |};
           errs := errs st; logs := lg |}
    | (c, lg, Throw message) =>
        {| cal := c; newTrackingMap := newTrackingMap st;
           seenHashes := seenHashes st;
           stats := {| created := created (stats st);
                       unchanged := unchanged (stats st);
                       deleted := deleted (stats st);
                       errors := errors (stats st) + 1 |};
           errs := logError pf now SYNC_GCAL (tdepartment value) (CStr "")
                     "Échec suppression événement"
                     (deleteErrorDetails (eventDate value) message) (errs st);
           logs := lg |}
    end
  else st.

Definition eventsToSyncOf (allEvents : list Event) : list Event :=
  filter surSiteCCFHK allEvents.

Definition summaryLine (s : Stats) : string :=
  ("Sync complete: " ++ Str.ofZ (created s) ++ " created, "
   ++ Str.ofZ (unchanged s) ++ " unchanged, " ++ Str.ofZ (deleted s)
   ++ " deleted, " ++ Str.ofZ (errors s) ++ " errors")%string.

(** [syncToGoogleCalendar], run at time [now]: the world after the run and
    the value returned, or the error thrown when the calendar is not
    found. *)
Definition syncToGoogleCalendar (pf : Platform) (now : Z) (w : World)
  : World * Completion Stats :=
  let errs0 := clearErrorsByType SYNC_GCAL (errorSheet w) in
  let f4 :=
    match statusF4 w with
    | Some _ => Some (CStr "En cours...")
    | None => None
    end in
  match calendar w with
  | None =>
      ({| sheets := sheets w; errorSheet := errs0; syncSheet := syncSheet w;
          calendar := None; statusF4 := f4; logger := logger w |},
       Throw "Calendrier Google introuvable. Vérifiez l'ID du calendrier dans CONFIG.")
  | Some calendar_ =>
      let '(errs1, allEvents) := getAllEvents pf now (sheets w) errs0 in
      let eventsToSync := eventsToSyncOf allEvents in
      let trackingMap := getSyncTrackingData (syncSheet w) in
      let st0 :=
        {| cal := calendar_; newTrackingMap := []; seenHashes := [];
           stats := {| created := 0; unchanged := 0; deleted := 0;
                       errors := 0 |};
           errs := errs1; logs := logger w |} in
      let st1 := fold_left (syncEvent pf now trackingMap) eventsToSync st0 in
      let st2 := fold_left (syncStale pf now) trackingMap st1 in
      let syncSheet' := writeSyncTracking (newTrackingMap st2) (syncSheet w) in
      let f4' :=
        match f4 with
        | Some _ => Some (CStr (toLocaleString pf now))
        | None => None
        end in
      ({| sheets := sheets w; errorSheet := errs st2; syncSheet := syncSheet';
          calendar := Some (cal st2); statusF4 := f4';
          logger := logs st2 ++ [summaryLine (stats st2)] |},
       Normal (stats st2))
  end.

End Sync.

(** *** Facts about the reconciliation run *)

Module SyncFacts.

Import Sheets Errors Normalizer Hash Sync.
Local Open Scope list_scope.
Local Open Scope Z_scope.

Lemma set_fresh {V : Type} (k : string) (v : V) (m : JsMap.t V) :
  ~ In k (JsMap.keys m) -> JsMap.set k v m = m ++ [(k, v)].
Proof.
  induction m as [|[k' v'] r IH]; cbn; intros H; [reflexivity|].
  destruct (String.eqb_spec k' k) as [->|N]; [elim H; now left|].
  rewrite IH; [reflexivity|]. intros I. apply H. now right.
Qed.

(** Reading back a sheet written from a map gives the map. *)
Lemma read_back (m acc : JsMap.t TrackingEntry) :
  NoDup (JsMap.keys (acc ++ m)) ->
  Forall (fun k => isEmptyString k = false) (JsMap.keys m) ->
  fold_left
    (fun trackingMap '(hash, entry) =>
       if negb (isEmptyString hash) then JsMap.set hash entry trackingMap
       else trackingMap)
    m acc = acc ++ m.
Proof.
  revert acc. induction m as [|[k v] r IH]; intros acc ND NE; cbn.
  - now rewrite app_nil_r.
  - inversion NE as [|? ? E NE']; subst. cbn in E. rewrite E. cbn [negb].
    assert (F : ~ In k (JsMap.keys acc)).
    { unfold JsMap.keys in *. rewrite map_app in ND. cbn in ND.
      apply NoDup_remove_2 in ND. intros I. apply ND.
      apply in_or_app. now left. }
    rewrite (set_fresh k v acc F).
    rewrite IH; [now rewrite <- app_assoc| |exact NE'].
    now rewrite <- app_assoc.
Qed.

Lemma getSyncTrackingData_written (m : JsMap.t TrackingEntry) (sh : SyncSheet) :
  NoDup (JsMap.keys m) ->
  Forall (fun k => isEmptyString k = false) (JsMap.keys m) ->
  getSyncTrackingData (writeSyncTracking m sh) = m.
Proof.
  intros ND NE. unfold writeSyncTracking.
  destruct m as [|p m]; [reflexivity|].
  destruct (Z.ltb_spec 0 (Z.of_nat (List.length (p :: m)))) as [L|L];
    [|cbn [List.length] in L; lia].
  rewrite skipn_nil, app_nil_r. unfold getSyncTrackingData.
  apply (read_back (p :: m) []); assumption.
Qed.

(** The hash is 32 hexadecimal characters, never the empty text. *)
Lemma computeEventHash_nonempty (e : Event) :
  isEmptyString (computeEventHash e) = false.
Proof.
  unfold computeEventHash.
  pose proof (HashFacts.computeDigest_signed (hashInput e)) as S.
  pose proof (HashFacts.digest_range (MD5.bytesOfString (hashInput e))) as R.
  unfold MD5.computeDigest in *.
  unfold MD5.digest, MD5.bytesOfState in *.
  destruct (MD5.finalState _) as [[[a b] c] d].
  cbn [MD5.leBytes app map] in *.
  inversion S as [|x l Hx _]; subst.
  cbn [map join fold_right]. rewrite (HashFacts.hexOfByte_digits _ Hx).
  reflexivity.
Qed.

(** *** The set of seen hashes *)

Lemma setAdd_In (h k : string) (s : list string) :
  In h (setAdd k s) <-> h = k \/ In h s.
Proof.
  unfold setAdd. destruct (existsb (String.eqb k) s) eqn:E.
  - split; [tauto|]. intros [->|H]; [|exact H].
    apply existsb_exists in E. destruct E as [x [I Ex]].
    apply String.eqb_eq in Ex. now subst.
  - rewrite in_app_iff. cbn. split; [intros [H|[H|[]]]|intros [H|H]]; auto.
Qed.

Lemma setHas_In (h : string) (s : list string) :
  setHas h s = true <-> In h s.
Proof.
  unfold setHas. rewrite existsb_exists. split.
  - intros [x [I E]]. apply String.eqb_eq in E. now subst.
  - intros I. exists h. split; [exact I|apply String.eqb_refl].
Qed.

(** *** Deleting never throws *)

Lemma deleteCalendarEvent_never_throws (c : Calendar) (id : string)
    (lg : list string) :
  snd (deleteCalendarEvent c id lg) = Normal tt.
Proof.
  unfold deleteCalendarEvent.
  destruct (apiGetEventById c id) as [c1 [[g|]|msg]]; try reflexivity.
  destruct (apiDeleteEvent c1 id) as [c2 [u|msg]]; reflexivity.
Qed.

(** *** The second loop only deletes *)

Lemma syncStale_frame (pf : Platform) (now : Z) (st : SyncState)
    (kv : string * TrackingEntry) :
  let st' := syncStale pf now st kv in
  newTrackingMap st' = newTrackingMap st /\
  seenHashes st' = seenHashes st /\
  errs st' = errs st /\
  created (stats st') = created (stats st) /\
  unchanged (stats st') = unchanged (stats st) /\
  errors (stats st') = errors (stats st).
Proof.
  destruct kv as [h v]. cbn. unfold syncStale.
  destruct (negb (setHas h (seenHashes st))); [|repeat split].
  pose proof (deleteCalendarEvent_never_throws (cal st) (gcalEventId v) (logs st))
    as T.
  destruct (deleteCalendarEvent _ _ _) as [[c lg] [u|msg]];
    [|discriminate T].
  repeat split.
Qed.

Lemma staleLoop_frame (pf : Platform) (now : Z)
    (m : JsMap.t TrackingEntry) (st : SyncState) :
  let st' := fold_left (syncStale pf now) m st in
  newTrackingMap st' = newTrackingMap st /\
  seenHashes st' = seenHashes st /\
  errs st' = errs st /\
  created (stats st') = created (stats st) /\
  unchanged (stats st') = unchanged (stats st) /\
  errors (stats st') = errors (stats st).
Proof.
  revert st. induction m as [|kv r IH]; intros st; cbn.
  - repeat split.
  - destruct (IH (syncStale pf now st kv)) as (A & B & C & D & E & F).
    destruct (syncStale_frame pf now st kv) as (A' & B' & C' & D' & E' & F').
    cbn zeta in *. repeat split; congruence.
Qed.

(** With every tracked hash seen, the second loop does nothing. *)
Lemma staleLoop_idle (pf : Platform) (now : Z)
    (m : JsMap.t TrackingEntry) (st : SyncState) :
  (forall h, In h (JsMap.keys m) -> In h (seenHashes st)) ->
  fold_left (syncStale pf now) m st = st.
Proof.
  revert st. induction m as [|[h v] r IH]; intros st H; cbn; [reflexivity|].
  assert (S : setHas h (seenHashes st) = true)
    by (apply setHas_In, H; now left).
  rewrite S. cbn [negb]. apply IH. intros k I. apply H. now right.
Qed.

(** *** The first loop *)

Definition hashes (evs : list Event) : list string :=
  map computeEventHash evs.

Lemma get_set_keeps {V : Type} (k h : string) (v : V) (m : JsMap.t V) :
  JsMap.get h m <> None -> JsMap.get h (JsMap.set k v m) <> None.
Proof.
  intros H. destruct (String.eqb_spec h k) as [->|N].
  - rewrite JsMap.get_set_same. discriminate.
  - now rewrite JsMap.get_set_other.
Qed.

Lemma keys_set_setAdd {V : Type} (k : string) (v : V) (m : JsMap.t V) :
  JsMap.keys (JsMap.set k v m) = setAdd k (JsMap.keys m).
Proof.
  unfold setAdd, JsMap.keys.
  induction m as [|[k' v'] r IH]; cbn; [reflexivity|].
  rewrite (String.eqb_sym k k').
  destruct (String.eqb k' k) eqn:E; cbn; [reflexivity|].
  rewrite IH. destruct (existsb (String.eqb k) (map fst r)); reflexivity.
Qed.

(** Two maps with the same keys in the same order and the same lookups. *)
Lemma map_eq_keys {V : Type} (m1 m2 : JsMap.t V) :
  NoDup (JsMap.keys m1) -> JsMap.keys m1 = JsMap.keys m2 ->
  (forall h, JsMap.get h m1 = JsMap.get h m2) -> m1 = m2.
Proof.
  revert m2. induction m1 as [|[k v] r IH]; intros [|[k2 v2] r2] ND K G;
    cbn in K; try discriminate; [reflexivity|].
  injection K as <- K. inversion ND as [|? ? N1 N2]; subst.
  pose proof (G k) as Gk. cbn in Gk. rewrite String.eqb_refl in Gk.
  injection Gk as <-. f_equal. apply IH; [exact N2|exact K|].
  intros h. pose proof (G h) as Gh. cbn in Gh.
  destruct (String.eqb_spec k h) as [E|N]; [subst h|exact Gh].
  assert (A : JsMap.get k r = None) by (now apply JsMap.get_None_keys).
  assert (B : JsMap.get k r2 = None)
    by (apply JsMap.get_None_keys; unfold JsMap.keys; now rewrite <- K).
  congruence.
Qed.

Section FirstLoop.

Variables (pf : Platform) (now : Z) (old : JsMap.t TrackingEntry).

(** What holds after the events [done] have been processed, [H0] being
    the calls made before the loop and [seg] those made by the loop:
    the loop only creates, for events whose hash was not tracked; an entry
    of the new map is either the old entry of a hash of [done], or the
    entry of a successful creation of the loop for that hash; a successful
    creation leaves an entry; old entries of seen hashes are carried
    unchanged. *)
Definition Prov (H0 : list ApiCall) (done : list Event) (st : SyncState)
  : Prop :=
  exists seg,
    history (cal st) = H0 ++ seg /\
    (forall call, In call seg ->
       exists ev r, call = CreateCall ev r /\ In ev done /\
                    JsMap.get (computeEventHash ev) old = None) /\
    (forall h e',
       JsMap.get h (newTrackingMap st) = Some e' ->
       (JsMap.get h old = Some e' /\ In h (hashes done)) \/
       (JsMap.get h old = None /\
        exists ev id, In ev done /\ computeEventHash ev = h /\
                      e' = newEntry now ev id /\
                      In (CreateCall ev (Some id)) seg)) /\
    (forall ev id, In (CreateCall ev (Some id)) seg ->
       JsMap.get (computeEventHash ev) (newTrackingMap st) <> None) /\
    (forall h e, JsMap.get h old = Some e -> In h (hashes done) ->
       JsMap.get h (newTrackingMap st) = Some e) /\
    NoDup (JsMap.keys (newTrackingMap st)).

Lemma hashes_snoc (done : list Event) (ev : Event) (h : string) :
  In h (hashes (done ++ [ev])) <-> In h (hashes done) \/ h = computeEventHash ev.
Proof.
  unfold hashes. rewrite map_app, in_app_iff. cbn. intuition congruence.
Qed.

Lemma syncEvent_Prov (H0 : list ApiCall) (done : list Event)
    (st : SyncState) (ev : Event) :
  Prov H0 done st -> Prov H0 (done ++ [ev]) (syncEvent pf now old st ev).
Proof.
  intros (seg & Hh & Hc & Hp & Hs & Hk & Hn).
  assert (W : forall x, In x done -> In x (done ++ [ev]))
    by (intros x I; apply in_or_app; now left).
  assert (Wev : In ev (done ++ [ev]))
    by (apply in_or_app; right; now left).
  unfold syncEvent. set (h := computeEventHash ev).
  destruct (JsMap.get h old) as [e|] eqn:G.
  - exists seg. cbn [cal newTrackingMap].
    split; [exact Hh|]. split; [|split; [|split; [|split]]].
    + intros call I. destruct (Hc call I) as (ev' & r & -> & I' & G').
      exists ev', r. auto.
    + intros h' e' Hg. destruct (String.eqb_spec h' h) as [->|N].
      * rewrite JsMap.get_set_same in Hg. injection Hg as <-.
        left. split; [exact G|]. apply hashes_snoc. now right.
      * rewrite JsMap.get_set_other in Hg by exact N.
        destruct (Hp h' e' Hg) as [[A B]|[A (ev' & id & B & C & D & E)]].
        -- left. split; [exact A|]. apply hashes_snoc. now left.
        -- right. split; [exact A|]. exists ev', id. auto.
    + intros ev' id I. apply get_set_keeps. eauto.
    + intros h' e1 Hg I. destruct (String.eqb_spec h' h) as [->|N].
      * rewrite JsMap.get_set_same. congruence.
      * rewrite JsMap.get_set_other by exact N. apply Hk; [exact Hg|].
        apply hashes_snoc in I. destruct I as [I|I]; [exact I|contradiction].
    + now apply JsMap.NoDup_set.
  - unfold createCalendarEvent, apiCreate.
    destruct (nextOutcome (cal st)) as [msg|].
    + exists (seg ++ [CreateCall ev None]). cbn [cal newTrackingMap history].
      split; [now rewrite Hh, app_assoc|]. split; [|split; [|split; [|split]]].
      * intros call I. apply in_app_or in I. destruct I as [I|[<-|[]]].
        -- destruct (Hc call I) as (ev' & r & -> & I' & G').
           exists ev', r. auto.
        -- exists ev, None. auto.
      * intros h' e' Hg.
        destruct (Hp h' e' Hg) as [[A B]|[A (ev' & id & B & C & D & E)]].
        -- left. split; [exact A|]. apply hashes_snoc. now left.
        -- right. split; [exact A|]. exists ev', id.
           repeat split; auto. apply in_or_app. now left.
      * intros ev' id I. apply in_app_or in I.
        destruct I as [I|[I|[]]]; [eauto|discriminate I].
      * intros h' e1 Hg I. apply Hk; [exact Hg|].
        apply hashes_snoc in I. destruct I as [I|I]; [exact I|].
        subst h'. fold h in Hg. congruence.
      * exact Hn.
    + exists (seg ++ [CreateCall ev (Some (idOf (nextId (cal st))))]).
      cbn [cal newTrackingMap history].
      split; [now rewrite Hh, app_assoc|]. split; [|split; [|split; [|split]]].
      * intros call I. apply in_app_or in I. destruct I as [I|[<-|[]]].
        -- destruct (Hc call I) as (ev' & r & -> & I' & G').
           exists ev', r. auto.
        -- exists ev, (Some (idOf (nextId (cal st)))). auto.
      * intros h' e' Hg. destruct (String.eqb_spec h' h) as [->|N].
        -- rewrite JsMap.get_set_same in Hg. injection Hg as <-.
           right. split; [exact G|].
           exists ev, (idOf (nextId (cal st))).
           repeat split; auto. apply in_or_app. right. now left.
        -- rewrite JsMap.get_set_other in Hg by exact N.
           destruct (Hp h' e' Hg) as [[A B]|[A (ev' & id & B & C & D & E)]].
           ++ left. split; [exact A|]. apply hashes_snoc. now left.
           ++ right. split; [exact A|]. exists ev', id.
              repeat split; auto. apply in_or_app. now left.
      * intros ev' id I. apply in_app_or in I. destruct I as [I|[I|[]]].
        -- apply get_set_keeps. eauto.
        -- injection I as <- <-. fold h. rewrite JsMap.get_set_same.
           discriminate.
      * intros h' e1 Hg I. destruct (String.eqb_spec h' h) as [->|N];
          [congruence|].
        rewrite JsMap.get_set_other by exact N. apply Hk; [exact Hg|].
        apply hashes_snoc in I. destruct I as [I|I]; [exact I|contradiction].
      * now apply JsMap.NoDup_set.
Qed.

Lemma firstLoop_Prov (H0 : list ApiCall) (evs done : list Event)
    (st : SyncState) :
  Prov H0 done st ->
  Prov H0 (done ++ evs) (fold_left (syncEvent pf now old) evs st).
Proof.
  revert done st. induction evs as [|ev evs IH]; intros done st P; cbn.
  - now rewrite app_nil_r.
  - replace (done ++ ev :: evs) with ((done ++ [ev]) ++ evs)
      by (now rewrite <- app_assoc).
    apply IH, syncEvent_Prov, P.
Qed.

Lemma Prov_start (c : Calendar) (s : Stats) (e : ErrorSheet)
    (lg : list string) :
  Prov (history c) []
    {| cal := c; newTrackingMap := []; seenHashes := []; stats := s;
       errs := e; logs := lg |}.
Proof.
  exists []. cbn. split; [now rewrite app_nil_r|].
  split; [intros ? []|]. split; [discriminate|].
  split; [intros ? ? []|]. split; [intros ? ? ? []|constructor].
Qed.

Lemma syncEvent_seen (st : SyncState) (ev : Event) (h : string) :
  In h (seenHashes (syncEvent pf now old st ev)) <->
  h = computeEventHash ev \/ In h (seenHashes st).
Proof.
  unfold syncEvent. destruct (JsMap.get _ old); [apply setAdd_In|].
  destruct (createCalendarEvent (cal st) ev) as [c [id|msg]]; apply setAdd_In.
Qed.

Lemma firstLoop_seen (evs : list Event) (st : SyncState) (h : string) :
  In h (seenHashes (fold_left (syncEvent pf now old) evs st)) <->
  In h (hashes evs) \/ In h (seenHashes st).
Proof.
  revert st. induction evs as [|ev evs IH]; intros st; cbn; [tauto|].
  rewrite IH, syncEvent_seen. intuition congruence.
Qed.

(** A run that reports no error has an entry for every event, and its
    map lists the hashes in the order they were first seen. *)
Lemma syncEvent_errors (st : SyncState) (ev : Event) :
  let st' := syncEvent pf now old st ev in
  errors (stats st) <= errors (stats st') /\
  (errors (stats st') = errors (stats st) ->
   JsMap.get (computeEventHash ev) (newTrackingMap st') <> None) /\
  (forall h, JsMap.get h (newTrackingMap st) <> None ->
             JsMap.get h (newTrackingMap st') <> None) /\
  (JsMap.keys (newTrackingMap st) = seenHashes st ->
   errors (stats st') = errors (stats st) ->
   JsMap.keys (newTrackingMap st') = seenHashes st').
Proof.
  cbv zeta. unfold syncEvent.
  destruct (JsMap.get (computeEventHash ev) old) as [e|].
  - cbn [newTrackingMap seenHashes stats errors].
    split; [lia|]. split; [|split].
    + intros _. rewrite JsMap.get_set_same. discriminate.
    + intros h. apply get_set_keeps.
    + intros K _. now rewrite keys_set_setAdd, K.
  - destruct (createCalendarEvent (cal st) ev) as [c [id|msg]];
      cbn [newTrackingMap seenHashes stats errors].
    + split; [lia|]. split; [|split].
      * intros _. rewrite JsMap.get_set_same. discriminate.
      * intros h. apply get_set_keeps.
      * intros K _. now rewrite keys_set_setAdd, K.
    + split; [lia|]. split; [lia|]. split; [auto|lia].
Qed.

Lemma firstLoop_errors (evs : list Event) (st : SyncState) :
  let st' := fold_left (syncEvent pf now old) evs st in
  errors (stats st) <= errors (stats st') /\
  (errors (stats st') = errors (stats st) ->
   forall ev, In ev evs ->
     JsMap.get (computeEventHash ev) (newTrackingMap st') <> None) /\
  (forall h, JsMap.get h (newTrackingMap st) <> None ->
             JsMap.get h (newTrackingMap st') <> None) /\
  (JsMap.keys (newTrackingMap st) = seenHashes st ->
   errors (stats st') = errors (stats st) ->
   JsMap.keys (newTrackingMap st') = seenHashes st').
Proof.
  revert st. induction evs as [|ev evs IH]; intros st; cbn.
  - split; [lia|]. split; [intros _ ? []|auto].
  - destruct (IH (syncEvent pf now old st ev)) as (A & B & C & D).
    destruct (syncEvent_errors st ev) as (A' & B' & C' & D'). cbv zeta in *.
    split; [lia|]. split; [|split].
    + intros E ev' [<-|I].
      * apply C, B'. lia.
      * apply B; [lia|exact I].
    + intros h H. apply C, C', H.
    + intros K E. apply D; [apply D'; [exact K|lia]|lia].
Qed.

(** The seen hashes depend on the events only. *)
Lemma firstLoop_seen_order (evs : list Event) (st : SyncState) :
  seenHashes (fold_left (syncEvent pf now old) evs st)
  = fold_left (fun s ev => setAdd (computeEventHash ev) s) evs (seenHashes st).
Proof.
  revert st. induction evs as [|ev evs IH]; intros st; cbn; [reflexivity|].
  rewrite IH. f_equal. unfold syncEvent.
  destruct (JsMap.get _ old); [reflexivity|].
  destruct (createCalendarEvent (cal st) ev) as [c [id|msg]]; reflexivity.
Qed.

(** When every event is already tracked the loop calls nothing and
    copies the old entries. *)
Lemma firstLoop_idle (evs : list Event) (st : SyncState) :
  (forall ev, In ev evs -> JsMap.get (computeEventHash ev) old <> None) ->
  let st' := fold_left (syncEvent pf now old) evs st in
  cal st' = cal st /\ errs st' = errs st /\ logs st' = logs st /\
  created (stats st') = created (stats st) /\
  deleted (stats st') = deleted (stats st) /\
  errors (stats st') = errors (stats st).
Proof.
  revert st. induction evs as [|ev evs IH]; intros st H; cbn.
  - repeat split.
  - destruct (IH (syncEvent pf now old st ev)) as (A & B & C & D & E & F).
    { intros ev' I. apply H. now right. }
    cbv zeta in *. rewrite A, B, C, D, E, F.
    unfold syncEvent.
    destruct (JsMap.get (computeEventHash ev) old) as [e|] eqn:G.
    + repeat split.
    + elim (H ev (or_introl eq_refl)). exact G.
Qed.

End FirstLoop.

(** *** The events read do not depend on the error sheet or the clock *)

Lemma processRow_event (pf : Platform) (n1 n2 : Z) (name : string) (id : Z)
    (cols : Columns) (i : Z) (row : list Cell) (e1 e2 : ErrorSheet) :
  snd (processRow pf n1 name id cols i row e1)
  = snd (processRow pf n2 name id cols i row e2).
Proof.
  unfold processRow.
  destruct (parseDateTimeValue pf (getCell row (dateColIndex cols))) as [sp|].
  - destruct (negb (useLegacy cols) && negb (endCol cols =? -1)
              && truthy (getCell row (endCol cols)));
      [destruct (parseDateTimeValue pf (getCell row (endCol cols)))|];
      destruct (isEmptyString _); reflexivity.
  - destruct (negb (isEmptyString _)); reflexivity.
Qed.

Lemma processRows_events (pf : Platform) (n1 n2 : Z) (name : string) (id : Z)
    (cols : Columns) (rows : list (list Cell)) (i : Z)
    (e1 e2 : ErrorSheet) (evs : list Event) :
  snd (processRows pf n1 name id cols i rows (e1, evs))
  = snd (processRows pf n2 name id cols i rows (e2, evs)).
Proof.
  revert i e1 e2 evs. induction rows as [|row rows IH]; intros i e1 e2 evs;
    cbn [processRows]; [reflexivity|].
  pose proof (processRow_event pf n1 n2 name id cols i row e1 e2) as E.
  destruct (processRow pf n1 name id cols i row e1) as [e1' ev1].
  destruct (processRow pf n2 name id cols i row e2) as [e2' ev2].
  cbn in E. subst ev2. apply IH.
Qed.

Lemma processSheet_events (pf : Platform) (n1 n2 : Z) (sheet : Sheet)
    (e1 e2 : ErrorSheet) (evs : list Event) :
  snd (processSheet pf n1 (e1, evs) sheet)
  = snd (processSheet pf n2 (e2, evs) sheet).
Proof.
  unfold processSheet.
  destruct (String.eqb _ CONFIG.calendarSheetName); [reflexivity|].
  destruct (String.eqb _ CONFIG.syncTrackingSheetName); [reflexivity|].
  destruct (String.eqb _ CONFIG.errorSheetName); [reflexivity|].
  destruct (getValues sheet) as [|headerRow [|row rows]]; try reflexivity.
  destruct (sheetColumns pf headerRow); [|reflexivity].
  apply processRows_events.
Qed.

Lemma sheetsLoop_events (pf : Platform) (n1 n2 : Z) (ss : list Sheet)
    (e1 e2 : ErrorSheet) (evs : list Event) :
  snd (fold_left (processSheet pf n1) ss (e1, evs))
  = snd (fold_left (processSheet pf n2) ss (e2, evs)).
Proof.
  revert e1 e2 evs. induction ss as [|s ss IH]; intros e1 e2 evs; cbn;
    [reflexivity|].
  pose proof (processSheet_events pf n1 n2 s e1 e2 evs) as E.
  destruct (processSheet pf n1 (e1, evs) s) as [e1' evs1].
  destruct (processSheet pf n2 (e2, evs) s) as [e2' evs2].
  cbn in E. subst evs2. apply IH.
Qed.

Lemma getAllEvents_events (pf : Platform) (n1 n2 : Z) (ss : list Sheet)
    (e1 e2 : ErrorSheet) :
  snd (getAllEvents pf n1 ss e1) = snd (getAllEvents pf n2 ss e2).
Proof.
  unfold getAllEvents.
  pose proof (sheetsLoop_events pf n1 n2 ss (clearErrorsByType DONNEES e1)
                (clearErrorsByType DONNEES e2) []) as E.
  destruct (fold_left (processSheet pf n1) ss _) as [a evs1].
  destruct (fold_left (processSheet pf n2) ss _) as [b evs2].
  cbn in *. now subst.
Qed.

(** The syncable events of the source sheets. *)
Definition sourceEvents (pf : Platform) (ss : list Sheet) : list Event :=
  eventsToSyncOf (snd (getAllEvents pf 0 ss None)).

(** *** The calls of the second loop *)

Definition isDeletion (ids : list string) (call : ApiCall) : Prop :=
  match call with
  | CreateCall _ _ => False
  | GetEventByIdCall id _ => In id ids
  | DeleteEventCall id _ => In id ids
  end.

Lemma apiGetEventById_history (c : Calendar) (id : string) :
  exists ok,
    history (fst (apiGetEventById c id))
    = history c ++ [GetEventByIdCall id ok].
Proof.
  unfold apiGetEventById. destruct (nextOutcome c); eexists; reflexivity.
Qed.

Lemma apiDeleteEvent_history (c : Calendar) (id : string) :
  exists ok,
    history (fst (apiDeleteEvent c id))
    = history c ++ [DeleteEventCall id ok].
Proof.
  unfold apiDeleteEvent. destruct (nextOutcome c); eexists; reflexivity.
Qed.

Lemma deleteCalendarEvent_history (c : Calendar) (id : string)
    (lg : list string) :
  exists dels,
    history (fst (fst (deleteCalendarEvent c id lg))) = history c ++ dels /\
    Forall (isDeletion [id]) dels.
Proof.
  unfold deleteCalendarEvent.
  destruct (apiGetEventById_history c id) as [ok1 E1].
  destruct (apiGetEventById c id) as [c1 [[g|]|msg]]; cbn [fst] in *.
  - destruct (apiDeleteEvent_history c1 id) as [ok2 E2].
    destruct (apiDeleteEvent c1 id) as [c2 [u|msg]]; cbn [fst] in *;
      (exists [GetEventByIdCall id ok1; DeleteEventCall id ok2];
       split; [rewrite E2, E1; now rewrite <- app_assoc|]);
      repeat constructor.
  - exists [GetEventByIdCall id ok1]. split; [exact E1|]. repeat constructor.
  - exists [GetEventByIdCall id ok1]. split; [exact E1|]. repeat constructor.
Qed.

Lemma isDeletion_weaken (a b : list string) (call : ApiCall) :
  (forall x, In x a -> In x b) -> isDeletion a call -> isDeletion b call.
Proof. intros H. destruct call; cbn; auto. Qed.

(** The second loop only looks up and deletes events of tracked entries
    whose hash was not seen. *)
Lemma staleLoop_history (pf : Platform) (now : Z)
    (m : JsMap.t TrackingEntry) (st : SyncState) :
  exists dels,
    history (cal (fold_left (syncStale pf now) m st))
      = history (cal st) ++ dels /\
    Forall (isDeletion
              (map (fun kv => gcalEventId (snd kv))
                   (filter (fun kv => negb (setHas (fst kv) (seenHashes st))) m)))
           dels.
Proof.
  revert st. induction m as [|[h v] r IH]; intros st; cbn [fold_left].
  - exists []. split; [now rewrite app_nil_r|constructor].
  - destruct (IH (syncStale pf now st (h, v))) as (dels & E & F).
    destruct (syncStale_frame pf now st (h, v)) as (_ & S & _).
    cbv zeta in S. rewrite S in F.
    unfold syncStale in E |- *. cbn [filter fst].
    destruct (negb (setHas h (seenHashes st))) eqn:N.
    + destruct (deleteCalendarEvent_history (cal st) (gcalEventId v) (logs st))
        as (d1 & E1 & F1).
      unfold syncStale in S. rewrite N in S.
      destruct (deleteCalendarEvent (cal st) (gcalEventId v) (logs st))
        as [[c lg] [u|msg]]; cbn [fst cal] in *;
        (exists (d1 ++ dels); split;
         [rewrite E, E1; now rewrite app_assoc|]);
        apply Forall_app; (split;
          [eapply Forall_impl; [|exact F1]; intros call;
           apply isDeletion_weaken; cbn; intros x [<-|[]]; now left
          |eapply Forall_impl; [|exact F]; intros call;
           apply isDeletion_weaken; cbn; intros x I; now right]).
    + exists dels. split; [exact E|exact F].
Qed.

(** *** One run, as a whole *)

Definition startState (c : Calendar) (e : ErrorSheet) (lg : list string)
  : SyncState :=
  {| cal := c; newTrackingMap := []; seenHashes := [];
     stats := {| created := 0; unchanged := 0; deleted := 0; errors := 0 |};
     errs := e; logs := lg |}.

Lemma writeSyncTracking_Some (m : JsMap.t TrackingEntry) (sh : SyncSheet) :
  writeSyncTracking m sh = Some m.
Proof.
  unfold writeSyncTracking. destruct m as [|p m]; [reflexivity|].
  destruct (Z.ltb_spec 0 (Z.of_nat (List.length (p :: m)))) as [L|L];
    [|cbn [List.length] in L; lia].
  now rewrite skipn_nil, app_nil_r.
Qed.

Lemma sync_unfold (pf : Platform) (now : Z) (w : World) (c : Calendar) :
  calendar w = Some c ->
  exists errs1,
    let old := getSyncTrackingData (syncSheet w) in
    let st1 := fold_left (syncEvent pf now old) (sourceEvents pf (sheets w))
                         (startState c errs1 (logger w)) in
    let st2 := fold_left (syncStale pf now) old st1 in
    snd (syncToGoogleCalendar pf now w) = Normal (stats st2) /\
    sheets (fst (syncToGoogleCalendar pf now w)) = sheets w /\
    syncSheet (fst (syncToGoogleCalendar pf now w))
      = Some (newTrackingMap st2) /\
    calendar (fst (syncToGoogleCalendar pf now w)) = Some (cal st2).
Proof.
  intros H. unfold syncToGoogleCalendar. rewrite H.
  pose proof (getAllEvents_events pf now 0 (sheets w)
                (clearErrorsByType SYNC_GCAL (errorSheet w)) None) as E.
  destruct (getAllEvents pf now (sheets w) _) as [errs1 allEvents].
  cbn [snd] in E. exists errs1. unfold sourceEvents. rewrite <- E.
  cbn [fst snd sheets syncSheet calendar]. rewrite writeSyncTracking_Some.
  repeat split.
Qed.

Lemma isDeletion_pick (ids : list string) (call : ApiCall) :
  isDeletion ids call -> exists id, In id ids /\ isDeletion [id] call.
Proof.
  destruct call as [ev r|id ok|id ok]; cbn; [intros []| |];
    intros I; exists id; (split; [exact I|now left]).
Qed.

(** What one run does to the calendar and to the tracking sheet.  [seg]
    are the calls of the first loop and [dels] those of the second. *)
Lemma run_summary (pf : Platform) (now : Z) (w : World) (c : Calendar) :
  calendar w = Some c ->
  let old := getSyncTrackingData (syncSheet w) in
  let evs := sourceEvents pf (sheets w) in
  let w' := fst (syncToGoogleCalendar pf now w) in
  exists s c' new seg dels,
    snd (syncToGoogleCalendar pf now w) = Normal s /\
    calendar w' = Some c' /\ sheets w' = sheets w /\
    syncSheet w' = Some new /\ getSyncTrackingData (syncSheet w') = new /\
    history c' = history c ++ seg ++ dels /\
    (forall call, In call seg ->
       exists ev r, call = CreateCall ev r /\ In ev evs /\
                    JsMap.get (computeEventHash ev) old = None) /\
    (forall call, In call dels ->
       exists h v, In (h, v) old /\ ~ In h (hashes evs) /\
                   isDeletion [gcalEventId v] call) /\
    NoDup (JsMap.keys new) /\
    (forall h e',
       JsMap.get h new = Some e' ->
       (JsMap.get h old = Some e' /\ In h (hashes evs)) \/
       (JsMap.get h old = None /\
        exists ev id, In ev evs /\ computeEventHash ev = h /\
                      e' = newEntry now ev id /\
                      In (CreateCall ev (Some id)) seg)) /\
    (forall ev id, In (CreateCall ev (Some id)) seg ->
       JsMap.get (computeEventHash ev) new <> None) /\
    (forall h e, JsMap.get h old = Some e -> In h (hashes evs) ->
       JsMap.get h new = Some e) /\
    (errors s = 0 ->
       (forall ev, In ev evs -> JsMap.get (computeEventHash ev) new <> None) /\
       JsMap.keys new
         = fold_left (fun s ev => setAdd (computeEventHash ev) s) evs []).
Proof.
  intros H. cbv zeta.
  destruct (sync_unfold pf now w c H) as (errs1 & R1 & R2 & R3 & R4).
  cbv zeta in *.
  set (old := getSyncTrackingData (syncSheet w)) in *.
  set (evs := sourceEvents pf (sheets w)) in *.
  set (st0 := startState c errs1 (logger w)) in *.
  set (st1 := fold_left (syncEvent pf now old) evs st0) in *.
  set (st2 := fold_left (syncStale pf now) old st1) in *.
  destruct (staleLoop_frame pf now old st1) as (F1 & F2 & F3 & F4 & F5 & F6).
  cbv zeta in *. fold st2 in F1, F2, F3, F4, F5, F6.
  destruct (staleLoop_history pf now old st1) as (dels & D1 & D2).
  fold st2 in D1.
  pose proof (firstLoop_Prov pf now old (history c) evs [] st0
                (Prov_start now old c _ errs1 (logger w))) as P.
  cbn [app] in P. fold st1 in P.
  destruct P as (seg & Hh & Hc & Hp & Hs & Hk & Hn).
  destruct (firstLoop_errors pf now old evs st0) as (E1 & E2 & _ & E4).
  cbv zeta in *. fold st1 in E1, E2, E4.
  assert (NE : Forall (fun k => isEmptyString k = false)
                      (JsMap.keys (newTrackingMap st1))).
  { apply Forall_forall. intros k I.
    destruct (JsMap.get k (newTrackingMap st1)) as [e'|] eqn:G.
    - destruct (Hp k e' G) as [[_ B]|[_ (ev & id & _ & <- & _)]].
      + unfold hashes in B. apply in_map_iff in B.
        destruct B as (ev & <- & _). apply computeEventHash_nonempty.
      + apply computeEventHash_nonempty.
    - apply JsMap.get_None_keys in G. contradiction. }
  assert (RB : getSyncTrackingData (Some (newTrackingMap st1))
               = newTrackingMap st1).
  { rewrite <- (writeSyncTracking_Some (newTrackingMap st1) None).
    now apply getSyncTrackingData_written. }
  exists (stats st2), (cal st2), (newTrackingMap st1), seg, dels.
  rewrite R3, F1.
  split; [exact R1|]. split; [exact R4|]. split; [exact R2|].
  split; [reflexivity|]. split; [exact RB|].
  split; [now rewrite D1, Hh, app_assoc|].
  split; [exact Hc|].
  split.
  { intros call I. rewrite Forall_forall in D2.
    destruct (isDeletion_pick _ _ (D2 call I)) as (id & Iid & Hid).
    apply in_map_iff in Iid. destruct Iid as ([h v] & <- & If).
    apply filter_In in If. destruct If as [Io Ns]. cbn [fst snd] in *.
    exists h, v. split; [exact Io|]. split; [|exact Hid].
    intros Ih. apply negb_true_iff in Ns.
    assert (S : setHas h (seenHashes st1) = true).
    { apply setHas_In. apply firstLoop_seen. now left. }
    congruence. }
  split; [exact Hn|]. split; [exact Hp|]. split; [exact Hs|].
  split; [exact Hk|].
  intros Z0. rewrite F6 in Z0.
  split.
  - apply E2. exact Z0.
  - rewrite E4; [|reflexivity|exact Z0].
    apply firstLoop_seen_order.
Qed.

End SyncFacts.

(** *** The calls and the counters of a run *)

Module RunFacts.

Import Sheets Errors Normalizer Hash Sync SyncFacts.
Local Open Scope string_scope.
Local Open Scope list_scope.
Local Open Scope Z_scope.

Definition isCreated (call : ApiCall) : bool :=
  match call with CreateCall _ (Some _) => true | _ => false end.

Definition isFailedCreate (call : ApiCall) : bool :=
  match call with CreateCall _ None => true | _ => false end.

Definition isDeleteEvent (call : ApiCall) : bool :=
  match call with DeleteEventCall _ _ => true | _ => false end.

Definition count {A : Type} (p : A -> bool) (l : list A) : Z :=
  Z.of_nat (List.length (filter p l)).

(** The events the calendar was asked to create, and the ids it was asked
    to look up, in the order of the calls. *)
Definition createdEvents (calls : list ApiCall) : list Event :=
  flat_map (fun call => match call with CreateCall ev _ => [ev] | _ => [] end)
           calls.

Definition lookedUp (calls : list ApiCall) : list string :=
  flat_map (fun call =>
              match call with GetEventByIdCall id _ => [id] | _ => [] end)
           calls.

(** The hash of the event has an entry in the tracking map. *)
Definition tracked (old : JsMap.t TrackingEntry) (ev : Event) : bool :=
  match JsMap.get (computeEventHash ev) old with
  | Some _ => true
  | None => false
  end.

(** The hash of the tracking row is not one of the given hashes. *)
Definition stale (current : list string) (kv : string * TrackingEntry) : bool :=
  negb (existsb (String.eqb (fst kv)) current).

Lemma count_app {A : Type} (p : A -> bool) (l1 l2 : list A) :
  count p (l1 ++ l2) = count p l1 + count p l2.
Proof. unfold count. rewrite filter_app, length_app. lia. Qed.

Lemma count_cons {A : Type} (p : A -> bool) (x : A) (l : list A) :
  count p (x :: l) = (if p x then 1 else 0) + count p l.
Proof. unfold count. cbn. destruct (p x); cbn [List.length]; lia. Qed.

Lemma count_ext {A : Type} (p q : A -> bool) (l : list A) :
  (forall x, In x l -> p x = q x) -> count p l = count q l.
Proof.
  intros H. unfold count. induction l as [|x l IH]; [reflexivity|].
  cbn. rewrite (H x) by now left.
  assert (IH' : List.length (filter p l) = List.length (filter q l))
    by (apply Nat2Z.inj, IH; intros y I; apply H; now right).
  destruct (q x); cbn [List.length]; lia.
Qed.

Lemma createdEvents_app (l1 l2 : list ApiCall) :
  createdEvents (l1 ++ l2) = createdEvents l1 ++ createdEvents l2.
Proof. apply flat_map_app. Qed.

Lemma lookedUp_app (l1 l2 : list ApiCall) :
  lookedUp (l1 ++ l2) = lookedUp l1 ++ lookedUp l2.
Proof. apply flat_map_app. Qed.

Lemma createdEvents_length (l : list ApiCall) :
  Z.of_nat (List.length (createdEvents l))
  = count isCreated l + count isFailedCreate l.
Proof.
  induction l as [|call l IH]; [reflexivity|].
  rewrite !count_cons. change (createdEvents (call :: l))
    with ((match call with CreateCall ev _ => [ev] | _ => [] end)
          ++ createdEvents l).
  rewrite length_app, Nat2Z.inj_add, IH.
  destruct call as [e [id|]|id ok|id ok];
    cbn [List.length isCreated isFailedCreate]; lia.
Qed.

(** One step of the first loop. *)
Lemma syncEvent_calls (pf : Platform) (now : Z)
    (old : JsMap.t TrackingEntry) (st : SyncState) (ev : Event) :
  let st' := syncEvent pf now old st ev in
  exists seg,
    history (cal st') = history (cal st) ++ seg /\
    createdEvents seg = (if tracked old ev then [] else [ev]) /\
    lookedUp seg = [] /\
    created (stats st') = created (stats st) + count isCreated seg /\
    errors (stats st') = errors (stats st) + count isFailedCreate seg /\
    unchanged (stats st')
    = unchanged (stats st) + (if tracked old ev then 1 else 0) /\
    deleted (stats st') = deleted (stats st) /\
    Z.of_nat (List.length seg)
    = count isCreated seg + count isFailedCreate seg.
Proof.
  cbv zeta. unfold syncEvent, tracked.
  destruct (JsMap.get (computeEventHash ev) old) as [e|].
  - exists []. rewrite app_nil_r. unfold count.
    cbn. repeat split; lia.
  - unfold createCalendarEvent, apiCreate.
    destruct (nextOutcome (cal st)) as [msg|];
      cbn [cal stats created errors unchanged deleted history].
    + exists [CreateCall ev None]. unfold count. cbn. repeat split; lia.
    + exists [CreateCall ev (Some (idOf (nextId (cal st))))].
      unfold count. cbn. repeat split; lia.
Qed.

Lemma firstLoop_calls (pf : Platform) (now : Z)
    (old : JsMap.t TrackingEntry) (evs : list Event) (st : SyncState) :
  let st' := fold_left (syncEvent pf now old) evs st in
  exists seg,
    history (cal st') = history (cal st) ++ seg /\
    createdEvents seg = filter (fun ev => negb (tracked old ev)) evs /\
    lookedUp seg = [] /\
    created (stats st') = created (stats st) + count isCreated seg /\
    errors (stats st') = errors (stats st) + count isFailedCreate seg /\
    unchanged (stats st') = unchanged (stats st) + count (tracked old) evs /\
    deleted (stats st') = deleted (stats st) /\
    Z.of_nat (List.length seg)
    = count isCreated seg + count isFailedCreate seg.
Proof.
  revert st. induction evs as [|ev evs IH]; intros st; cbn [fold_left].
  - exists []. rewrite app_nil_r. unfold count. cbn. repeat split; lia.
  - destruct (IH (syncEvent pf now old st ev))
      as (seg & H1 & H2 & H3 & H4 & H5 & H6 & H7 & H8).
    destruct (syncEvent_calls pf now old st ev)
      as (seg0 & K1 & K2 & K3 & K4 & K5 & K6 & K7 & L0).
    cbv zeta in *. exists (seg0 ++ seg).
    rewrite createdEvents_app, lookedUp_app, !count_app, !count_cons, length_app.
    rewrite H2, H3, K2, K3. cbn [filter].
    split; [rewrite H1, K1; now rewrite app_assoc|].
    split; [destruct (tracked old ev); reflexivity|].
    split; [reflexivity|].
    rewrite Nat2Z.inj_add. repeat split; lia.
Qed.

(** [deleteCalendarEvent] looks the event up once and creates nothing. *)
Lemma deleteCalendarEvent_calls (c : Calendar) (id : string)
    (lg : list string) :
  exists calls,
    history (fst (fst (deleteCalendarEvent c id lg))) = history c ++ calls /\
    createdEvents calls = [] /\ lookedUp calls = [id] /\
    count isCreated calls = 0 /\ count isFailedCreate calls = 0.
Proof.
  unfold deleteCalendarEvent, apiGetEventById, apiDeleteEvent.
  destruct (nextOutcome c) as [msg|].
  - exists [GetEventByIdCall id false]. repeat split.
  - destruct (JsMap.get id (stored c)) as [g|].
    + match goal with
      | |- context [nextOutcome ?c1] => destruct (nextOutcome c1) as [msg|]
      end.
      * exists [GetEventByIdCall id true; DeleteEventCall id false].
        cbn [fst history]. rewrite <- app_assoc. repeat split.
      * exists [GetEventByIdCall id true; DeleteEventCall id true].
        cbn [fst history]. rewrite <- app_assoc. repeat split.
    + exists [GetEventByIdCall id true]. repeat split.
Qed.

Lemma syncStale_calls (pf : Platform) (now : Z) (st : SyncState)
    (kv : string * TrackingEntry) :
  let st' := syncStale pf now st kv in
  let unseen := negb (setHas (fst kv) (seenHashes st)) in
  exists calls,
    history (cal st') = history (cal st) ++ calls /\
    createdEvents calls = [] /\
    lookedUp calls = (if unseen then [gcalEventId (snd kv)] else []) /\
    count isCreated calls = 0 /\ count isFailedCreate calls = 0 /\
    deleted (stats st') = deleted (stats st) + (if unseen then 1 else 0).
Proof.
  destruct kv as [h v]. cbv zeta. cbn [fst snd]. unfold syncStale.
  destruct (negb (setHas h (seenHashes st))).
  - destruct (deleteCalendarEvent_calls (cal st) (gcalEventId v) (logs st))
      as (d1 & E1 & E2 & E3 & E4 & E5).
    pose proof (deleteCalendarEvent_never_throws (cal st) (gcalEventId v)
                  (logs st)) as T.
    destruct (deleteCalendarEvent (cal st) (gcalEventId v) (logs st))
      as [[c lg] [u|msg]]; [|discriminate T].
    cbn [fst cal stats deleted] in *. exists d1. repeat split; assumption.
  - exists []. rewrite app_nil_r. repeat split. lia.
Qed.

Lemma staleLoop_calls (pf : Platform) (now : Z)
    (m : JsMap.t TrackingEntry) (st : SyncState) :
  let st' := fold_left (syncStale pf now) m st in
  exists dels,
    history (cal st') = history (cal st) ++ dels /\
    createdEvents dels = [] /\
    lookedUp dels
    = map (fun kv => gcalEventId (snd kv))
          (filter (fun kv => negb (setHas (fst kv) (seenHashes st))) m) /\
    count isCreated dels = 0 /\ count isFailedCreate dels = 0 /\
    deleted (stats st')
    = deleted (stats st)
      + count (fun kv => negb (setHas (fst kv) (seenHashes st))) m.
Proof.
  revert st. induction m as [|kv m IH]; intros st; cbn [fold_left].
  - exists []. rewrite app_nil_r. unfold count. cbn. repeat split; lia.
  - destruct (IH (syncStale pf now st kv))
      as (dels & H1 & H2 & H3 & H4 & H5 & H6).
    destruct (syncStale_frame pf now st kv) as (_ & S & _).
    destruct (syncStale_calls pf now st kv)
      as (d1 & E1 & E2 & E3 & E4 & E5 & E6).
    cbv zeta in *. rewrite S in H3, H6. rewrite count_cons. cbn [filter].
    exists (d1 ++ dels).
    rewrite createdEvents_app, lookedUp_app, !count_app, E2, E3, E4, E5, H2,
      H3, H4, H5.
    split; [rewrite H1, E1; now rewrite app_assoc|].
    destruct (negb (setHas (fst kv) (seenHashes st)));
      cbn [map app]; repeat split; lia.
Qed.

(** The calls and the counters of one run. *)
Lemma run_calls (pf : Platform) (now : Z) (w : World) (c : Calendar) :
  calendar w = Some c ->
  let old := getSyncTrackingData (syncSheet w) in
  let evs := sourceEvents pf (sheets w) in
  exists s c',
    snd (syncToGoogleCalendar pf now w) = Normal s /\
    calendar (fst (syncToGoogleCalendar pf now w)) = Some c' /\
    createdEvents (callsDuring c c')
    = filter (fun ev => negb (tracked old ev)) evs /\
    lookedUp (callsDuring c c')
    = map (fun kv => gcalEventId (snd kv)) (filter (stale (hashes evs)) old) /\
    created s + unchanged s + errors s = Z.of_nat (List.length evs) /\
    unchanged s = count (tracked old) evs /\
    created s = count isCreated (callsDuring c c') /\
    errors s = count isFailedCreate (callsDuring c c') /\
    deleted s = count (stale (hashes evs)) old.
Proof.
  intros H. cbv zeta.
  destruct (sync_unfold pf now w c H) as (errs1 & R1 & _ & _ & R4).
  cbv zeta in *.
  set (old := getSyncTrackingData (syncSheet w)) in *.
  set (evs := sourceEvents pf (sheets w)) in *.
  set (st0 := startState c errs1 (logger w)) in *.
  set (st1 := fold_left (syncEvent pf now old) evs st0) in *.
  set (st2 := fold_left (syncStale pf now) old st1) in *.
  destruct (firstLoop_calls pf now old evs st0)
    as (seg & F1 & F2 & F3 & F4 & F5 & F6 & F7 & F8).
  cbv zeta in *. fold st1 in F1, F4, F5, F6, F7.
  destruct (staleLoop_frame pf now old st1) as (_ & _ & _ & S4 & S5 & S6).
  cbv zeta in *. fold st2 in S4, S5, S6.
  destruct (staleLoop_calls pf now old st1)
    as (dels & D1 & D2 & D3 & D4 & D5 & D6).
  cbv zeta in *. fold st2 in D1, D6.
  assert (CD : callsDuring c (cal st2) = seg ++ dels).
  { unfold callsDuring. rewrite D1, F1. cbn [st0 startState cal].
    rewrite <- app_assoc, skipn_app, skipn_all, Nat.sub_diag. reflexivity. }
  assert (T : count (fun ev => negb (tracked old ev)) evs
              + count (tracked old) evs = Z.of_nat (List.length evs)).
  { clear. induction evs as [|ev evs IH]; [reflexivity|].
    rewrite !count_cons. cbn [List.length].
    destruct (tracked old ev); cbn [negb]; lia. }
  assert (L : count isCreated seg + count isFailedCreate seg
              = count (fun ev => negb (tracked old ev)) evs)
    by (rewrite <- createdEvents_length, F2; reflexivity).
  assert (Q : forall kv : string * TrackingEntry,
             negb (setHas (fst kv) (seenHashes st1)) = stale (hashes evs) kv).
  { intros [h v]. unfold stale. cbn [fst]. f_equal. unfold setHas.
    destruct (existsb (String.eqb h) (seenHashes st1)) eqn:A,
             (existsb (String.eqb h) (hashes evs)) eqn:B; try reflexivity.
    - apply (setHas_In h) in A.
      apply (firstLoop_seen pf now old evs st0 h) in A.
      destruct A as [A|[]]. apply (setHas_In h) in A. unfold setHas in A.
      congruence.
    - apply (setHas_In h) in B.
      assert (A' : In h (seenHashes st1))
        by (apply (firstLoop_seen pf now old evs st0 h); now left).
      apply (setHas_In h) in A'. unfold setHas in A'. congruence. }
  exists (stats st2), (cal st2).
  rewrite CD, createdEvents_app, lookedUp_app, !count_app, D2, D3, D4, D5, F2,
    F3, app_nil_r.
  cbn [st0 startState stats created errors unchanged deleted app] in *.
  split; [exact R1|]. split; [exact R4|].
  split; [reflexivity|].
  split; [f_equal; apply filter_ext; exact Q|].
  split; [lia|]. split; [lia|]. split; [lia|]. split; [lia|].
  rewrite D6, F7. cbn. apply count_ext. intros kv _. apply Q.
Qed.

(** *** Deleting from the store *)

Lemma get_filter_other (id id' : string) (l : list (string * GCalEvent)) :
  id' <> id ->
  JsMap.get id' (filter (fun p => negb (String.eqb (fst p) id)) l)
  = JsMap.get id' l.
Proof.
  intros N. induction l as [|[k g] l IH]; [reflexivity|].
  cbn [filter fst]. destruct (String.eqb_spec k id) as [->|Nk]; cbn [negb].
  - cbn [JsMap.get]. destruct (String.eqb_spec id id'); [congruence|exact IH].
  - cbn [JsMap.get]. now rewrite IH.
Qed.

Lemma get_filter_same (id : string) (l : list (string * GCalEvent)) :
  JsMap.get id (filter (fun p => negb (String.eqb (fst p) id)) l) = None.
Proof.
  induction l as [|[k g] l IH]; [reflexivity|].
  cbn [filter fst]. destruct (String.eqb_spec k id) as [->|Nk]; cbn [negb];
    [exact IH|].
  cbn [JsMap.get]. destruct (String.eqb_spec k id); [congruence|exact IH].
Qed.

Lemma eventTitleOf_nonempty (ev : Event) :
  isEmptyString (event ev) = false -> isEmptyString (eventTitleOf ev) = false.
Proof.
  intros H. unfold eventTitleOf.
  destruct (service ev) as [|a s]; [exact H|reflexivity].
Qed.

End RunFacts.


(* ====================================================================== *)
(** * The rest of the script *)
(* ====================================================================== *)

(* ====================================================================== *)
(** ** The error sheet: [clearErrors], [getErrorCount] *)
(* ====================================================================== *)

Module ErrorLog.

Import Sheets Errors.
Local Open Scope string_scope.
Local Open Scope list_scope.
Local Open Scope Z_scope.

(** [clearErrors], without its confirmation dialog. *)
Definition clearErrors (sh : ErrorSheet) : ErrorSheet :=
  match sh with
  | None => None
  | Some rows =>
      let lastRow := getLastRow rows in
      if 1 <? lastRow then Some [] else Some rows
  end.

Definition getErrorCount (sh : ErrorSheet) : Z :=
  match sh with
  | None => 0
  | Some rows => Z.max 0 (getLastRow rows - 1)
  end.

(** The arguments of one call of [logError], with the time of the call. *)
Record LogCall : Type := {
  atTime : Z;
  ltype : string;
  ldepartment : string;
  lrow : Cell;
  ldescription : string;
  ldetails : string
}.

Definition logCall (pf : Platform) (sh : ErrorSheet) (c : LogCall) : ErrorSheet :=
  logError pf (atTime c) (ltype c) (ldepartment c) (lrow c) (ldescription c)
           (ldetails c) sh.

(** The row that [logError] appends. *)
Definition rowOf (pf : Platform) (c : LogCall) : ErrorRow :=
  {| horodatage := CStr (toLocaleString pf (atTime c));
     errType := CStr (ltype c);
     errDepartment := orElse (CStr (ldepartment c)) (CStr "");
     ligne := orElse (lrow c) (CStr "");
     description := CStr (ldescription c);
     details := orElse (CStr (ldetails c)) (CStr "") |}.

Definition keepOther (type : string) (rows : list ErrorRow) : list ErrorRow :=
  filter (fun row => strictNeqStr (errType row) type) rows.

Lemma clearErrorsByType_rows (type : string) (rows : list ErrorRow) :
  clearErrorsByType type (Some rows) = Some (keepOther type rows).
Proof.
  unfold clearErrorsByType, getLastRow, keepOther.
  destruct rows as [|r rows]; [reflexivity|].
  destruct (Z.leb_spec (1 + Z.of_nat (List.length (r :: rows))) 1) as [L|L];
    [cbn [List.length] in L; lia|].
  cbv zeta.
  destruct (filter _ (r :: rows)) as [|k keep] eqn:E; [reflexivity|].
  destruct (Z.ltb_spec 0 (Z.of_nat (List.length (k :: keep)))) as [L'|L'];
    [|cbn [List.length] in L'; lia].
  unfold setValuesAt2. now rewrite skipn_nil, app_nil_r.
Qed.

Lemma keepOther_app (type : string) (l1 l2 : list ErrorRow) :
  keepOther type (l1 ++ l2) = keepOther type l1 ++ keepOther type l2.
Proof. apply filter_app. Qed.

Lemma keepOther_idem (type : string) (rows : list ErrorRow) :
  keepOther type (keepOther type rows) = keepOther type rows.
Proof.
  unfold keepOther. induction rows as [|r rows IH]; [reflexivity|].
  cbn. destruct (strictNeqStr (errType r) type) eqn:E; [|exact IH].
  cbn. rewrite E. now f_equal.
Qed.

Lemma keepOther_comm (t1 t2 : string) (rows : list ErrorRow) :
  keepOther t1 (keepOther t2 rows) = keepOther t2 (keepOther t1 rows).
Proof.
  unfold keepOther. induction rows as [|r rows IH]; [reflexivity|].
  cbn. destruct (strictNeqStr (errType r) t2) eqn:E2,
         (strictNeqStr (errType r) t1) eqn:E1; cbn;
    rewrite ?E1, ?E2; [now f_equal|exact IH ..].
Qed.

Lemma logCall_rows (pf : Platform) (sh : ErrorSheet) (c : LogCall) :
  logCall pf sh c = Some (getErrorSheet sh ++ [rowOf pf c]).
Proof. reflexivity. Qed.

Lemma logCalls_rows (pf : Platform) (calls : list LogCall) (sh : ErrorSheet) :
  calls <> [] ->
  fold_left (logCall pf) calls sh
  = Some (getErrorSheet sh ++ map (rowOf pf) calls).
Proof.
  revert sh. induction calls as [|c calls IH]; intros sh H; [congruence|].
  cbn [fold_left map]. destruct calls as [|c' calls].
  - reflexivity.
  - rewrite IH by discriminate. rewrite logCall_rows. cbn [getErrorSheet].
    now rewrite <- app_assoc.
Qed.

End ErrorLog.

(* ====================================================================== *)
(** ** Project triggers and the edit handler *)
(* ====================================================================== *)

Module Triggers.

Import Sheets Normalizer Sync.
Local Open Scope string_scope.
Local Open Scope list_scope.
Local Open Scope Z_scope.

Module CONFIG.
Definition refreshIntervalMinutes : Z := 5.
Definition syncDebounceSeconds : Z := 30.
End CONFIG.

(** What fires a trigger: a clock every so many minutes, a clock once
    after so many milliseconds, or an edit of the spreadsheet. *)
Inductive Source : Type :=
| EveryMinutes (n : Z)
| After (durationMilliseconds : Z)
| OnEditOfSpreadsheet.

Record Trigger : Type := {
  getHandlerFunction : string;
  source : Source
}.

(** The loop [triggers.forEach(trigger => { if (trigger.getHandlerFunction()
    === handler) ScriptApp.deleteTrigger(trigger); })]. *)
Definition deleteTriggersOf (handler : string) (triggers : list Trigger)
  : list Trigger :=
  filter (fun trigger => negb (String.eqb (getHandlerFunction trigger) handler))
         triggers.

Definition removeAutoRefresh (triggers : list Trigger) : list Trigger :=
  deleteTriggersOf "renderCalendar" triggers.

Definition setupAutoRefresh (triggers : list Trigger) : list Trigger :=
  removeAutoRefresh triggers
  ++ [{| getHandlerFunction := "renderCalendar";
         source := EveryMinutes CONFIG.refreshIntervalMinutes |}].

Definition setupOnEditTrigger (triggers : list Trigger) : list Trigger :=
  deleteTriggersOf "onEdit" triggers
  ++ [{| getHandlerFunction := "onEdit"; source := OnEditOfSpreadsheet |}].

Definition scheduleGoogleCalendarSync (triggers : list Trigger)
  : list Trigger :=
  deleteTriggersOf "executeDebouncedSync" triggers
  ++ [{| getHandlerFunction := "executeDebouncedSync";
         source := After (CONFIG.syncDebounceSeconds * 1000) |}].

(** [executeDebouncedSync]: the pending triggers are removed, then the
    reconciliation runs. *)
Definition executeDebouncedSync (pf : Platform) (now : Z)
    (triggers : list Trigger) (w : World)
  : list Trigger * (World * Completion Stats) :=
  (deleteTriggersOf "executeDebouncedSync" triggers,
   syncToGoogleCalendar pf now w).

(** *** [onEdit] *)

(** The calls the handler makes, in order. *)
Inductive Action : Type :=
| SetValueFalse
| ResetFilters
| RenderCalendar
| ScheduleGoogleCalendarSync.

Definition filterCells : list string := ["B1"; "B2"; "B3"; "D1"; "D2"].

(** [value === true] *)
Definition isTrue (value : Cell) : bool :=
  match value with CBool true => true | _ => false end.

(** [onEdit(e)] for an edit of the range [cell] (in A1 notation), holding
    [value], of the sheet [sheetName].  [render] and [reset] are what the
    calls of [renderCalendar] and [resetFilters] do in the state of the
    edit: return, or throw, which ends the handler.  The result is the
    calls made and how the handler ends. *)
Definition onEdit (pf : Platform) (sheets : list Sheet)
    (render reset : Completion unit)
    (sheetName cell : string) (value : Cell)
  : list Action * Completion unit :=
  if String.eqb sheetName Normalizer.CONFIG.calendarSheetName then
    if String.eqb cell "F1" && isTrue value
    then ([SetValueFalse; ResetFilters], reset)
    else if String.eqb cell "F2" && isTrue value
    then ([SetValueFalse; RenderCalendar], render)
    else if existsb (String.eqb cell) filterCells
    then ([RenderCalendar], render)
    else ([], Normal tt)
  else
    let departments := Grid.getDepartmentNames pf sheets in
    if existsb (String.eqb sheetName) departments
    then
      match render with
      | Normal _ => ([RenderCalendar; ScheduleGoogleCalendarSync], Normal tt)
      | Throw message => ([RenderCalendar], Throw message)
      end
    else ([], Normal tt).

Definition handledBy (handler : string) (triggers : list Trigger)
  : list Trigger :=
  filter (fun trigger => String.eqb (getHandlerFunction trigger) handler) triggers.

Lemma deleteTriggersOf_idem (h : string) (ts : list Trigger) :
  deleteTriggersOf h (deleteTriggersOf h ts) = deleteTriggersOf h ts.
Proof.
  unfold deleteTriggersOf. induction ts as [|t ts IH]; [reflexivity|].
  cbn. destruct (negb (String.eqb (getHandlerFunction t) h)) eqn:E;
    [|exact IH].
  cbn. rewrite E. now f_equal.
Qed.

Lemma deleteTriggersOf_app (h : string) (l1 l2 : list Trigger) :
  deleteTriggersOf h (l1 ++ l2) = deleteTriggersOf h l1 ++ deleteTriggersOf h l2.
Proof. apply filter_app. Qed.

Lemma handledBy_app (h : string) (l1 l2 : list Trigger) :
  handledBy h (l1 ++ l2) = handledBy h l1 ++ handledBy h l2.
Proof. apply filter_app. Qed.

Lemma handledBy_deleted (h : string) (ts : list Trigger) :
  handledBy h (deleteTriggersOf h ts) = [].
Proof.
  unfold handledBy, deleteTriggersOf. induction ts as [|t ts IH]; [reflexivity|].
  cbn. destruct (String.eqb (getHandlerFunction t) h) eqn:E; cbn; [exact IH|].
  now rewrite E.
Qed.

Lemma handledBy_other (h h' : string) (ts : list Trigger) :
  h <> h' -> handledBy h (deleteTriggersOf h' ts) = handledBy h ts.
Proof.
  intros N. unfold handledBy, deleteTriggersOf.
  induction ts as [|t ts IH]; [reflexivity|].
  cbn. destruct (String.eqb_spec (getHandlerFunction t) h') as [E|E]; cbn.
  - destruct (String.eqb_spec (getHandlerFunction t) h) as [E'|E'];
      [congruence|exact IH].
  - destruct (String.eqb (getHandlerFunction t) h); [now f_equal|exact IH].
Qed.

Lemma handledBy_single_other (h : string) (t : Trigger) :
  h <> getHandlerFunction t -> handledBy h [t] = [].
Proof.
  intros N. unfold handledBy. cbn [filter].
  destruct (String.eqb_spec (getHandlerFunction t) h) as [E|_];
    [congruence|reflexivity].
Qed.

End Triggers.

(* ====================================================================== *)
(** ** More on the hash and on the tracking sheet *)
(* ====================================================================== *)

Module TrackingFacts.

Import Sheets Hash HashFacts Sync SyncFacts.
Local Open Scope string_scope.
Local Open Scope list_scope.
Local Open Scope Z_scope.

(** A digit or a letter from a to f. *)
Definition isLowerHex (c : ascii) : bool :=
  let n := nat_of_ascii c in
  ((48 <=? n) && (n <=? 57) || (97 <=? n) && (n <=? 102))%nat.

Lemma hexDigit_lower (d : Z) : 0 <= d < 16 -> isLowerHex (hexDigit d) = true.
Proof.
  intros H.
  assert (C : d = 0 \/ d = 1 \/ d = 2 \/ d = 3 \/ d = 4 \/ d = 5 \/ d = 6 \/
              d = 7 \/ d = 8 \/ d = 9 \/ d = 10 \/ d = 11 \/ d = 12 \/
              d = 13 \/ d = 14 \/ d = 15) by lia.
  repeat (destruct C as [C|C]; [subst d; reflexivity|]). subst d. reflexivity.
Qed.

Lemma join_hex_format (l : list Z) :
  signedBytes l ->
  String.length (join (map hexOfByte l)) = (2 * List.length l)%nat /\
  forallb isLowerHex (list_ascii_of_string (join (map hexOfByte l))) = true.
Proof.
  induction 1 as [|b l Hb _ [IH1 IH2]]; [split; reflexivity|].
  cbn [map join fold_right]. rewrite (hexOfByte_digits b Hb).
  assert (Hu : 0 <= unsigned b < 256)
    by (unfold unsigned; destruct (Z.ltb_spec b 0); lia).
  cbn [append String.length list_ascii_of_string forallb].
  fold (join (map hexOfByte l)). split.
  - rewrite IH1. cbn [List.length]. lia.
  - rewrite IH2, !hexDigit_lower by (Z.div_mod_to_equations; lia). reflexivity.
Qed.

Lemma computeDigest_length (s : string) :
  List.length (MD5.computeDigest s) = 16%nat.
Proof.
  unfold MD5.computeDigest, MD5.digest, MD5.bytesOfState.
  rewrite length_map. destruct (MD5.finalState _) as [[[a b] c] d].
  reflexivity.
Qed.

(** The last row of the sheet that holds the hash [h]. *)
Definition lastRowOf (h : string) (data : list (string * TrackingEntry))
  : option TrackingEntry :=
  option_map snd (find (fun row => String.eqb (fst row) h) (rev data)).

Definition readRow (trackingMap : JsMap.t TrackingEntry)
    (row : string * TrackingEntry) : JsMap.t TrackingEntry :=
  let '(hash, entry) := row in
  if negb (isEmptyString hash) then JsMap.set hash entry trackingMap
  else trackingMap.

Lemma getSyncTrackingData_fold (data : list (string * TrackingEntry)) :
  getSyncTrackingData (Some data) = fold_left readRow data [].
Proof. reflexivity. Qed.

Lemma readRows_get (h : string) (data : list (string * TrackingEntry))
    (acc : JsMap.t TrackingEntry) :
  isEmptyString h = false ->
  JsMap.get h (fold_left readRow data acc)
  = match lastRowOf h data with
    | Some e => Some e
    | None => JsMap.get h acc
    end.
Proof.
  intros NE. revert acc. induction data as [|[k v] data IH] using rev_ind;
    intros acc; [reflexivity|].
  rewrite fold_left_app. cbn [fold_left readRow].
  unfold lastRowOf. rewrite rev_app_distr. cbn [rev app find fst].
  destruct (String.eqb_spec k h) as [->|N].
  - rewrite NE. cbn [negb option_map snd]. apply JsMap.get_set_same.
  - fold (lastRowOf h data). rewrite <- IH.
    destruct (negb (isEmptyString k)); [|reflexivity].
    apply JsMap.get_set_other. congruence.
Qed.

Lemma readRows_keys (data : list (string * TrackingEntry))
    (acc : JsMap.t TrackingEntry) :
  NoDup (JsMap.keys acc) ->
  Forall (fun k => isEmptyString k = false) (JsMap.keys acc) ->
  NoDup (JsMap.keys (fold_left readRow data acc)) /\
  Forall (fun k => isEmptyString k = false)
         (JsMap.keys (fold_left readRow data acc)).
Proof.
  revert acc. induction data as [|[k v] data IH]; intros acc ND NE;
    [split; assumption|].
  cbn [fold_left readRow]. destruct (isEmptyString k) eqn:E; cbn [negb];
    [now apply IH|].
  apply IH; [now apply JsMap.NoDup_set|].
  rewrite Forall_forall in *. intros x I. apply JsMap.keys_set in I.
  destruct I as [->|I]; auto.
Qed.

End TrackingFacts.

(* ====================================================================== *)
(** ** More on the event normaliser *)
(* ====================================================================== *)

Module NormalizerFacts.

Import Sheets Errors ErrorLog Normalizer.
Local Open Scope string_scope.
Local Open Scope list_scope.
Local Open Scope Z_scope.

(** *** The sort *)

Definition byStart (a b : Event) : Prop := startDate a <= startDate b.

Lemma insertByStart_sorted (e : Event) (l : list Event) :
  StronglySorted byStart l -> StronglySorted byStart (insertByStart e l).
Proof.
  induction 1 as [|x l S IH F]; cbn.
  - repeat constructor.
  - destruct (Z.leb_spec (startDate e) (startDate x)) as [L|L].
    + constructor; [now constructor|]. constructor; [exact L|].
      eapply Forall_impl; [|exact F]. unfold byStart. intros y Hy. lia.
    + constructor; [exact IH|]. rewrite Forall_forall in *.
      intros y I. apply insertByStart_In in I. destruct I as [->|I];
        [unfold byStart; lia|auto].
Qed.

Lemma sortByStart_sorted (l : list Event) :
  StronglySorted byStart (sortByStart l).
Proof.
  unfold sortByStart. induction l as [|x l IH]; cbn; [constructor|].
  now apply insertByStart_sorted.
Qed.

Lemma insertByStart_perm (e : Event) (l : list Event) :
  Permutation (e :: l) (insertByStart e l).
Proof.
  induction l as [|x l IH]; cbn; [reflexivity|].
  destruct (startDate e <=? startDate x); [reflexivity|].
  rewrite perm_swap. now constructor.
Qed.

Lemma sortByStart_perm (l : list Event) : Permutation l (sortByStart l).
Proof.
  unfold sortByStart. induction l as [|x l IH]; cbn; [constructor|].
  rewrite <- insertByStart_perm. now constructor.
Qed.

Definition startsAt (v : Z) (ev : Event) : bool := startDate ev =? v.

Lemma insertByStart_stable (v : Z) (e : Event) (l : list Event) :
  filter (startsAt v) (insertByStart e l) = filter (startsAt v) (e :: l).
Proof.
  induction l as [|x l IH]; [reflexivity|].
  cbn [insertByStart].
  destruct (Z.leb_spec (startDate e) (startDate x)) as [L|L]; [reflexivity|].
  cbn [filter] in *. rewrite IH. unfold startsAt.
  destruct (Z.eqb_spec (startDate x) v), (Z.eqb_spec (startDate e) v);
    try reflexivity. lia.
Qed.

Lemma sortByStart_stable (v : Z) (l : list Event) :
  filter (startsAt v) (sortByStart l) = filter (startsAt v) l.
Proof.
  unfold sortByStart. induction l as [|x l IH]; [reflexivity|].
  cbn [fold_right]. rewrite insertByStart_stable. cbn [filter].
  now rewrite IH.
Qed.

(** *** Where an event comes from *)

Definition isSystemSheet (name : string) : bool :=
  String.eqb name CONFIG.calendarSheetName
  || String.eqb name CONFIG.syncTrackingSheetName
  || String.eqb name CONFIG.errorSheetName.

(** The event [ev] was read from the row [row] of number [rowIndex ev] of
    the sheet, under the columns [cols]. *)
Definition readFrom (pf : Platform) (sheet : Sheet) (cols : Columns)
    (row : list Cell) (ev : Event) : Prop :=
  department ev = getName sheet /\ sheetId ev = getSheetId sheet /\
  2 <= rowIndex ev /\
  nth_error (getValues sheet) (Z.to_nat (rowIndex ev - 1)) = Some row /\
  event ev = trim (ToString pf (orElse (getCell row (eventCol cols)) (CStr ""))) /\
  isEmptyString (event ev) = false /\
  service ev
  = trim (ToString pf (orElse (getCell row (serviceCol cols)) (CStr ""))) /\
  option_map pdate (parseDateTimeValue pf (getCell row (dateColIndex cols)))
  = Some (startDate ev) /\
  date ev = startDate ev.

Definition hasSource (pf : Platform) (ss : list Sheet) (ev : Event) : Prop :=
  exists sheet headerRow rows cols row,
    In sheet ss /\ isSystemSheet (getName sheet) = false /\
    getValues sheet = headerRow :: rows /\
    sheetColumns pf headerRow = Some cols /\
    readFrom pf sheet cols row ev.

Lemma processRow_source (pf : Platform) (now : Z) (name : string) (id : Z)
    (cols : Columns) (i : Z) (row : list Cell) (errs : ErrorSheet) (ev : Event) :
  snd (processRow pf now name id cols i row errs) = Some ev ->
  department ev = name /\ sheetId ev = id /\ rowIndex ev = i + 1 /\
  event ev = trim (ToString pf (orElse (getCell row (eventCol cols)) (CStr ""))) /\
  isEmptyString (event ev) = false /\
  service ev
  = trim (ToString pf (orElse (getCell row (serviceCol cols)) (CStr ""))) /\
  option_map pdate (parseDateTimeValue pf (getCell row (dateColIndex cols)))
  = Some (startDate ev) /\
  date ev = startDate ev.
Proof.
  unfold processRow.
  destruct (parseDateTimeValue pf (getCell row (dateColIndex cols))) as [sp|].
  - destruct (negb (useLegacy cols) && negb (endCol cols =? -1)
              && truthy (getCell row (endCol cols)));
      [destruct (parseDateTimeValue pf (getCell row (endCol cols)))|];
      destruct (isEmptyString _) eqn:E; cbn; intros H; try discriminate;
      injection H as <-; cbn; rewrite E; repeat split.
  - destruct (negb (isEmptyString _)); cbn; discriminate.
Qed.

Lemma processRows_Forall (pf : Platform) (now : Z) (name : string) (id : Z)
    (cols : Columns) (P : Event -> Prop) (rows : list (list Cell)) (i : Z)
    (st : ErrorSheet * list Event) :
  (forall k row errs ev,
     nth_error rows k = Some row ->
     snd (processRow pf now name id cols (i + Z.of_nat k) row errs) = Some ev ->
     P ev) ->
  Forall P (snd st) ->
  Forall P (snd (processRows pf now name id cols i rows st)).
Proof.
  revert i st. induction rows as [|row rows IH]; intros i [errs evs] H F;
    cbn [processRows]; [exact F|].
  pose proof (H 0%nat row errs) as H0. cbn [nth_error] in H0.
  rewrite Z.add_0_r in H0.
  destruct (processRow pf now name id cols i row errs) as [errs' [ev|]];
    apply IH; cbn [snd] in *; try exact F.
  - intros k r e ev' N R. apply (H (S k) r e ev' N).
    now replace (i + Z.of_nat (S k)) with (i + 1 + Z.of_nat k) by lia.
  - apply Forall_app. split; [exact F|]. constructor; [|constructor].
    now apply H0.
  - intros k r e ev' N R. apply (H (S k) r e ev' N).
    now replace (i + Z.of_nat (S k)) with (i + 1 + Z.of_nat k) by lia.
Qed.

Lemma processSheet_source (pf : Platform) (now : Z) (ss : list Sheet)
    (sheet : Sheet) (st : ErrorSheet * list Event) :
  In sheet ss ->
  Forall (hasSource pf ss) (snd st) ->
  Forall (hasSource pf ss) (snd (processSheet pf now st sheet)).
Proof.
  intros I F. unfold processSheet.
  destruct (String.eqb (getName sheet) CONFIG.calendarSheetName) eqn:E1;
    [exact F|].
  destruct (String.eqb (getName sheet) CONFIG.syncTrackingSheetName) eqn:E2;
    [exact F|].
  destruct (String.eqb (getName sheet) CONFIG.errorSheetName) eqn:E3;
    [exact F|].
  destruct (getValues sheet) as [|headerRow [|row0 rows]] eqn:V; try exact F.
  destruct (sheetColumns pf headerRow) as [cols|] eqn:C; [|exact F].
  apply processRows_Forall; [|exact F].
  intros k row errs ev N R.
  apply processRow_source in R.
  destruct R as (R1 & R2 & R3 & R4 & R5 & R6 & R7 & R8).
  exists sheet, headerRow, (row0 :: rows), cols, row.
  split; [exact I|]. split; [unfold isSystemSheet; now rewrite E1, E2, E3|].
  split; [exact V|]. split; [exact C|].
  unfold readFrom. rewrite R3, V.
  split; [exact R1|]. split; [exact R2|]. split; [lia|].
  split; [|auto].
  replace (Z.to_nat (1 + Z.of_nat k + 1 - 1)) with (S k) by lia.
  exact N.
Qed.

Lemma getAllEvents_source (pf : Platform) (now : Z) (ss : list Sheet)
    (errs : ErrorSheet) :
  Forall (hasSource pf ss) (snd (getAllEvents pf now ss errs)).
Proof.
  unfold getAllEvents.
  assert (H : forall l st, (forall s, In s l -> In s ss) ->
             Forall (hasSource pf ss) (snd st) ->
             Forall (hasSource pf ss) (snd (fold_left (processSheet pf now) l st))).
  { induction l as [|s l IH]; intros st Hin F; cbn [fold_left]; [exact F|].
    apply IH; [intros x I; apply Hin; now right|].
    apply processSheet_source; [apply Hin; now left|exact F]. }
  specialize (H ss (clearErrorsByType DONNEES errs, []) (fun s I => I)
                (Forall_nil _)).
  destruct (fold_left (processSheet pf now) ss _) as [errs1 events].
  cbn [snd] in *. rewrite Forall_forall in *. intros ev I.
  apply H. now apply sortByStart_In.
Qed.

(** *** The errors logged by a read *)

(** Rows appended to the sheet, which is created when rows are appended to
    an absent sheet. *)
Definition appendRows (sh : ErrorSheet) (l : list ErrorRow) : ErrorSheet :=
  match l with
  | [] => sh
  | _ :: _ => Some (getErrorSheet sh ++ l)
  end.

Lemma appendRows_app (sh : ErrorSheet) (l1 l2 : list ErrorRow) :
  appendRows (appendRows sh l1) l2 = appendRows sh (l1 ++ l2).
Proof.
  destruct l1 as [|a l1]; [reflexivity|].
  destruct l2 as [|b l2]; cbn; [now rewrite app_nil_r|].
  now rewrite <- app_assoc.
Qed.

Lemma processRow_logged (pf : Platform) (now : Z) (name : string) (id : Z)
    (cols : Columns) (i : Z) (row : list Cell) :
  exists l,
    Forall (hasType DONNEES) l /\
    forall errs,
      fst (processRow pf now name id cols i row errs) = appendRows errs l.
Proof.
  exists (getErrorSheet (fst (processRow pf now name id cols i row (Some [])))).
  unfold processRow.
  destruct (parseDateTimeValue pf (getCell row (dateColIndex cols))) as [sp|].
  - destruct (negb (useLegacy cols) && negb (endCol cols =? -1)
              && truthy (getCell row (endCol cols)));
      [destruct (parseDateTimeValue pf (getCell row (endCol cols)))|];
      destruct (isEmptyString _); unfold logError;
      cbn [fst getErrorSheet app];
      (split; [once (repeat constructor)|]); intros errs; cbn [appendRows];
      rewrite <- ?app_assoc; reflexivity.
  - destruct (negb (isEmptyString _)); unfold logError;
      cbn [fst getErrorSheet app];
      (split; [once (repeat constructor)|]); intros errs; reflexivity.
Qed.

Lemma processRows_logged (pf : Platform) (now : Z) (name : string) (id : Z)
    (cols : Columns) (rows : list (list Cell)) (i : Z) :
  exists l,
    Forall (hasType DONNEES) l /\
    forall errs evs,
      fst (processRows pf now name id cols i rows (errs, evs))
      = appendRows errs l.
Proof.
  revert i. induction rows as [|row rows IH]; intros i.
  - exists []. split; [constructor|]. reflexivity.
  - destruct (processRow_logged pf now name id cols i row) as (l1 & F1 & E1).
    destruct (IH (i + 1)) as (l2 & F2 & E2).
    exists (l1 ++ l2). split; [now apply Forall_app|].
    intros errs evs. cbn [processRows]. specialize (E1 errs).
    destruct (processRow pf now name id cols i row errs) as [errs' ev].
    cbn [fst] in E1. rewrite E2, E1. apply appendRows_app.
Qed.

Lemma processSheet_logged (pf : Platform) (now : Z) (sheet : Sheet) :
  exists l,
    Forall (hasType DONNEES) l /\
    forall errs evs,
      fst (processSheet pf now (errs, evs) sheet) = appendRows errs l.
Proof.
  unfold processSheet.
  assert (N : exists l : list ErrorRow,
             Forall (hasType DONNEES) l /\
             forall (errs : ErrorSheet) (evs : list Event),
               fst (errs, evs) = appendRows errs l)
    by (exists []; split; [constructor|reflexivity]).
  destruct (String.eqb _ CONFIG.calendarSheetName); [exact N|].
  destruct (String.eqb _ CONFIG.syncTrackingSheetName); [exact N|].
  destruct (String.eqb _ CONFIG.errorSheetName); [exact N|].
  destruct (getValues sheet) as [|headerRow [|row rows]]; try exact N.
  destruct (sheetColumns pf headerRow); [|exact N].
  apply processRows_logged.
Qed.

Lemma sheetsLoop_logged (pf : Platform) (now : Z) (ss : list Sheet) :
  exists l,
    Forall (hasType DONNEES) l /\
    forall errs evs,
      fst (fold_left (processSheet pf now) ss (errs, evs)) = appendRows errs l.
Proof.
  induction ss as [|s ss (l2 & F2 & E2)].
  - exists []. split; [constructor|]. reflexivity.
  - destruct (processSheet_logged pf now s) as (l1 & F1 & E1).
    exists (l1 ++ l2). split; [now apply Forall_app|].
    intros errs evs. cbn [fold_left]. specialize (E1 errs evs).
    destruct (processSheet pf now (errs, evs) s) as [errs' evs'].
    cbn [fst] in E1. rewrite E2, E1. apply appendRows_app.
Qed.

Lemma keepOther_typed (type : string) (l : list ErrorRow) :
  Forall (hasType type) l -> keepOther type l = [].
Proof.
  induction 1 as [|r l H _ IH]; [reflexivity|].
  unfold keepOther in *. cbn. rewrite H. cbn. rewrite String.eqb_refl.
  exact IH.
Qed.

Lemma clear_appendRows (type : string) (sh : ErrorSheet) (l : list ErrorRow) :
  Forall (hasType type) l ->
  appendRows (clearErrorsByType type
                (appendRows (clearErrorsByType type sh) l)) l
  = appendRows (clearErrorsByType type sh) l.
Proof.
  intros F. destruct l as [|r l].
  - cbn [appendRows].
    destruct sh as [rows|]; [|reflexivity].
    now rewrite !clearErrorsByType_rows, keepOther_idem.
  - cbn [appendRows]. rewrite clearErrorsByType_rows, keepOther_app.
    rewrite (keepOther_typed type (r :: l) F), app_nil_r.
    cbn [getErrorSheet]. do 2 f_equal.
    destruct sh as [rows|]; [|reflexivity].
    rewrite clearErrorsByType_rows. cbn [getErrorSheet]. apply keepOther_idem.
Qed.

End NormalizerFacts.

(* ====================================================================== *)
(** ** The events of a day cell *)
(* ====================================================================== *)

Module GridEventFacts.

Import Sheets JSDate Filters Grid GridFacts.
Local Open Scope string_scope.
Local Open Scope list_scope.
Local Open Scope Z_scope.

(** The event is filed under the key [key]. *)
Definition keyed (pf : Platform) (key : string) (ev : Event) : bool :=
  String.eqb (formatDateKey pf (date ev)) key.

(** The event falls on the day [d] of month [m] (0 .. 11) of year [y], in
    local time. *)
Definition onDay (pf : Platform) (y m d : Z) (ev : Event) : bool :=
  (getFullYear pf (date ev) =? y) && (getMonth pf (date ev) =? m)
  && (getDate pf (date ev) =? d).

Lemma grouped_from (pf : Platform) (key : string) (events : list Event)
    (acc : JsMap.t (list Event)) :
  lookupDay key
    (fold_left
       (fun grouped ev =>
          let key := formatDateKey pf (date ev) in
          let sofar :=
            match JsMap.get key grouped with Some evs => evs | None => [] end in
          JsMap.set key (sofar ++ [ev]) grouped)
       events acc)
  = lookupDay key acc ++ filter (keyed pf key) events.
Proof.
  revert acc. induction events as [|ev events IH]; intros acc.
  - cbn. now rewrite app_nil_r.
  - cbn [fold_left filter]. rewrite IH. unfold keyed at 2.
    destruct (String.eqb_spec (formatDateKey pf (date ev)) key) as [E|N].
    + rewrite E. unfold lookupDay at 1. rewrite JsMap.get_set_same.
      unfold lookupDay. now rewrite <- app_assoc.
    + unfold lookupDay at 1. rewrite JsMap.get_set_other by congruence.
      reflexivity.
Qed.

(** The events filed under a key are the events of that key, in order. *)
Lemma groupEventsByDay_lookup (pf : Platform) (key : string)
    (events : list Event) :
  lookupDay key (groupEventsByDay pf events) = filter (keyed pf key) events.
Proof. unfold groupEventsByDay. now rewrite grouped_from. Qed.

(** *** The key of a date determines its day *)

Lemma padStart2_ofZ (n : Z) :
  0 <= n <= 99 -> Str.padStart2 (Str.ofZ n) = Str.padDigits 2 n.
Proof.
  intros H.
  assert (A : forallb (fun k => String.eqb (Str.padStart2 (Str.ofZ k))
                                           (Str.padDigits 2 k))
                      (map Z.of_nat (seq 0 100)) = true)
    by (vm_compute; reflexivity).
  rewrite forallb_forall in A. apply String.eqb_eq, A.
  apply in_map_iff. exists (Z.to_nat n). split; [lia|].
  apply in_seq. lia.
Qed.

Lemma append_eq_tail (s1 s2 a b : string) :
  String.length a = String.length b ->
  (s1 ++ a)%string = (s2 ++ b)%string -> s1 = s2 /\ a = b.
Proof.
  intros L H. apply Str.append_eq_length; [|exact H].
  apply (f_equal String.length) in H. rewrite !Str.length_append in H. lia.
Qed.

Lemma formatDateKey_inj (pf : Platform) (t1 t2 : Z) :
  formatDateKey pf t1 = formatDateKey pf t2 ->
  getFullYear pf t1 = getFullYear pf t2 /\
  getMonth pf t1 = getMonth pf t2 /\ getDate pf t1 = getDate pf t2.
Proof.
  unfold formatDateKey, getFullYear, getMonth, getDate.
  set (u1 := t1 + LocalTZA pf). set (u2 := t2 + LocalTZA pf).
  destruct (DateFromTime_range u1) as [M1 D1].
  destruct (DateFromTime_range u2) as [M2 D2].
  pose proof (daysInMonth_range (YearFromTime u1) (MonthFromTime u1) M1) as R1.
  pose proof (daysInMonth_range (YearFromTime u2) (MonthFromTime u2) M2) as R2.
  rewrite !padStart2_ofZ by lia. intros H.
  apply append_eq_tail in H;
    [|cbn [String.length append];
      rewrite !Str.length_append, !Str.length_padDigits; reflexivity].
  destruct H as [HY H]. apply Str.ofZ_inj in HY.
  apply (Str.append_inv_head "-") in H.
  apply Str.append_eq_length in H; [|now rewrite !Str.length_padDigits].
  destruct H as [HM HD]. apply (Str.append_inv_head "-") in HD.
  apply Str.padDigits_inj in HM; [|cbn; lia ..].
  apply Str.padDigits_inj in HD; [|cbn; lia ..].
  repeat split; [exact HY|lia|exact HD].
Qed.

(** The events filed under the key of a date are those of its local day. *)
Lemma groupEventsByDay_onDay (pf : Platform) (events : list Event) (t : Z) :
  lookupDay (formatDateKey pf t) (groupEventsByDay pf events)
  = filter (onDay pf (getFullYear pf t) (getMonth pf t) (getDate pf t)) events.
Proof.
  rewrite groupEventsByDay_lookup. apply filter_ext. intros ev.
  unfold keyed, onDay.
  destruct (String.eqb_spec (formatDateKey pf (date ev)) (formatDateKey pf t))
    as [E|N].
  - apply formatDateKey_inj in E. destruct E as (-> & -> & ->).
    now rewrite !Z.eqb_refl.
  - destruct (Z.eqb_spec (getFullYear pf (date ev)) (getFullYear pf t)) as [A|A];
      [|reflexivity].
    destruct (Z.eqb_spec (getMonth pf (date ev)) (getMonth pf t)) as [B|B];
      [|reflexivity].
    destruct (Z.eqb_spec (getDate pf (date ev)) (getDate pf t)) as [C|C];
      [|reflexivity].
    elim N. unfold formatDateKey. now rewrite A, B, C.
Qed.

(** *** The cells of a grid, row after row *)

Lemma monthOf_cells {A : Type} (f : Z -> A) (blank : A) (lead dim : Z) :
  0 <= lead <= 6 -> 28 <= dim <= 31 ->
  List.concat (monthOf f blank lead dim)
  = repeat blank (Z.to_nat lead) ++ map f (daysUpTo dim)
    ++ repeat blank (Z.to_nat (trailing lead dim)).
Proof.
  intros Hl Hd.
  set (F := fun o : option Z =>
              match o with Some d => f d | None => blank end).
  pose proof (monthLoop_map F Some None f (fun d => eq_refl) lead dim) as H.
  cbn [F] in H. rewrite <- H, <- concat_map.
  destruct (skeleton_shape lead dim Hl Hd) as (_ & _ & _ & S).
  rewrite S, !map_app, !map_repeat, map_map. reflexivity.
Qed.

Lemma nth_error_cells {A : Type} (f : Z -> A) (blank : A) (lead dim d : Z)
    (tail : list A) :
  0 <= lead -> 1 <= d <= dim ->
  nth_error (repeat blank (Z.to_nat lead) ++ map f (daysUpTo dim) ++ tail)
            (Z.to_nat (lead + d - 1)) = Some (f d).
Proof.
  intros Hl Hd.
  rewrite nth_error_app2 by (rewrite repeat_length; lia).
  rewrite repeat_length.
  replace (Z.to_nat (lead + d - 1) - Z.to_nat lead)%nat
    with (Z.to_nat (d - 1)) by lia.
  rewrite nth_error_app1
    by (unfold daysUpTo; rewrite !length_map, length_seq; lia).
  unfold daysUpTo. rewrite !nth_error_map.
  rewrite nth_error_seq.
  destruct (Nat.ltb_spec (Z.to_nat (d - 1)) (Z.to_nat dim)) as [L|L]; [|lia].
  cbn. do 2 f_equal. lia.
Qed.

(** The local date of a day of the month. *)
Lemma dayOfMonth_fields (pf : Platform) (year_ month d : Z) :
  1 <= d <= daysInMonth (ym year_ month) (mn month) ->
  getFullYear pf (newDate pf year_ month d 0 0 0) = ym year_ month /\
  getMonth pf (newDate pf year_ month d 0 0 0) = mn month /\
  getDate pf (newDate pf year_ month d 0 0 0) = d.
Proof.
  intros Hd. unfold getFullYear, getMonth, getDate, newDate.
  replace (MakeDate (MakeDay (fullYear year_) month d) (MakeTime 0 0 0 0)
           - LocalTZA pf + LocalTZA pf)
    with (MakeDate (MakeDay (ym year_ month) (mn month) d) 0)
    by (rewrite (MakeDay_norm (fullYear year_) month d);
        unfold MakeDate, MakeTime, ym, mn; lia).
  apply (civil_of_MakeDay (ym year_ month) (mn month) d 0);
    [apply mn_range|exact Hd|unfold msPerDay; lia].
Qed.

End GridEventFacts.

(* ====================================================================== *)
(** ** The emoji of a department *)
(* ====================================================================== *)

Module EmojiFacts.

Import Sheets Grid.
Local Open Scope string_scope.
Local Open Scope list_scope.
Local Open Scope Z_scope.

Lemma emojiAt_nonempty (index : Z) : isEmptyString (emojiAt index) = false.
Proof.
  unfold emojiAt.
  assert (H : (Z.to_nat (index mod Z.of_nat (List.length departmentEmojis))
               < 19)%nat).
  { cbn [List.length departmentEmojis].
    pose proof (Z.mod_pos_bound index 19). lia. }
  revert H.
  generalize (Z.to_nat (index mod Z.of_nat (List.length departmentEmojis))).
  intros n H.
  do 19 (destruct n as [|n]; [reflexivity|]). lia.
Qed.

Lemma findIndexFrom_absent (d : string) (l : list string) (i : Z) :
  ~ In d l -> findIndexFrom (String.eqb d) l i = -1.
Proof.
  revert i. induction l as [|x r IH]; intros i N; [reflexivity|].
  cbn [findIndexFrom].
  destruct (String.eqb_spec d x) as [E|_]; [elim N; now left|].
  apply IH. intros I. apply N. now right.
Qed.

Lemma findIndexFrom_present (d : string) (l : list string) (i : Z) :
  In d l -> i <= findIndexFrom (String.eqb d) l i.
Proof.
  revert i. induction l as [|x r IH]; intros i I; [destruct I|].
  cbn [findIndexFrom].
  destruct (String.eqb_spec d x) as [E|N]; [lia|].
  destruct I as [E|I]; [congruence|].
  specialize (IH (i + 1) I). lia.
Qed.

(** One step of the loop of [buildEmojiMap]. *)
Definition addEmoji (emojiMap : JsMap.t string) (entry : Z * string)
  : JsMap.t string :=
  let '(index, dept) := entry in
  JsObject.setText dept (emojiAt index) emojiMap.

Lemma buildEmojiMap_fold (departments : list string) :
  buildEmojiMap departments
  = fold_left addEmoji (indexedFrom 0 departments) [].
Proof. reflexivity. Qed.

Lemma emojiMap_other (d : string) (departments : list string) (i : Z)
    (acc : JsMap.t string) :
  ~ In d departments \/ d = "__proto__" ->
  JsMap.get d (fold_left addEmoji (indexedFrom i departments) acc)
  = JsMap.get d acc.
Proof.
  revert i acc. induction departments as [|x r IH]; intros i acc H;
    [reflexivity|].
  cbn [indexedFrom fold_left]. rewrite IH.
  - cbn [addEmoji]. unfold JsObject.setText.
    destruct (String.eqb_spec x "__proto__") as [E|N]; [reflexivity|].
    apply JsMap.get_set_other. destruct H as [H|H].
    + intros ->. apply H. now left.
    + congruence.
  - destruct H as [H|H]; [left|now right]. intros I. apply H. now right.
Qed.

Lemma emojiMap_own (d : string) (departments : list string) (i : Z)
    (acc : JsMap.t string) :
  NoDup departments -> In d departments -> d <> "__proto__" ->
  JsMap.get d (fold_left addEmoji (indexedFrom i departments) acc)
  = Some (emojiAt (findIndexFrom (String.eqb d) departments i)).
Proof.
  revert i acc. induction departments as [|x r IH]; intros i acc ND I P;
    [destruct I|].
  inversion ND as [|? ? Nx NDr]; subst.
  cbn [indexedFrom fold_left findIndexFrom].
  destruct (String.eqb_spec d x) as [E|N].
  - subst x. rewrite emojiMap_other by now left.
    cbn [addEmoji]. unfold JsObject.setText.
    destruct (String.eqb_spec d "__proto__") as [E|_]; [contradiction|].
    apply JsMap.get_set_same.
  - destruct I as [E|I]; [congruence|]. now apply IH.
Qed.

End EmojiFacts.

(* ====================================================================== *)
(** * Verified properties *)
(* ====================================================================== *)

Section HashProperties.

Import HashFacts Hash.
Local Open Scope string_scope.
Local Open Scope Z_scope.

(** A syncable event on 1 September 2025 (UTC) with the given service and
    title. *)
Definition sampleEvent (svc title : string) : Event :=
  {| date := 1756684800000; startDate := 1756684800000; endDate := None;
     hasTime := false; service := svc; event := title;
     department := "Paroisse"; sheetId := 7; rowIndex := 2;
     surSiteCCFHK := true; surCalendrierExcel := false;
     surCalendrierExcelRaw := "" |}.

Lemma sampleEvent_valid (svc title : string) :
  validDates (sampleEvent svc title).
Proof.
  split; cbn.
  - unfold ISO.validTime. cbn. lia.
  - intros d H. discriminate H.
Defined.

Lemma sampleEvent_title_change (svc t1 t2 : string) :
  t1 <> t2 -> changesExactly FTitle (sampleEvent svc t1) (sampleEvent svc t2).
Proof.
  intros N. split; [exact N|].
  intros g Hg. destruct g; try reflexivity. now elim Hg.
Defined.



(** The hash of a concrete event, as the script computes it. *)
Example computeEventHash_sample :
  hashInput (sampleEvent "Messe" "Rentree")
    = "Paroisse|2025-09-01T00:00:00.000Z||Messe|Rentree|1" /\
  computeEventHash (sampleEvent "Messe" "Rentree")
    = "bc8349e98a50794e184d7ab2915c67d2" /\
  computeEventHash (sampleEvent "Messe" "Toussaint")
    <> computeEventHash (sampleEvent "Messe" "Rentree").
Proof.
  split; [|split]; try (vm_compute; reflexivity).
  vm_compute. discriminate.
Qed.

(** C10: the separator is not escaped, so two events that differ in both
    service and title, and agree on everything else, are hashed from the
    same string and get the same hash. *)
Theorem C10_hash_input_not_injective :
  service (sampleEvent "Chorale|Messe" "Noel")
    <> service (sampleEvent "Chorale" "Messe|Noel") /\
  event (sampleEvent "Chorale|Messe" "Noel")
    <> event (sampleEvent "Chorale" "Messe|Noel") /\
  (forall g, g <> FService -> g <> FTitle ->
     agreeOn g (sampleEvent "Chorale|Messe" "Noel")
               (sampleEvent "Chorale" "Messe|Noel")) /\
  hashInput (sampleEvent "Chorale|Messe" "Noel")
    = hashInput (sampleEvent "Chorale" "Messe|Noel") /\
  computeEventHash (sampleEvent "Chorale|Messe" "Noel")
    = computeEventHash (sampleEvent "Chorale" "Messe|Noel").
Proof.
  assert (H : hashInput (sampleEvent "Chorale|Messe" "Noel")
              = hashInput (sampleEvent "Chorale" "Messe|Noel"))
    by (vm_compute; reflexivity).
  split; [|split; [|split; [|split]]].
  - cbn. discriminate.
  - cbn. discriminate.
  - intros g H1 H2. destruct g; try reflexivity; contradiction.
  - exact H.
  - unfold computeEventHash. now rewrite H.
Qed.

End HashProperties.

(** A platform with Hong Kong's offset (UTC+8).  Its text conversions are
    simple stand-ins; the examples below do not depend on them. *)
Definition hkPlatform : Sheets.Platform :=
  {| Sheets.LocalTZA := 28800000;
     Sheets.numberToString :=
       fun q => Str.ofZ (Z.quot (QArith_base.Qnum q) (Z.pos (QArith_base.Qden q)));
     Sheets.dateToString := ISO.toISOString;
     Sheets.dateParse := fun _ => None;
     Sheets.toLocaleDateString := ISO.toISOString;
     Sheets.toLocaleString := ISO.toISOString;
     Sheets.toLowerCase := fun s => s;
     Sheets.normalizeNFD := fun s => s;
     Sheets.formatInvalidDate := Sheets.Throw "Invalid argument: date" |}.

Section ErrorSheetProperties.

Import Sheets Errors.

(** C9: clearing by type erases exactly the rows whose Type cell is that
    text and keeps the others, in their order; an absent sheet stays
    absent. *)
Theorem C9_clearErrorsByType_frame (type : string) (sh : ErrorSheet) :
  match sh with
  | None => clearErrorsByType type sh = None
  | Some rows =>
      exists rows',
        clearErrorsByType type sh = Some rows' /\
        Erased type rows rows' /\
        (forall r, In r rows' <-> In r rows /\ ~ hasType type r)
  end.
Proof.
  destruct sh as [rows|]; [|reflexivity].
  exists (filter (fun row => strictNeqStr (errType row) type) rows).
  split; [|split].
  - unfold clearErrorsByType, getLastRow.
    destruct rows as [|r rows]; [reflexivity|].
    destruct (Z.leb_spec (1 + Z.of_nat (List.length (r :: rows))) 1) as [L|L];
      [cbn [List.length] in L; lia|].
    cbv zeta.
    destruct (filter _ (r :: rows)) as [|k keep] eqn:E; [reflexivity|].
    destruct (Z.ltb_spec 0 (Z.of_nat (List.length (k :: keep)))) as [L'|L'];
      [|cbn [List.length] in L'; lia].
    unfold setValuesAt2. now rewrite skipn_nil, app_nil_r.
  - apply Erased_filter.
  - intros r. rewrite filter_In. unfold hasType.
    split; intros [H1 H2]; (split; [exact H1|]).
    + intros H. apply strictNeqStr_false in H. congruence.
    + destruct (strictNeqStr (errType r) type) eqn:E; [reflexivity|].
      apply strictNeqStr_false in E. contradiction.
Qed.

End ErrorSheetProperties.

Section NormalizerProperties.

Import Sheets Errors Normalizer.
Local Open Scope string_scope.
Local Open Scope list_scope.
Local Open Scope Z_scope.

Variables (pf : Platform) (now : Z) (sheetName : string) (sheetId_ : Z).
Variables (cols : Columns) (i : Z) (row : list Cell) (errs : ErrorSheet).

(** The title and the service of the row, as the loop reads them. *)
Definition titleOf : string :=
  trim (ToString pf (orElse (getCell row (eventCol cols)) (CStr ""))).

Definition serviceOf : string :=
  trim (ToString pf (orElse (getCell row (serviceCol cols)) (CStr ""))).

Definition rawStart : Cell := getCell row (dateColIndex cols).
Definition rawEnd : Cell := getCell row (endCol cols).

(** The row of the error sheet that reports a data error of the source
    row: time of the read, type DONNEES, the sheet, the row number, the
    description and the details. *)
Definition dataErrorRow (descr det : string) : ErrorRow :=
  {| horodatage := CStr (toLocaleString pf now);
     errType := CStr "DONNÉES";
     errDepartment := CStr sheetName;
     ligne := rowNumber i;
     description := CStr descr;
     details := CStr det |}.

(** The error is reported: the error sheet [after] is the sheet [before],
    created if it was missing, with that row appended. *)
Definition dataErrorReported (descr det : string)
    (before after : ErrorSheet) : Prop :=
  after = Some (getErrorSheet before ++ [dataErrorRow descr det]).

Lemma logError_reported (descr det : string) (before : ErrorSheet) :
  1 <= i ->
  dataErrorReported descr det before
    (logError pf now DONNEES sheetName (rowNumber i) descr det before).
Proof.
  intros Hi. unfold dataErrorReported, logError, dataErrorRow. do 3 f_equal.
  assert (T : truthy (rowNumber i) = true).
  { unfold rowNumber, truthy. cbn.
    destruct (Z.eqb_spec (i + 1) 0); [lia|reflexivity]. }
  unfold orElse. rewrite T. cbn [truthy].
  destruct sheetName, det; reflexivity.
Qed.

(** C6 (amended): the outcome of a source row (the data row of index [i]
    at least 1, so of number [i + 1]).  Title and no valid date: the error
    is reported and there is no event.  Valid date and no title: the error
    is reported, after the error of an end that did not parse if there is
    one, and there is no event.  Neither: nothing happens.  With a valid
    date and a title, in a sheet read in the start/end schema, an end cell
    that is filled but does not parse is reported, and the event is still
    produced from the start, with no end; in a sheet read in the legacy
    schema the end cell is not read: nothing is reported and the event has
    no end. *)
Theorem C6_row_outcomes :
  1 <= i ->
  let res := processRow pf now sheetName sheetId_ cols i row errs in
  (titleOf <> "" -> parseDateTimeValue pf rawStart = None ->
     snd res = None /\
     dataErrorReported "Date manquante ou invalide"
       (missingDateDetails pf titleOf rawStart) errs (fst res)) /\
  (forall sp,
     titleOf = "" -> parseDateTimeValue pf rawStart = Some sp ->
     snd res = None /\
     exists errs1,
       (errs1 = errs \/
        dataErrorReported "Date de fin invalide"
          (invalidEndDetails pf titleOf rawEnd) errs errs1) /\
       dataErrorReported "Nom d'événement manquant"
         (missingNameDetails pf (pdate sp) serviceOf) errs1 (fst res)) /\
  (titleOf = "" -> parseDateTimeValue pf rawStart = None ->
     res = (errs, None)) /\
  (forall sp,
     parseDateTimeValue pf rawStart = Some sp -> titleOf <> "" ->
     (useLegacy cols = false -> endCol cols <> -1 -> truthy rawEnd = true ->
      parseDateTimeValue pf rawEnd = None ->
      dataErrorReported "Date de fin invalide"
        (invalidEndDetails pf titleOf rawEnd) errs (fst res) /\
      exists ev, snd res = Some ev /\ endDate ev = None /\
                 startDate ev = pdate sp /\ date ev = pdate sp /\
                 event ev = titleOf /\ department ev = sheetName) /\
     (useLegacy cols = true ->
      fst res = errs /\
      exists ev, snd res = Some ev /\ endDate ev = None /\
                 startDate ev = pdate sp /\ date ev = pdate sp /\
                 event ev = titleOf /\ department ev = sheetName)).
Proof.
  intros Hi. cbv zeta. unfold processRow.
  fold titleOf serviceOf rawStart rawEnd.
  assert (Hne : titleOf <> "" -> isEmptyString titleOf = false)
    by (destruct titleOf; [congruence|reflexivity]).
  split; [|split; [|split]].
  - intros Ht Hp. rewrite Hp, (Hne Ht). cbn [negb fst snd].
    split; [reflexivity|]. now apply logError_reported.
  - intros sp Ht Hp. rewrite Hp.
    destruct (negb (useLegacy cols) && negb (endCol cols =? -1) && truthy rawEnd);
      [destruct (parseDateTimeValue pf rawEnd)|]; rewrite Ht;
      cbn [isEmptyString fst snd]; (split; [reflexivity|]).
    + exists errs. split; [now left|]. now apply logError_reported.
    + eexists. split; [right; now apply logError_reported|].
      now apply logError_reported.
    + exists errs. split; [now left|]. now apply logError_reported.
  - intros Ht Hp. rewrite Hp, Ht. reflexivity.
  - intros sp Hp Ht. rewrite Hp. split.
    + intros Hl Hc Hy He. rewrite Hl, Hy, He, (Hne Ht).
      destruct (Z.eqb_spec (endCol cols) (-1)) as [E|E]; [contradiction|].
      cbn [negb andb fst snd]. split; [now apply logError_reported|].
      eexists. repeat split; reflexivity.
    + intros Hl. rewrite Hl, (Hne Ht). cbn [negb andb fst snd].
      split; [reflexivity|]. eexists. repeat split; reflexivity.
Qed.

End NormalizerProperties.

Section NormalizerExamples.

Import Sheets Errors Normalizer.
Local Open Scope string_scope.
Local Open Scope list_scope.
Local Open Scope Z_scope.

Definition startEndColumns : Columns :=
  {| useLegacy := false; dateColIndex := 0; endCol := 1; serviceCol := 2;
     eventCol := 3; surSiteCol := 4; surCalendrierCol := -1 |}.

(** A row whose end cell does not parse: the start is used, the end is
    dropped and the error is reported. *)
Lemma C6_row_outcomes_witness :
  dataErrorReported hkPlatform 0 "Paroisse" 1
    "Date de fin invalide"
    (invalidEndDetails hkPlatform "Rentree" (CStr "bientot")) None
    (fst (processRow hkPlatform 0 "Paroisse" 7 startEndColumns 1
            [CDate 1756684800000; CStr "bientot"; CStr "Messe";
             CStr "Rentree"; CStr "oui"] None)) /\
  exists ev,
    snd (processRow hkPlatform 0 "Paroisse" 7 startEndColumns 1
           [CDate 1756684800000; CStr "bientot"; CStr "Messe";
            CStr "Rentree"; CStr "oui"] None) = Some ev /\
    endDate ev = None /\ startDate ev = 1756684800000 /\
    date ev = 1756684800000 /\ event ev = "Rentree" /\
    department ev = "Paroisse".
Proof.
  refine (proj1 (proj2 (proj2 (proj2
    (C6_row_outcomes hkPlatform 0 "Paroisse" 7 startEndColumns 1
       [CDate 1756684800000; CStr "bientot"; CStr "Messe";
        CStr "Rentree"; CStr "oui"] None _)))
    {| pdate := 1756684800000; phasTime := true |} _ _) _ _ _ _);
    try reflexivity; try discriminate; lia.
Defined.

(** A sheet in the legacy schema (a Date column and no start column) that
    also has an end column, and the same rows under a start column. *)
Definition legacyWithEnd : Sheet :=
  {| getName := "Chorale"; getSheetId := 3;
     getValues :=
       [[CStr "Date"; CStr "Fin"; CStr "Service"; CStr "evenement"];
        [CDate 1756684800000; CStr "bientot"; CStr "Messe"; CStr "Rentree"]] |}.

Definition startWithEnd : Sheet :=
  {| getName := "Chorale"; getSheetId := 3;
     getValues :=
       [[CStr "Début"; CStr "Fin"; CStr "Service"; CStr "evenement"];
        [CDate 1756684800000; CStr "bientot"; CStr "Messe"; CStr "Rentree"]] |}.

Definition rentreeChorale : Event :=
  {| date := 1756684800000; startDate := 1756684800000; endDate := None;
     hasTime := true; service := "Messe"; event := "Rentree";
     department := "Chorale"; sheetId := 3; rowIndex := 2;
     surSiteCCFHK := false; surCalendrierExcel := false;
     surCalendrierExcelRaw := "" |}.

(** C6, as stated, fails: in a legacy sheet a row whose end cell is filled
    with a text that does not parse is not reported (no error sheet is even
    created); under a start column the same row is reported. *)
Lemma C6_legacy_end_is_not_reported :
  truthy (CStr "bientot") = true /\
  parseDateTimeValue hkPlatform (CStr "bientot") = None /\
  getAllEvents hkPlatform 0 [legacyWithEnd] None = (None, [rentreeChorale]) /\
  getAllEvents hkPlatform 0 [startWithEnd] None
  = (Some [{| horodatage := CStr "1970-01-01T00:00:00.000Z";
              errType := CStr "DONNÉES";
              errDepartment := CStr "Chorale";
              ligne := rowNumber 1;
              description := CStr "Date de fin invalide";
              details :=
                CStr (invalidEndDetails hkPlatform "Rentree"
                        (CStr "bientot")) |}],
     [rentreeChorale]).
Proof. vm_compute. repeat split; reflexivity. Qed.

(** The scenario of the specification: title "Spring Concert" with the
    date text "TBD" gives no event and one data error for that row. *)
Example spring_concert_TBD :
  getAllEvents hkPlatform 0
    [{| getName := "Chorale"; getSheetId := 3;
        getValues := [[CStr "Date"; CStr "Service"; CStr "evenement"];
                      [CStr "TBD"; CStr ""; CStr "Spring Concert"]] |}]
    None
  = (Some [{| horodatage := CStr "1970-01-01T00:00:00.000Z";
              errType := CStr DONNEES;
              errDepartment := CStr "Chorale";
              ligne := rowNumber 1;
              description := CStr "Date manquante ou invalide";
              details :=
                CStr (missingDateDetails hkPlatform "Spring Concert"
                        (CStr "TBD")) |}],
     []).
Proof. vm_compute. reflexivity. Qed.

End NormalizerExamples.

Section FilterProperties.

Import Sheets JSDate Filters.
Local Open Scope string_scope.
Local Open Scope Z_scope.

(** [t] is the local date and time y-m-d h:mi:s (month 0-indexed). *)
Definition isLocal (pf : Platform) (t y m d h mi s : Z) : Prop :=
  getFullYear pf t = y /\ getMonth pf t = m /\ getDate pf t = d /\
  TimeWithinDay (t + LocalTZA pf) = MakeTime h mi s 0.

(** The filters other than the year let every event through. *)
Definition neutralFilters (token : string) : FilterSpec :=
  {| year := token; timeRange := "Tout"; fdepartment := "Tous";
     fsurCalendrierExcel := "Tous"; fsurSiteCCFHK := "Tous"; search := "" |}.

Definition inWindow (r : YearRange) (ev : Event) : bool :=
  (rstart r <=? date ev) && (date ev <=? rend r).

Lemma keepEvent_neutral (pf : Platform) (now : Z) (token : string)
    (r : YearRange) (ev : Event) :
  keepEvent pf now (neutralFilters token) r ev = inWindow r ev.
Proof.
  unfold keepEvent, outsideYear, inWindow. cbn.
  destruct (Z.ltb_spec (date ev) (rstart r)), (Z.ltb_spec (rend r) (date ev)),
    (Z.leb_spec (rstart r) (date ev)), (Z.leb_spec (date ev) (rend r));
    cbn; try reflexivity; lia.
Qed.

Lemma keepEvent_inWindow (pf : Platform) (now : Z) (filters : FilterSpec)
    (r : YearRange) (ev : Event) :
  keepEvent pf now filters r ev = true -> inWindow r ev = true.
Proof.
  unfold keepEvent, outsideYear, inWindow.
  destruct (Z.ltb_spec (date ev) (rstart r)), (Z.ltb_spec (rend r) (date ev)),
    (Z.leb_spec (rstart r) (date ev)), (Z.leb_spec (date ev) (rend r));
    cbn; try reflexivity; try discriminate; lia.
Qed.

Lemma month_ge_7 (t : Z) :
  (7 <=? MonthFromTime t) = (212 + InLeapYear t <=? DayWithinYear t).
Proof.
  unfold MonthFromTime, monthOfYearDay, InLeapYear.
  destruct (isLeapYear (YearFromTime t)); zbool; try reflexivity; lia.
Qed.

(** The fall-back year: the academic year the clock is in. *)
Lemma fallback_year (pf : Platform) (now : Z) :
  let Y := if 7 <=? getMonth pf now then getFullYear pf now
           else getFullYear pf now - 1 in
  MakeDay Y 7 1 * msPerDay <= now + LocalTZA pf
  < MakeDay (Y + 1) 7 1 * msPerDay.
Proof.
  unfold getMonth, getFullYear. set (t := now + LocalTZA pf).
  rewrite month_ge_7.
  pose proof (DayWithinYear_range t) as R. rewrite DaysInYear_leap in R.
  fold (InLeapYear t) in R.
  assert (HD : Day t * msPerDay <= t < (Day t + 1) * msPerDay)
    by (unfold Day, msPerDay; Z.div_mod_to_equations; lia).
  assert (Hm : forall y, MakeDay y 7 1 =
                         DayFromYear y + 212 + (if isLeapYear y then 1 else 0)).
  { intros y. unfold MakeDay. change (7 / 12) with 0. change (7 mod 12) with 7.
    rewrite Z.add_0_r. destruct (isLeapYear y); cbn; lia. }
  unfold DayWithinYear in R. unfold InLeapYear in *.
  set (y := YearFromTime t) in *.
  pose proof (DayFromYear_succ y) as S1. rewrite DaysInYear_leap in S1.
  pose proof (DayFromYear_succ (y - 1)) as S0. rewrite DaysInYear_leap in S0.
  replace (y - 1 + 1) with y in * by lia.
  unfold DayWithinYear. fold y.
  cbv zeta.
  destruct (Z.leb_spec (212 + (if isLeapYear y then 1 else 0))
                       (Day t - DayFromYear y)) as [L|L].
  - rewrite !Hm. unfold msPerDay in *.
    destruct (isLeapYear y), (isLeapYear (y + 1)); nia.
  - replace (y - 1 + 1) with y by lia. rewrite !Hm. unfold msPerDay in *.
    destruct (isLeapYear y), (isLeapYear (y - 1)); nia.
Qed.

(** An event on 14 September 2026, 08:00 in Hong Kong. *)
Definition september2026 : Event :=
  {| date := 1789344000000; startDate := 1789344000000; endDate := None;
     hasTime := true; service := "Messe"; event := "Rentree";
     department := "Paroisse"; sheetId := 7; rowIndex := 2;
     surSiteCCFHK := true; surCalendrierExcel := false;
     surCalendrierExcelRaw := "" |}.

(** C7, as stated, fails: for the token 2025-2027 the claimed window runs to
    31 July 2027, yet an event on 14 September 2026 is dropped. *)
Lemma C7_second_year_is_not_read :
  matchYears (list_ascii_of_string "2025-2027") = Some (2025, 2027) /\
  isLocal hkPlatform (date september2026) 2026 8 14 8 0 0 /\
  (newDate hkPlatform 2025 7 1 0 0 0 <= date september2026
   /\ date september2026 <= newDate hkPlatform 2027 6 31 23 59 59) /\
  getFilteredEvents hkPlatform 0 [september2026] (neutralFilters "2025-2027")
    = [].
Proof.
  split; [reflexivity|].
  split; [vm_compute; repeat split; reflexivity|].
  split; [vm_compute; split; discriminate|].
  vm_compute. reflexivity.
Qed.

(** C7 (amended): the year filter keeps only events inside the window of
    [parseAcademicYear], and exactly those when the other filters are
    neutral; it reads the [date] of an event, which is its start.  For a token containing YYYY-YYYY with first year Y >= 100 the
    window is [1 Aug Y 00:00:00, 31 Jul Y+1 23:59:59] in local time,
    whatever the second year of the token; so for 2025-2026 an event at
    2025-08-01 00:00 passes and one at 2026-08-01 00:00 is dropped.  For a
    token without the pattern the window is that of the academic year Y the
    clock is in, which starts no later than now and ends less than a second
    before 1 Aug Y+1. *)
Theorem C7_academic_year_window (pf : Platform) (now : Z)
    (events : list Event) (filters : FilterSpec) :
  let r := parseAcademicYear pf now (year filters) in
  (forall ev, In ev (getFilteredEvents pf now events filters) ->
              In ev events /\ rstart r <= date ev <= rend r) /\
  (forall ss errs ev, In ev (snd (Normalizer.getAllEvents pf now ss errs)) ->
                      date ev = startDate ev) /\
  getFilteredEvents pf now events (neutralFilters (year filters))
    = filter (inWindow r) events /\
  (forall y1 y2,
     matchYears (list_ascii_of_string (year filters)) = Some (y1, y2) ->
     100 <= y1 ->
     isLocal pf (rstart r) y1 7 1 0 0 0 /\
     isLocal pf (rend r) (y1 + 1) 6 31 23 59 59 /\
     rend r + 1000 = newDate pf (y1 + 1) 7 1 0 0 0) /\
  (year filters = "2025-2026" ->
     forall ev,
       (date ev = newDate pf 2025 7 1 0 0 0 ->
        keepEvent pf now (neutralFilters "2025-2026") r ev = true) /\
       (date ev = newDate pf 2026 7 1 0 0 0 ->
        keepEvent pf now filters r ev = false)) /\
  (matchYears (list_ascii_of_string (year filters)) = None ->
   101 <= getFullYear pf now ->
   exists Y,
     isLocal pf (rstart r) Y 7 1 0 0 0 /\
     isLocal pf (rend r) (Y + 1) 6 31 23 59 59 /\
     rstart r <= now < rend r + 1000).
Proof.
  cbv zeta.
  assert (Hwin : forall y, 100 <= y ->
            isLocal pf (newDate pf y 7 1 0 0 0) y 7 1 0 0 0 /\
            isLocal pf (newDate pf (y + 1) 6 31 23 59 59) (y + 1) 6 31 23 59 59).
  { intros y Hy. split; apply newDate_fields; try lia.
    - unfold daysInMonth. destruct (isLeapYear y); cbn; lia.
    - unfold daysInMonth. destruct (isLeapYear (y + 1)); cbn; lia. }
  split; [|split; [|split; [|split; [|split]]]].
  - intros ev H. unfold getFilteredEvents in H. apply filter_In in H.
    destruct H as [H1 H2]. split; [exact H1|].
    apply keepEvent_inWindow in H2. unfold inWindow in H2.
    apply andb_prop in H2. destruct H2 as [A B].
    apply Z.leb_le in A, B. lia.
  - intros ss errs ev. apply Normalizer.getAllEvents_date.
  - unfold getFilteredEvents. cbn [year neutralFilters].
    apply filter_ext. intros ev. apply keepEvent_neutral.
  - intros y1 y2 Hm Hy. unfold parseAcademicYear. rewrite Hm. cbn [rstart rend].
    destruct (Hwin y1 Hy) as [A B]. split; [exact A|]. split; [exact B|].
    apply newDate_mono_year, Hy.
  - intros Htok ev. rewrite Htok.
    change (parseAcademicYear pf now "2025-2026")
      with {| rstart := newDate pf 2025 7 1 0 0 0;
              rend := newDate pf (2025 + 1) 6 31 23 59 59 |}.
    pose proof (newDate_mono_year pf 2025 ltac:(lia)) as [M1 M2].
    change (2025 + 1) with 2026 in *.
    split; intros Hd.
    + rewrite keepEvent_neutral. unfold inWindow. cbn [rstart rend].
      rewrite Hd. apply andb_true_intro. split; apply Z.leb_le; lia.
    + unfold keepEvent, outsideYear. cbn [rstart rend]. rewrite Hd.
      destruct (Z.ltb_spec (newDate pf 2026 6 31 23 59 59)
                           (newDate pf 2026 7 1 0 0 0)) as [L|L]; [|lia].
      now rewrite orb_true_r.
  - intros Hm Hnow. unfold parseAcademicYear. rewrite Hm. cbn [rstart rend].
    pose proof (fallback_year pf now) as F. cbv zeta in F.
    set (Y := if 7 <=? getMonth pf now then getFullYear pf now
              else getFullYear pf now - 1) in *.
    assert (HY : 100 <= Y) by (subst Y; destruct (7 <=? getMonth pf now); lia).
    exists Y. destruct (Hwin Y HY) as [A B]. split; [exact A|]. split; [exact B|].
    pose proof (newDate_mono_year pf Y HY) as [M1 M2]. rewrite M2.
    unfold newDate. rewrite !fullYear_id by lia.
    unfold MakeDate, MakeTime. lia.
Qed.

Lemma C7_academic_year_window_witness :
  isLocal hkPlatform
    (rstart (parseAcademicYear hkPlatform 0 "2025-2026")) 2025 7 1 0 0 0 /\
  isLocal hkPlatform
    (rend (parseAcademicYear hkPlatform 0 "2025-2026")) (2025 + 1) 6 31 23 59 59 /\
  rend (parseAcademicYear hkPlatform 0 "2025-2026") + 1000
    = newDate hkPlatform (2025 + 1) 7 1 0 0 0.
Proof.
  refine (proj1 (proj2 (proj2 (proj2
    (C7_academic_year_window hkPlatform 0 [] (neutralFilters "2025-2026")))))
    2025 2026 _ _).
  - reflexivity.
  - lia.
Defined.

End FilterProperties.

Section GridProperties.

Import Sheets JSDate Filters Grid GridFacts.
Local Open Scope list_scope.
Local Open Scope Z_scope.

Lemma nth_error_days (lead dim d : Z) (tail : list (option Z)) :
  0 <= lead -> 1 <= d <= dim ->
  nth_error (repeat None (Z.to_nat lead) ++ map Some (daysUpTo dim) ++ tail)
            (Z.to_nat (lead + d - 1)) = Some (Some d).
Proof.
  intros Hl Hd.
  rewrite nth_error_app2 by (rewrite repeat_length; lia).
  rewrite repeat_length.
  replace (Z.to_nat (lead + d - 1) - Z.to_nat lead)%nat
    with (Z.to_nat (d - 1)) by lia.
  rewrite nth_error_app1
    by (unfold daysUpTo; rewrite !length_map, length_seq; lia).
  unfold daysUpTo. rewrite !nth_error_map.
  rewrite nth_error_seq.
  destruct (Nat.ltb_spec (Z.to_nat (d - 1)) (Z.to_nat dim)) as [L|L]; [|lia].
  cbn. do 2 f_equal. lia.
Qed.

(** C8, as stated, fails for some (year, month).  The Date constructor
    reads a year from 0 to 99 as 1900 + year: for (0, 1) the grid is that of
    February 1900, with the days 1 .. 28, while February of year 0 has 29
    days.  In September 275760 the last day of the month is past the last
    representable date: the grid is six rows of blank cells.  And with a
    year filter that names an inherited property of the holiday tables the
    call throws. *)
Lemma C8_grid_is_not_of_every_month :
  match generateMonthGrid hkPlatform 0 [] [] (CStr "2025-2026") 0 1 [] with
  | Normal grid => map dayNumber (List.concat grid)
  | Throw _ => []
  end = repeat None 3 ++ map Some (daysUpTo 28) ++ repeat None 4 /\
  daysInMonth 0 1 = 29 /\
  generateMonthGrid hkPlatform 0 [] [] (CStr "2025-2026") 275760 8 []
  = Normal (repeat (repeat blankCell 7) 6) /\
  generateMonthGrid hkPlatform 0 [] [] (CStr "constructor") 2024 1 []
  = Throw notIterable.
Proof. vm_compute. repeat split; reflexivity. Qed.

(** C8 (amended): the grid of a month.  The month shown is the one the Date
    constructor reads from (year, month): a year from 0 to 99 stands for
    1900 + year and a month outside 0 .. 11 is carried into the year.  When
    the first and the last day of that month are representable dates and
    the year filter is not the name of an inherited property of the holiday
    tables, the call returns a grid; every week row has 7 cells; there are
    as many rows as the month needs, at most 6; read row after row, the
    cells are the blanks before day 1, then the days 1 .. last day of the
    month in order, then fewer than 7 blanks; and day [d] sits in the
    column of its weekday, Monday first. *)
Theorem C8_month_grid (pf : Platform) (now : Z)
    (departments : list string) (emojiMap : JsMap.t string)
    (yearFilter : Cell) (year_ month : Z)
    (eventsByDay : JsMap.t (list Event)) :
  ISO.validTime (newDate pf year_ month 1 0 0 0) ->
  ISO.validTime (newDate pf year_ (month + 1) 0 0 0 0) ->
  JsObject.isInherited (getCurrentAcademicYear pf yearFilter) = false ->
  let dim := daysInMonth (ym year_ month) (mn month) in
  let lead := mondayIndex year_ month 1 in
  exists grid,
    generateMonthGrid pf now departments emojiMap yearFilter year_ month
                      eventsByDay = Normal grid /\
    Forall (fun row => List.length row = 7%nat) grid /\
    (List.length grid <= 6)%nat /\
    List.length grid = Z.to_nat ((lead + dim + 6) / 7) /\
    map dayNumber (List.concat grid) =
      repeat None (Z.to_nat lead) ++ map Some (daysUpTo dim)
      ++ repeat None (Z.to_nat (trailing lead dim)) /\
    (0 <= lead <= 6 /\ 0 <= trailing lead dim <= 6 /\ 28 <= dim <= 31) /\
    (forall d, 1 <= d <= dim ->
       option_map dayNumber
         (nth_error (List.concat grid) (Z.to_nat (lead + d - 1)))
       = Some (Some d) /\
       (lead + d - 1) mod 7 = mondayIndex year_ month d).
Proof.
  intros V1 V2 I. cbv zeta.
  rewrite (generateMonthGrid_normal pf now departments emojiMap yearFilter
             year_ month eventsByDay V1 V2 I).
  set (dim := daysInMonth (ym year_ month) (mn month)).
  set (lead := mondayIndex year_ month 1).
  assert (Rl : 0 <= lead <= 6) by apply mondayIndex_range.
  assert (Rd : 28 <= dim <= 31) by apply daysInMonth_range, mn_range.
  set (f := dayCellAt pf now departments emojiMap yearFilter year_ month
                      eventsByDay).
  set (grid := monthOf f blankCell lead dim).
  exists grid. split; [reflexivity|].
  assert (Hsk : map (map dayNumber) grid = monthOf Some None lead dim).
  { subst grid. apply (monthLoop_map dayNumber f blankCell Some).
    intros d. reflexivity. }
  destruct (skeleton_shape lead dim Rl Rd) as (S1 & S2 & S3 & S4).
  rewrite <- Hsk in S1, S2, S3, S4.
  assert (Hflat : map dayNumber (List.concat grid) =
                  repeat None (Z.to_nat lead) ++ map Some (daysUpTo dim)
                  ++ repeat None (Z.to_nat (trailing lead dim)))
    by (rewrite concat_map; exact S4).
  split; [|split; [|split; [|split; [|split]]]].
  - rewrite Forall_map in S1. eapply Forall_impl; [|exact S1].
    intros row H. cbn beta in H. now rewrite length_map in H.
  - now rewrite length_map in S2.
  - now rewrite length_map in S3.
  - exact Hflat.
  - split; [exact Rl|]. split; [|exact Rd].
    unfold trailing. Z.div_mod_to_equations. lia.
  - intros d Hd. split.
    + rewrite <- nth_error_map, Hflat. apply nth_error_days; lia.
    + rewrite (mondayIndex_shift year_ month d). fold lead.
      f_equal.
Qed.

Lemma C8_month_grid_witness :
  exists grid,
    generateMonthGrid hkPlatform 0 [] [] (CStr "2025-2026") 2024 1 []
    = Normal grid /\
    List.length grid = 5%nat /\
    map dayNumber (List.concat grid) =
      repeat None 3 ++ map Some (daysUpTo 29) ++ repeat None 3.
Proof.
  assert (V1 : ISO.validTime (newDate hkPlatform 2024 1 1 0 0 0))
    by (vm_compute; discriminate).
  assert (V2 : ISO.validTime (newDate hkPlatform 2024 (1 + 1) 0 0 0 0))
    by (vm_compute; discriminate).
  assert (I : JsObject.isInherited
                (getCurrentAcademicYear hkPlatform (CStr "2025-2026")) = false)
    by reflexivity.
  destruct (C8_month_grid hkPlatform 0 [] [] (CStr "2025-2026") 2024 1 []
                          V1 V2 I)
    as (grid & E & _ & _ & L & F & _).
  exists grid. split; [exact E|]. split; [exact L|exact F].
Defined.

(** The grid of February 2024, a leap month that starts on a Thursday. *)
Example february_2024 :
  match generateMonthGrid hkPlatform 0 [] [] (CStr "2025-2026") 2024 1 [] with
  | Normal grid => map (map dayNumber) grid
  | Throw _ => []
  end
  = [[None; None; None; Some 1; Some 2; Some 3; Some 4];
     [Some 5; Some 6; Some 7; Some 8; Some 9; Some 10; Some 11];
     [Some 12; Some 13; Some 14; Some 15; Some 16; Some 17; Some 18];
     [Some 19; Some 20; Some 21; Some 22; Some 23; Some 24; Some 25];
     [Some 26; Some 27; Some 28; Some 29; None; None; None]].
Proof. vm_compute. reflexivity. Qed.

End GridProperties.

Section OverlayProperties.

Import Sheets Grid Formatting.
Local Open Scope string_scope.
Local Open Scope Z_scope.

(** Saturday 25 October 2025, inside the October school break. *)
Definition saturdayInBreak : DayCell :=
  returned
    (formatDayCell hkPlatform [] [] (CStr "2025-2026") 25 [] false 2025 9).

(** Saturday 4 April 2026, a public holiday inside the Easter break. *)
Definition holidaySaturday : DayCell :=
  returned
    (formatDayCell hkPlatform [] [] (CStr "2025-2026") 4 [] false 2026 3).

(** C5, as stated, fails: on a Saturday of a school break that is no public
    holiday the claimed dominant overlay is the school break, but the cell
    gets the Saturday colour. *)
Lemma C5_school_break_on_saturday :
  formatDayCell hkPlatform [] [] (CStr "2025-2026") 25 [] false 2025 9
    = Normal saturdayInBreak /\
  GridFacts.mondayIndex 2025 9 25 = 5 /\
  publicHoliday saturdayInBreak = None /\
  schoolHoliday saturdayInBreak = Some "Vacances d'octobre" /\
  dominantBySpec false (named (publicHoliday saturdayInBreak))
                 (named (schoolHoliday saturdayInBreak)) (isWeekend 5)
    = SchoolBreak /\
  colorOfOverlay SchoolBreak 5 = Some "#E1BEE7" /\
  backgroundColor saturdayInBreak 5 = "#E3F2FD".
Proof. vm_compute. repeat split; reflexivity. Qed.

(** C5 (amended): the colouring pass gives a day cell its background by the
    order public holiday > school break (Monday to Friday only) > Saturday
    or Sunday > none; on a weekend the weekend colour wins over a school
    break, and the cell has no staff-absence overlay.  In particular a
    public holiday on a Saturday gets the public-holiday colour, as on
    4 April 2026.  A cell keeps that colour unless it is today's cell, which
    the highlight applied afterwards recolours. *)
Theorem C5_background_priority (cell : DayCell) (colIndex : Z) :
  Some (backgroundColor cell colIndex)
    = colorOfOverlay
        (dominantInCode (named (publicHoliday cell))
                        (named (schoolHoliday cell)) (isWeekend colIndex))
        colIndex /\
  (named (publicHoliday cell) = true ->
   backgroundColor cell 5 = colors.publicHoliday) /\
  (named (publicHoliday cell) = false ->
   named (schoolHoliday cell) = true ->
   backgroundColor cell 5 = colors.saturday /\
   backgroundColor cell 6 = colors.sunday) /\
  (formatDayCell hkPlatform [] [] (CStr "2025-2026") 4 [] false 2026 3
     = Normal holidaySaturday /\
   GridFacts.mondayIndex 2026 3 4 = 5 /\
   publicHoliday holidaySaturday = Some "Après Vendredi saint" /\
   named (schoolHoliday holidaySaturday) = true /\
   backgroundColor holidaySaturday 5 = colors.publicHoliday) /\
  (forall (actualRow : Z) (cells : list DayCell) (i : nat) (d : Z),
     nth_error cells i = Some cell -> dayNumber cell = Some d ->
     lastColorAt actualRow (Z.of_nat i + 1) (backgroundWrites actualRow cells)
     = Some (if isToday cell then todayColor
             else backgroundColor cell (Z.of_nat i))).
Proof.
  split; [|split; [|split; [|split]]].
  - unfold backgroundColor, dominantInCode, isWeekend, colorOfOverlay.
    destruct (named (publicHoliday cell)); [reflexivity|].
    destruct (named (schoolHoliday cell));
      destruct (Z.eqb_spec colIndex 5) as [E5|E5];
      destruct (Z.eqb_spec colIndex 6) as [E6|E6]; cbn; try reflexivity; lia.
  - intros H. unfold backgroundColor. now rewrite H.
  - intros H1 H2. unfold backgroundColor. rewrite H1, H2. split; reflexivity.
  - vm_compute. repeat split; reflexivity.
  - intros actualRow cells i d H D.
    now apply (lastColorAt_backgroundWrites actualRow cells i cell d).
Qed.

Lemma C5_background_priority_witness :
  backgroundColor holidaySaturday 5 = colors.publicHoliday.
Proof.
  refine (proj1 (proj2 (C5_background_priority holidaySaturday 5)) _).
  vm_compute. reflexivity.
Defined.

End OverlayProperties.

Section SyncProperties.

Import Sheets Errors Normalizer Hash Sync SyncFacts RunFacts.
Local Open Scope string_scope.
Local Open Scope list_scope.
Local Open Scope Z_scope.

Lemma callsDuring_app (c c' : Calendar) (l : list ApiCall) :
  history c' = history c ++ l -> callsDuring c c' = l.
Proof.
  intros H. unfold callsDuring. rewrite H.
  rewrite skipn_app, skipn_all, Nat.sub_diag. reflexivity.
Qed.

Definition isCreate (call : ApiCall) : bool :=
  match call with CreateCall _ _ => true | _ => false end.

(** *** Sample worlds *)

Definition parishHeader : list Cell :=
  [CStr "Début"; CStr "Service"; CStr "evenement"; CStr "sur site ccfhk?"].

Definition rentree : list Cell :=
  [CDate 1756684800000; CStr "Messe"; CStr "Rentree"; CStr "oui"].

Definition parish (rows : list (list Cell)) : Sheet :=
  {| getName := "Paroisse"; getSheetId := 7; getValues := parishHeader :: rows |}.

Definition emptyCalendar (outcomes : list (option string)) : Calendar :=
  {| stored := []; nextId := 0; failures := outcomes; history := [] |}.

(** One on-site event, nothing tracked yet, and a calendar whose next call
    fails. *)
Definition failingCreateWorld : World :=
  {| sheets := [parish [rentree]]; errorSheet := None; syncSheet := None;
     calendar := Some (emptyCalendar [Some "Service invoked too many times"]);
     statusF4 := None; logger := [] |}.

(** Two identical on-site rows, nothing tracked yet. *)
Definition twinRowsWorld : World :=
  {| sheets := [parish [rentree; rentree]]; errorSheet := None;
     syncSheet := None; calendar := Some (emptyCalendar []);
     statusF4 := None; logger := [] |}.

Definition oldEvent : GCalEvent :=
  {| gtitle := "Messe | Toussaint"; gstart := 1761955200000; gend := None;
     gallDay := true; gdescription := "[[[Paroisse]]]" |}.

(** No source row any more, one tracked event still in the calendar, and
    a calendar whose next call fails. *)
Definition staleWorld : World :=
  {| sheets := [parish []]; errorSheet := None;
     syncSheet :=
       Some [("0123456789abcdef0123456789abcdef",
              {| gcalEventId := "evt0"; tdepartment := "Paroisse";
                 eventDate := "2025-11-01"; lastSynced := 0 |})];
     calendar :=
       Some {| stored := [("evt0", oldEvent)]; nextId := 1;
               failures := [Some "Service error"]; history := [] |};
     statusF4 := None; logger := [] |}.

(** A row whose title changed: the tracked event of the old content is
    still in the calendar and every call goes through. *)
Definition editedRowWorld : World :=
  {| sheets := [parish [rentree]]; errorSheet := None;
     syncSheet :=
       Some [("0123456789abcdef0123456789abcdef",
              {| gcalEventId := "evt0"; tdepartment := "Paroisse";
                 eventDate := "2025-09-01"; lastSynced := 0 |})];
     calendar :=
       Some {| stored := [("evt0", oldEvent)]; nextId := 1;
               failures := []; history := [] |};
     statusF4 := None; logger := [] |}.

(** The edited row is created under a new id, the event of the old content
    is deleted, and the tracking sheet holds the new hash only. *)
Example edited_row_is_created_then_deleted :
  snd (syncToGoogleCalendar hkPlatform 5 editedRowWorld)
    = Normal {| created := 1; unchanged := 0; deleted := 1; errors := 0 |} /\
  option_map (fun c => map fst (stored c))
    (calendar (fst (syncToGoogleCalendar hkPlatform 5 editedRowWorld)))
    = Some ["evt1"] /\
  option_map (fun c => map isCreate (history c))
    (calendar (fst (syncToGoogleCalendar hkPlatform 5 editedRowWorld)))
    = Some [true; false; false] /\
  syncSheet (fst (syncToGoogleCalendar hkPlatform 5 editedRowWorld))
    = Some [("bc8349e98a50794e184d7ab2915c67d2",
             {| gcalEventId := "evt1"; tdepartment := "Paroisse";
                eventDate := "2025-09-01"; lastSynced := 5 |})].
Proof. vm_compute. repeat split; reflexivity. Qed.




(** C2, as stated, fails: two identical rows are two synced events, and
    each gets its own calendar event, but they share one hash, so the
    store keeps a single entry, that of the second creation. *)
Lemma C2_identical_rows_share_one_entry :
  List.length (sourceEvents hkPlatform (sheets twinRowsWorld)) = 2%nat /\
  snd (syncToGoogleCalendar hkPlatform 0 twinRowsWorld)
    = Normal {| created := 2; unchanged := 0; deleted := 0; errors := 0 |} /\
  option_map (fun c => map fst (stored c))
    (calendar (fst (syncToGoogleCalendar hkPlatform 0 twinRowsWorld)))
    = Some ["evt0"; "evt1"] /\
  option_map (map (fun kv => gcalEventId (snd kv)))
    (syncSheet (fst (syncToGoogleCalendar hkPlatform 0 twinRowsWorld)))
    = Some ["evt1"].
Proof. vm_compute. repeat split; reflexivity. Qed.

(** C2 (amended): after a run with the calendar found, the tracking sheet
    holds exactly the entries carried forward and the entries newly
    created, at most one per hash.  A hash has an entry exactly when it is
    the hash of a syncable event and either it was tracked before, and then
    the entry is the old one unchanged, or an event of that hash was
    created in this run, and then the entry is the one written for such a
    creation.  Every syncable event whose hash is not tracked is sent for
    creation, and the errors counted are the creations that failed; so
    after a run that reports no error the sheet has one entry for each
    distinct hash of the syncable events, in the order the hashes first
    appear.  Entries whose hash left the syncable set are gone. *)
Theorem C2_tracking_after_run (pf : Platform) (now : Z) (w : World)
    (c : Calendar) :
  calendar w = Some c ->
  let old := getSyncTrackingData (syncSheet w) in
  let evs := sourceEvents pf (sheets w) in
  let w' := fst (syncToGoogleCalendar pf now w) in
  exists new c' s,
    syncSheet w' = Some new /\ getSyncTrackingData (syncSheet w') = new /\
    calendar w' = Some c' /\
    snd (syncToGoogleCalendar pf now w) = Normal s /\
    NoDup (JsMap.keys new) /\
    (forall h, In h (JsMap.keys new) -> In h (hashes evs)) /\
    (forall h e, JsMap.get h old = Some e -> In h (hashes evs) ->
                 JsMap.get h new = Some e) /\
    (forall h e', JsMap.get h old = None -> JsMap.get h new = Some e' ->
       exists ev id, In ev evs /\ computeEventHash ev = h /\
                     e' = newEntry now ev id /\
                     In (CreateCall ev (Some id)) (callsDuring c c')) /\
    (forall ev id, In (CreateCall ev (Some id)) (callsDuring c c') ->
                   JsMap.get (computeEventHash ev) new <> None) /\
    (forall h,
       JsMap.get h new <> None <->
       In h (hashes evs) /\
       (JsMap.get h old <> None \/
        exists ev id, computeEventHash ev = h /\
                      In (CreateCall ev (Some id)) (callsDuring c c'))) /\
    createdEvents (callsDuring c c')
    = filter (fun ev => negb (tracked old ev)) evs /\
    errors s = count isFailedCreate (callsDuring c c') /\
    (errors s = 0 ->
       (forall h, In h (hashes evs) -> JsMap.get h new <> None) /\
       JsMap.keys new
       = fold_left (fun seen ev => setAdd (computeEventHash ev) seen) evs []).
Proof.
  intros H. cbv zeta.
  destruct (run_summary pf now w c H)
    as (s & c' & new & seg & dels & R & Hcal & Hsh & Hsy & Hrb & Hh & Hc & Hd
        & Hn & Hp & Hs & Hk & He).
  destruct (run_calls pf now w c H)
    as (s2 & c2 & R2 & Hcal2 & K1 & _ & _ & _ & _ & K4 & _).
  cbv zeta in K1, K4.
  set (evs := sourceEvents pf (sheets w)) in *.
  set (old := getSyncTrackingData (syncSheet w)) in *.
  assert (s2 = s) by congruence. subst s2.
  assert (c2 = c') by congruence. subst c2.
  pose proof (callsDuring_app c c' (seg ++ dels) Hh) as CD.
  assert (Hsub : forall h, In h (JsMap.keys new) -> In h (hashes evs)).
  { intros h I. destruct (JsMap.get h new) as [e'|] eqn:G.
    - destruct (Hp h e' G) as [[_ B]|[_ (ev & id & Iev & <- & _)]];
        [exact B|]. unfold hashes. now apply in_map.
    - apply JsMap.get_None_keys in G. contradiction. }
  assert (Hcr : forall ev id, In (CreateCall ev (Some id)) (callsDuring c c') ->
                              JsMap.get (computeEventHash ev) new <> None).
  { intros ev id I. rewrite CD in I. apply in_app_or in I.
    destruct I as [I|I]; [now apply (Hs ev id)|].
    destruct (Hd _ I) as (h & v & _ & _ & F). destruct F. }
  exists new, c', s.
  split; [exact Hsy|]. split; [exact Hrb|]. split; [exact Hcal|].
  split; [exact R|]. split; [exact Hn|]. split; [exact Hsub|].
  split; [exact Hk|]. split; [|split; [exact Hcr|split; [|split; [exact K1|
    split; [exact K4|]]]]].
  - intros h e' Go Gn.
    destruct (Hp h e' Gn) as [[A _]|[_ (ev & id & I & Eh & En & Ic)]];
      [congruence|].
    exists ev, id. repeat split; auto. rewrite CD. apply in_or_app. now left.
  - intros h. split.
    + intros G. destruct (JsMap.get h new) as [e'|] eqn:Gn; [|congruence].
      destruct (Hp h e' Gn) as [[A B]|[_ (ev & id & I & Eh & En & Ic)]].
      * split; [exact B|]. left. congruence.
      * split; [subst h; unfold hashes; now apply in_map|].
        right. exists ev, id. split; [exact Eh|].
        rewrite CD. apply in_or_app. now left.
    + intros [I [G|(ev & id & Eh & Ic)]].
      * destruct (JsMap.get h old) as [e|] eqn:Go; [|congruence].
        rewrite (Hk h e Go I). discriminate.
      * subst h. now apply (Hcr ev id).
  - intros Z0. destruct (He Z0) as [Hall Hkeys]. split; [|exact Hkeys].
    intros h I. unfold hashes in I. apply in_map_iff in I.
    destruct I as (ev & <- & Iev). now apply Hall.
Qed.

Lemma C2_tracking_after_run_witness :
  exists new c' s,
    syncSheet (fst (syncToGoogleCalendar hkPlatform 0 twinRowsWorld)) = Some new /\
    getSyncTrackingData
      (syncSheet (fst (syncToGoogleCalendar hkPlatform 0 twinRowsWorld))) = new /\
    calendar (fst (syncToGoogleCalendar hkPlatform 0 twinRowsWorld)) = Some c' /\
    snd (syncToGoogleCalendar hkPlatform 0 twinRowsWorld) = Normal s /\
    NoDup (JsMap.keys new).
Proof.
  destruct (C2_tracking_after_run hkPlatform 0 twinRowsWorld (emptyCalendar [])
              eq_refl) as (new & c' & s & A & B & C & D & E & _).
  exists new, c', s. auto.
Defined.

(** C3, as stated, fails: after a run in which a creation failed, a second
    run on the same rows creates the event. *)
Lemma C3_second_run_retries_failed_create :
  snd (syncToGoogleCalendar hkPlatform 0 failingCreateWorld)
    = Normal {| created := 0; unchanged := 0; deleted := 0; errors := 1 |} /\
  sheets (fst (syncToGoogleCalendar hkPlatform 0 failingCreateWorld))
    = sheets failingCreateWorld /\
  snd (syncToGoogleCalendar hkPlatform 1
         (fst (syncToGoogleCalendar hkPlatform 0 failingCreateWorld)))
    = Normal {| created := 1; unchanged := 0; deleted := 0; errors := 0 |}.
Proof. vm_compute. repeat split; reflexivity. Qed.

(** C3 (amended): a hash found both in the old tracking and in the
    current syncable set keeps its entry, and the calls of a run are only
    creations for untracked events and look-ups or deletions for tracked
    entries whose hash left the set.  When a run reports no error, a second
    run on the same rows makes no call to the calendar at all (zero
    creations, zero deletions) and leaves the tracking sheet as it is. *)
Theorem C3_idempotent (pf : Platform) (now1 now2 : Z) (w : World)
    (c : Calendar) :
  calendar w = Some c ->
  let old := getSyncTrackingData (syncSheet w) in
  let evs := sourceEvents pf (sheets w) in
  let w1 := fst (syncToGoogleCalendar pf now1 w) in
  let w2 := fst (syncToGoogleCalendar pf now2 w1) in
  (forall h e, JsMap.get h old = Some e -> In h (hashes evs) ->
     JsMap.get h (getSyncTrackingData (syncSheet w1)) = Some e) /\
  (forall c1 call, calendar w1 = Some c1 -> In call (callsDuring c c1) ->
     (exists ev r, call = CreateCall ev r /\ In ev evs /\
                   JsMap.get (computeEventHash ev) old = None) \/
     (exists h v, In (h, v) old /\ ~ In h (hashes evs) /\
                  isDeletion [gcalEventId v] call)) /\
  (forall s1,
     snd (syncToGoogleCalendar pf now1 w) = Normal s1 -> errors s1 = 0 ->
     exists s2,
       snd (syncToGoogleCalendar pf now2 w1) = Normal s2 /\
       created s2 = 0 /\ deleted s2 = 0 /\ errors s2 = 0 /\
       calendar w2 = calendar w1 /\ syncSheet w2 = syncSheet w1).
Proof.
  intros H. cbv zeta.
  destruct (run_summary pf now1 w c H)
    as (s & c1 & new & seg & dels & R & Hcal & Hsh & Hsy & Hrb & Hh & Hc & Hd
        & Hn & Hp & Hs & Hk & He).
  set (w1 := fst (syncToGoogleCalendar pf now1 w)) in *.
  set (evs := sourceEvents pf (sheets w)) in *.
  split; [rewrite Hrb; exact Hk|]. split.
  - intros c1' call Hc1 I.
    assert (c1' = c1) by congruence. subst c1'.
    rewrite (callsDuring_app c c1 (seg ++ dels) Hh) in I.
    apply in_app_or in I. destruct I as [I|I]; [left; auto|right; auto].
  - intros s1 Rs Z0. assert (s1 = s) by congruence. subst s1.
    destruct (He Z0) as [Hall Hkeys].
    assert (Hsub : forall h, In h (JsMap.keys new) -> In h (hashes evs)).
    { intros h I. destruct (JsMap.get h new) as [e'|] eqn:G.
      - destruct (Hp h e' G) as [[_ B]|[_ (ev & id & Iev & <- & _)]];
          [exact B|]. unfold hashes. now apply in_map.
      - apply JsMap.get_None_keys in G. contradiction. }
    destruct (sync_unfold pf now2 w1 c1 Hcal) as (errs1 & U1 & U2 & U3 & U4).
    cbv zeta in U1, U3, U4. rewrite Hrb, Hsh in U1, U3, U4. fold evs in U1, U3, U4.
    set (st0 := startState c1 errs1 (logger w1)) in *.
    set (st1 := fold_left (syncEvent pf now2 new) evs st0) in *.
    assert (Idle : fold_left (syncStale pf now2) new st1 = st1).
    { apply staleLoop_idle. intros h I. apply firstLoop_seen. left. auto. }
    rewrite Idle in U1, U3, U4.
    destruct (firstLoop_idle pf now2 new evs st0 Hall)
      as (I1 & I2 & I3 & I4 & I5 & I6).
    cbv zeta in I1, I4, I5, I6. fold st1 in I1, I4, I5, I6.
    exists (stats st1).
    split; [exact U1|]. split; [now rewrite I4|]. split; [now rewrite I5|].
    split; [now rewrite I6|]. split; [now rewrite U4, I1, Hcal|].
    rewrite U3, Hsy. f_equal.
    pose proof (firstLoop_Prov pf now2 new (history c1) evs [] st0
                  (Prov_start now2 new c1 _ errs1 (logger w1))) as P.
    cbn [app] in P. fold st1 in P.
    destruct P as (seg2 & _ & _ & Hp2 & _ & Hk2 & Hn2).
    destruct (firstLoop_errors pf now2 new evs st0) as (_ & _ & _ & E4).
    cbv zeta in E4. fold st1 in E4.
    apply map_eq_keys; [exact Hn2| |].
    + rewrite E4; [|reflexivity|exact I6].
      rewrite Hkeys. apply firstLoop_seen_order.
    + intros h. destruct (JsMap.get h new) as [e|] eqn:G.
      * apply Hk2; [exact G|]. apply Hsub.
        destruct (in_dec string_dec h (JsMap.keys new)) as [I|N]; [exact I|].
        apply JsMap.get_None_keys in N. congruence.
      * destruct (JsMap.get h (newTrackingMap st1)) as [e'|] eqn:G2;
          [|reflexivity].
        destruct (Hp2 h e' G2) as [[A _]|[_ (ev & id & Iev & Eh & _)]];
          [congruence|].
        elim (Hall ev Iev). now rewrite Eh.
Qed.

Lemma C3_idempotent_witness :
  exists s2,
    snd (syncToGoogleCalendar hkPlatform 1
           (fst (syncToGoogleCalendar hkPlatform 0 twinRowsWorld))) = Normal s2 /\
    created s2 = 0 /\ deleted s2 = 0 /\ errors s2 = 0 /\
    calendar (fst (syncToGoogleCalendar hkPlatform 1
                     (fst (syncToGoogleCalendar hkPlatform 0 twinRowsWorld))))
      = calendar (fst (syncToGoogleCalendar hkPlatform 0 twinRowsWorld)) /\
    syncSheet (fst (syncToGoogleCalendar hkPlatform 1
                      (fst (syncToGoogleCalendar hkPlatform 0 twinRowsWorld))))
      = syncSheet (fst (syncToGoogleCalendar hkPlatform 0 twinRowsWorld)).
Proof.
  refine (proj2 (proj2 (C3_idempotent hkPlatform 0 1 twinRowsWorld
                          (emptyCalendar []) eq_refl))
            {| created := 2; unchanged := 0; deleted := 0; errors := 0 |} _ _).
  - vm_compute. reflexivity.
  - reflexivity.
Defined.

End SyncProperties.

(* ====================================================================== *)
(** * Further properties *)
(* ====================================================================== *)

Section ErrorLogProperties.

Import Sheets Errors ErrorLog.
Local Open Scope string_scope.
Local Open Scope list_scope.
Local Open Scope Z_scope.

(** X1: clearing by type twice is clearing once, and clearing two types
    gives the same sheet in either order. *)
Theorem X1_clearErrorsByType_idempotent_commutes (t1 t2 : string)
    (sh : ErrorSheet) :
  clearErrorsByType t1 (clearErrorsByType t1 sh) = clearErrorsByType t1 sh /\
  clearErrorsByType t1 (clearErrorsByType t2 sh)
  = clearErrorsByType t2 (clearErrorsByType t1 sh).
Proof.
  destruct sh as [rows|]; [|split; reflexivity].
  rewrite !clearErrorsByType_rows. split.
  - now rewrite keepOther_idem.
  - now rewrite keepOther_comm.
Qed.

(** X2: a logged error is appended as the last row, the sheet being
    created when it is missing, and the count goes up by one; clearing the
    type just logged removes the new row again, clearing another type keeps
    it as the last row. *)
Theorem X2_logError_then_clear (pf : Platform) (c : LogCall) (other : string)
    (sh : ErrorSheet) :
  logCall pf sh c = Some (getErrorSheet sh ++ [rowOf pf c]) /\
  getErrorCount (logCall pf sh c) = getErrorCount sh + 1 /\
  clearErrorsByType (ltype c) (logCall pf sh c)
  = Some (getErrorSheet (clearErrorsByType (ltype c) sh)) /\
  (other <> ltype c ->
   clearErrorsByType other (logCall pf sh c)
   = Some (getErrorSheet (clearErrorsByType other sh) ++ [rowOf pf c])).
Proof.
  split; [reflexivity|]. split; [|split].
  - rewrite logCall_rows. unfold getErrorCount, getLastRow.
    rewrite length_app. cbn [List.length].
    destruct sh as [rows|]; cbn [getErrorSheet List.length]; lia.
  - rewrite logCall_rows, clearErrorsByType_rows, keepOther_app.
    cbn. rewrite String.eqb_refl. cbn. rewrite app_nil_r.
    destruct sh as [rows|]; [now rewrite clearErrorsByType_rows|reflexivity].
  - intros N. rewrite logCall_rows, clearErrorsByType_rows, keepOther_app.
    cbn. destruct (String.eqb_spec (ltype c) other) as [E|_]; [congruence|].
    cbn. destruct sh as [rows|]; [now rewrite clearErrorsByType_rows|reflexivity].
Qed.

Lemma X2_logError_then_clear_witness :
  clearErrorsByType SYNC_GCAL
    (logCall hkPlatform None
       {| atTime := 0; ltype := DONNEES; ldepartment := "Paroisse";
          lrow := CStr ""; ldescription := "Date manquante ou invalide";
          ldetails := "" |})
  = Some [rowOf hkPlatform
            {| atTime := 0; ltype := DONNEES; ldepartment := "Paroisse";
               lrow := CStr ""; ldescription := "Date manquante ou invalide";
               ldetails := "" |}].
Proof.
  refine (proj2 (proj2 (proj2
            (X2_logError_then_clear hkPlatform _ SYNC_GCAL None))) _).
  discriminate.
Defined.

(** X3: after [clearErrors] the count is 0, and from then on the count is
    the number of errors logged; an absent sheet counts 0 and is left
    absent by [clearErrors]. *)
Theorem X3_error_count (pf : Platform) (calls : list LogCall)
    (sh : ErrorSheet) :
  getErrorCount (clearErrors sh) = 0 /\
  getErrorCount (fold_left (logCall pf) calls (clearErrors sh))
  = Z.of_nat (List.length calls) /\
  clearErrors None = None /\ getErrorCount None = 0.
Proof.
  assert (H0 : getErrorSheet (clearErrors sh) = []).
  { destruct sh as [[|r rows]|]; try reflexivity.
    unfold clearErrors, getLastRow.
    destruct (Z.ltb_spec 1 (1 + Z.of_nat (List.length (r :: rows)))) as [L|L];
      [reflexivity|cbn [List.length] in L; lia]. }
  assert (H1 : getErrorCount (clearErrors sh) = 0).
  { destruct (clearErrors sh) as [rows|]; [|reflexivity].
    cbn in H0. subst rows. reflexivity. }
  split; [exact H1|]. split; [|split; reflexivity].
  destruct calls as [|c calls]; [exact H1|].
  rewrite logCalls_rows by discriminate. rewrite H0.
  unfold getErrorCount, getLastRow. cbn [app]. rewrite length_map. lia.
Qed.

End ErrorLogProperties.

Section TriggerProperties.

Import Sheets Normalizer Sync Triggers.
Local Open Scope string_scope.
Local Open Scope list_scope.
Local Open Scope Z_scope.


(** X5: setting up the automatic refresh leaves exactly one trigger for
    [renderCalendar], every 5 minutes, whatever was installed before, and
    touches no other trigger; setting it up twice is setting it up once,
    and removing it afterwards gives what removing it before would have.
    The same holds for the edit trigger, so that installing (both set-ups
    in a row) leaves one trigger of each. *)
Theorem X5_trigger_setup (triggers : list Trigger) :
  let installed := setupOnEditTrigger (setupAutoRefresh triggers) in
  handledBy "renderCalendar" (setupAutoRefresh triggers)
  = [{| getHandlerFunction := "renderCalendar"; source := EveryMinutes 5 |}] /\
  (forall h, h <> "renderCalendar" ->
     handledBy h (setupAutoRefresh triggers) = handledBy h triggers) /\
  setupAutoRefresh (setupAutoRefresh triggers) = setupAutoRefresh triggers /\
  removeAutoRefresh (setupAutoRefresh triggers) = removeAutoRefresh triggers /\
  handledBy "renderCalendar" installed
  = [{| getHandlerFunction := "renderCalendar"; source := EveryMinutes 5 |}] /\
  handledBy "onEdit" installed
  = [{| getHandlerFunction := "onEdit"; source := OnEditOfSpreadsheet |}] /\
  (forall h, h <> "renderCalendar" -> h <> "onEdit" ->
     handledBy h installed = handledBy h triggers).
Proof.
  cbv zeta.
  assert (D : removeAutoRefresh (setupAutoRefresh triggers)
              = removeAutoRefresh triggers).
  { unfold setupAutoRefresh, removeAutoRefresh.
    rewrite deleteTriggersOf_app, deleteTriggersOf_idem. cbn.
    now rewrite app_nil_r. }
  assert (R : handledBy "renderCalendar" (setupAutoRefresh triggers)
              = [{| getHandlerFunction := "renderCalendar";
                    source := EveryMinutes 5 |}]).
  { unfold setupAutoRefresh, removeAutoRefresh.
    rewrite handledBy_app, handledBy_deleted. reflexivity. }
  assert (O : forall h, h <> "renderCalendar" ->
     handledBy h (setupAutoRefresh triggers) = handledBy h triggers).
  { intros h N. unfold setupAutoRefresh, removeAutoRefresh.
    rewrite handledBy_app, handledBy_other by exact N.
    rewrite handledBy_single_other by exact N. apply app_nil_r. }
  split; [exact R|]. split; [exact O|]. split; [|split; [exact D|]].
  - unfold setupAutoRefresh at 1. now rewrite D.
  - split; [|split].
    + unfold setupOnEditTrigger. rewrite handledBy_app.
      rewrite handledBy_other by discriminate. rewrite R. reflexivity.
    + unfold setupOnEditTrigger. rewrite handledBy_app, handledBy_deleted.
      reflexivity.
    + intros h N1 N2. unfold setupOnEditTrigger.
      rewrite handledBy_app, handledBy_other by exact N2.
      rewrite handledBy_single_other by exact N2.
      rewrite app_nil_r. now apply O.
Qed.

(** X6: an edit of the error sheet or of the tracking sheet makes no
    call; an edit of the calendar sheet never schedules a sync, and calls
    something only for a filter cell or a ticked box in F1 or F2; an edit
    of any other sheet makes a call only when the sheet is one of the
    department sheets: it renders first, and it schedules a sync exactly
    when the rendering returned; when the rendering throws, the handler
    ends with that error and no sync is scheduled. *)
Theorem X6_onEdit_dispatch (pf : Platform) (sheets : list Sheet)
    (render reset : Completion unit)
    (sheetName cell : string) (value : Cell) :
  let actions := fst (onEdit pf sheets render reset sheetName cell value) in
  let result := snd (onEdit pf sheets render reset sheetName cell value) in
  (sheetName = Normalizer.CONFIG.errorSheetName \/
   sheetName = Normalizer.CONFIG.syncTrackingSheetName ->
     actions = [] /\ result = Normal tt) /\
  (sheetName = Normalizer.CONFIG.calendarSheetName ->
     ~ In ScheduleGoogleCalendarSync actions /\
     (actions <> [] ->
        In cell filterCells \/
        (value = CBool true /\ (cell = "F1" \/ cell = "F2")))) /\
  (sheetName <> Normalizer.CONFIG.calendarSheetName ->
     (In sheetName (Grid.getDepartmentNames pf sheets) /\
      ((render = Normal tt /\ result = Normal tt /\
        actions = [RenderCalendar; ScheduleGoogleCalendarSync]) \/
       (exists message, render = Throw message /\ result = Throw message /\
                        actions = [RenderCalendar]))) \/
     (~ In sheetName (Grid.getDepartmentNames pf sheets) /\
      actions = [] /\ result = Normal tt)).
Proof.
  cbv zeta.
  assert (M : forall l s, existsb (String.eqb s) l = true <-> In s l).
  { intros l s. rewrite existsb_exists. split.
    - intros [x [I E]]. apply String.eqb_eq in E. now subst.
    - intros I. exists s. split; [exact I|apply String.eqb_refl]. }
  assert (Sys : forall s, In s (Grid.getDepartmentNames pf sheets) ->
            s <> Normalizer.CONFIG.calendarSheetName /\
            s <> Normalizer.CONFIG.syncTrackingSheetName /\
            s <> Normalizer.CONFIG.errorSheetName).
  { intros s I. unfold Grid.getDepartmentNames in I. apply in_map_iff in I.
    destruct I as [sh [<- I]]. apply filter_In in I. destruct I as [_ I].
    unfold Grid.isDepartmentSheet in I.
    destruct (String.eqb_spec (getName sh) Normalizer.CONFIG.calendarSheetName);
      [discriminate|].
    destruct (String.eqb_spec (getName sh)
                Normalizer.CONFIG.syncTrackingSheetName); [discriminate|].
    destruct (String.eqb_spec (getName sh) Normalizer.CONFIG.errorSheetName);
      [discriminate|].
    auto. }
  split; [|split].
  - intros H. unfold onEdit.
    destruct (String.eqb_spec sheetName Normalizer.CONFIG.calendarSheetName)
      as [E|_]; [destruct H as [H|H]; rewrite H in E; discriminate E|].
    cbv zeta.
    destruct (existsb (String.eqb sheetName) (Grid.getDepartmentNames pf sheets))
      eqn:X; [|split; reflexivity].
    apply M, Sys in X. destruct H as [H|H]; tauto.
  - intros ->. unfold onEdit. rewrite String.eqb_refl.
    assert (T : isTrue value = true -> value = CBool true)
      by (destruct value as [s|q|[|]|t]; cbn; congruence).
    destruct (String.eqb cell "F1" && isTrue value) eqn:A.
    { apply andb_true_iff in A. destruct A as [A1 A2].
      apply String.eqb_eq in A1. cbn [fst]. split.
      - intros [H|[H|[]]]; discriminate.
      - intros _. right. auto. }
    destruct (String.eqb cell "F2" && isTrue value) eqn:B.
    { apply andb_true_iff in B. destruct B as [B1 B2].
      apply String.eqb_eq in B1. cbn [fst]. split.
      - intros [H|[H|[]]]; discriminate.
      - intros _. right. auto. }
    destruct (existsb (String.eqb cell) filterCells) eqn:X; cbn [fst].
    + split; [intros [H|[]]; discriminate|]. intros _. left. now apply M.
    + split; [intros []|]. intros H. congruence.
  - intros N. unfold onEdit.
    destruct (String.eqb_spec sheetName Normalizer.CONFIG.calendarSheetName)
      as [E|_]; [contradiction|].
    cbv zeta.
    destruct (existsb (String.eqb sheetName) (Grid.getDepartmentNames pf sheets))
      eqn:X.
    + left. split; [now apply M|].
      destruct render as [[]|message]; cbn [fst snd].
      * left. repeat split.
      * right. exists message. repeat split.
    + right. split; [|split; reflexivity]. intros I. apply M in I. congruence.
Qed.

End TriggerProperties.

Section TrackingProperties.

Import Sheets Hash HashFacts Sync SyncFacts TrackingFacts.
Local Open Scope string_scope.
Local Open Scope list_scope.
Local Open Scope Z_scope.

(** X7: the hash of any event is a text of 32 characters, each a digit or
    a letter from a to f. *)
Theorem X7_hash_is_32_hex_digits (e : Event) :
  String.length (computeEventHash e) = 32%nat /\
  forallb isLowerHex (list_ascii_of_string (computeEventHash e)) = true.
Proof.
  unfold computeEventHash.
  destruct (join_hex_format _ (computeDigest_signed (hashInput e))) as [L F].
  rewrite computeDigest_length in L. split; [exact L|exact F].
Qed.

Definition sampleEntry (id : string) : TrackingEntry :=
  {| gcalEventId := id; tdepartment := "Paroisse"; eventDate := "2025-09-01";
     lastSynced := 0 |}.

(** X8: reading the tracking sheet.  An absent sheet gives the empty map;
    a row whose hash cell is empty is skipped; when several rows hold the
    same hash the entry of the last one is kept; the keys of the map are
    distinct and none is empty. *)
Theorem X8_getSyncTrackingData_reads_last_row
    (data : list (string * TrackingEntry)) (h : string) :
  getSyncTrackingData None = [] /\
  JsMap.get "" (getSyncTrackingData (Some data)) = None /\
  (isEmptyString h = false ->
   JsMap.get h (getSyncTrackingData (Some data)) = lastRowOf h data) /\
  NoDup (JsMap.keys (getSyncTrackingData (Some data))) /\
  Forall (fun k => isEmptyString k = false)
         (JsMap.keys (getSyncTrackingData (Some data))).
Proof.
  rewrite getSyncTrackingData_fold.
  destruct (readRows_keys data []) as [ND NE]; [constructor|constructor|].
  split; [reflexivity|]. split; [|split; [|split; assumption]].
  - apply JsMap.get_None_keys. intros I. rewrite Forall_forall in NE.
    apply NE in I. discriminate.
  - intros E. rewrite (readRows_get h data [] E).
    destruct (lastRowOf h data); reflexivity.
Qed.

Lemma X8_getSyncTrackingData_reads_last_row_witness :
  JsMap.get "0123456789abcdef0123456789abcdef"
    (getSyncTrackingData
       (Some [("0123456789abcdef0123456789abcdef", sampleEntry "evt0");
              ("", sampleEntry "evt1");
              ("0123456789abcdef0123456789abcdef", sampleEntry "evt2")]))
  = Some (sampleEntry "evt2").
Proof.
  exact (proj1 (proj2 (proj2
           (X8_getSyncTrackingData_reads_last_row
              [("0123456789abcdef0123456789abcdef", sampleEntry "evt0");
               ("", sampleEntry "evt1");
               ("0123456789abcdef0123456789abcdef", sampleEntry "evt2")]
              "0123456789abcdef0123456789abcdef"))) eq_refl).
Defined.

End TrackingProperties.

Section MoreNormalizerProperties.

Import Sheets Errors ErrorLog Normalizer NormalizerFacts.
Local Open Scope string_scope.
Local Open Scope list_scope.
Local Open Scope Z_scope.

(** X9: every event returned by [getAllEvents] can be traced to its row.
    Its department and sheet id are those of a sheet that is not one of the
    three system sheets and whose header has the required columns; its row
    number is at least 2 and is the number of a row of that sheet; its title
    is the trimmed text of the event cell of that row and is not empty; its
    service is the trimmed text of the service cell; its start is the date
    parsed from the date cell, and its legacy date field is its start. *)
Theorem X9_events_have_a_source_row (pf : Platform) (now : Z)
    (ss : list Sheet) (errs : ErrorSheet) (ev : Event) :
  In ev (snd (getAllEvents pf now ss errs)) -> hasSource pf ss ev.
Proof.
  pose proof (getAllEvents_source pf now ss errs) as F.
  rewrite Forall_forall in F. apply F.
Qed.

Definition concertSheet : Sheet :=
  {| getName := "Chorale"; getSheetId := 12;
     getValues :=
       [[CStr "Date"; CStr "Service"; CStr "evenement"];
        [CDate 1756684800000; CStr " Concert "; CStr "Rentree "]] |}.

Lemma X9_events_have_a_source_row_witness :
  exists ev,
    snd (getAllEvents hkPlatform 0 [concertSheet] None) = [ev] /\
    hasSource hkPlatform [concertSheet] ev.
Proof.
  eexists. split; [vm_compute; reflexivity|].
  apply (X9_events_have_a_source_row hkPlatform 0 [concertSheet] None).
  vm_compute. left. reflexivity.
Defined.

(** X10: the events returned by [getAllEvents] are in the order of their
    start; the sort keeps every event, and events with the same start stay
    in the order they were read. *)
Theorem X10_events_sorted_by_start (pf : Platform) (now : Z)
    (ss : list Sheet) (errs : ErrorSheet) (l : list Event) (v : Z) :
  StronglySorted byStart (snd (getAllEvents pf now ss errs)) /\
  StronglySorted byStart (sortByStart l) /\
  Permutation l (sortByStart l) /\
  filter (startsAt v) (sortByStart l) = filter (startsAt v) l.
Proof.
  split; [|split; [apply sortByStart_sorted|
                   split; [apply sortByStart_perm|apply sortByStart_stable]]].
  unfold getAllEvents.
  destruct (fold_left (processSheet pf now) ss _) as [errs1 events].
  apply sortByStart_sorted.
Qed.

(** X11: a read replaces the data errors of the error sheet.  The events
    read depend neither on the time of the read nor on what the error sheet
    held.  The error sheet after the read is the sheet cleared of its
    DONNEES rows, the rows of other types being kept in their order,
    followed by the rows logged by this read, which are all of type DONNEES
    and do not depend on what the sheet held; an absent sheet is created
    only when a row is logged. *)
Theorem X11_data_errors_are_replaced (pf : Platform) (ss : list Sheet) :
  exists events,
    forall now, exists logged,
      Forall (hasType DONNEES) logged /\
      (forall errs,
         getAllEvents pf now ss errs
         = (appendRows (clearErrorsByType DONNEES errs) logged, events)) /\
      (forall rows,
         getErrorSheet (fst (getAllEvents pf now ss (Some rows)))
         = keepOther DONNEES rows ++ logged) /\
      (fst (getAllEvents pf now ss None) = None <-> logged = []).
Proof.
  exists (snd (getAllEvents pf 0 ss None)). intros now.
  destruct (sheetsLoop_logged pf now ss) as (l & F & E).
  exists l.
  assert (A : forall errs,
             getAllEvents pf now ss errs
             = (appendRows (clearErrorsByType DONNEES errs) l,
                snd (getAllEvents pf 0 ss None))).
  { intros errs.
    rewrite (SyncFacts.getAllEvents_events pf 0 now ss None errs).
    unfold getAllEvents. specialize (E (clearErrorsByType DONNEES errs) []).
    destruct (fold_left (processSheet pf now) ss _) as [errs1 events].
    cbn [fst snd] in *. now rewrite E. }
  split; [exact F|]. split; [exact A|]. split.
  - intros rows. rewrite A. cbn [fst]. rewrite clearErrorsByType_rows.
    destruct l as [|r l]; cbn [appendRows getErrorSheet];
      [now rewrite app_nil_r|reflexivity].
  - rewrite A. cbn [fst clearErrorsByType].
    destruct l as [|r l]; cbn [appendRows]; split; intros H;
      try reflexivity; discriminate.
Qed.

End MoreNormalizerProperties.

Section RunProperties.

Import Sheets Errors Normalizer NormalizerFacts Hash Sync SyncFacts RunFacts.
Local Open Scope string_scope.
Local Open Scope list_scope.
Local Open Scope Z_scope.

(** X12: the counters returned by a run.  Every syncable event is counted
    once, as created, unchanged or in error; unchanged counts the events
    whose hash was tracked; created and errors count the creations that
    went through and those that failed; deleted counts the tracked rows
    whose hash is no longer that of a syncable event, whether or not the
    calendar deleted anything. *)
Theorem X12_run_counters (pf : Platform) (now : Z) (w : World) (c : Calendar) :
  calendar w = Some c ->
  let old := getSyncTrackingData (syncSheet w) in
  let evs := sourceEvents pf (sheets w) in
  exists s c',
    snd (syncToGoogleCalendar pf now w) = Normal s /\
    calendar (fst (syncToGoogleCalendar pf now w)) = Some c' /\
    created s + unchanged s + errors s = Z.of_nat (List.length evs) /\
    unchanged s = count (tracked old) evs /\
    created s = count isCreated (callsDuring c c') /\
    errors s = count isFailedCreate (callsDuring c c') /\
    deleted s = count (stale (hashes evs)) old.
Proof.
  intros H. cbv zeta.
  destruct (run_calls pf now w c H)
    as (s & c' & R & Hcal & _ & _ & K3 & K4 & K5 & K6 & K7).
  exists s, c'. repeat split; assumption.
Qed.

Lemma X12_run_counters_witness :
  exists s c',
    snd (syncToGoogleCalendar hkPlatform 0 editedRowWorld) = Normal s /\
    calendar (fst (syncToGoogleCalendar hkPlatform 0 editedRowWorld)) = Some c' /\
    created s + unchanged s + errors s = 1 /\ deleted s = 1.
Proof.
  destruct (X12_run_counters hkPlatform 0 editedRowWorld
              {| stored := [("evt0", oldEvent)]; nextId := 1;
                 failures := []; history := [] |} eq_refl)
    as (s & c' & A & B & C & _ & _ & _ & D).
  exists s, c'. split; [exact A|]. split; [exact B|].
  split; [exact C|exact D].
Defined.


(** X14: [deleteCalendarEvent] never throws and makes at most two calls,
    a look-up and then at most one deletion; it leaves every other event of
    the store as it was; the store is either unchanged or has lost the
    event; when no call fails the event is gone afterwards and nothing is
    logged; when the event was already gone no deletion is attempted. *)
Theorem X14_deleteCalendarEvent_effects (c : Calendar) (id : string)
    (lg : list string) :
  let c' := fst (fst (deleteCalendarEvent c id lg)) in
  let lg' := snd (fst (deleteCalendarEvent c id lg)) in
  snd (deleteCalendarEvent c id lg) = Normal tt /\
  (exists calls, history c' = history c ++ calls /\
                 (List.length calls <= 2)%nat /\
                 count isDeleteEvent calls <= 1 /\
                 (JsMap.get id (stored c) = None ->
                  count isDeleteEvent calls = 0)) /\
  (forall id', id' <> id ->
     JsMap.get id' (stored c') = JsMap.get id' (stored c)) /\
  (stored c' = stored c \/ JsMap.get id (stored c') = None) /\
  (failures c = [] -> JsMap.get id (stored c') = None /\ lg' = lg).
Proof.
  cbv zeta. split; [apply deleteCalendarEvent_never_throws|].
  unfold deleteCalendarEvent, apiGetEventById, apiDeleteEvent, nextOutcome.
  destruct (failures c) as [|[msg|] rest] eqn:F; cbn [tl fst snd].
  - destruct (JsMap.get id (stored c)) as [g|] eqn:G;
      cbn [failures tl fst snd stored history].
    + split.
      { exists [GetEventByIdCall id true; DeleteEventCall id true].
        rewrite <- app_assoc. split; [reflexivity|]. split; [cbn; lia|].
        split; [unfold count; cbn; lia|discriminate]. }
      split; [intros id' N; now apply get_filter_other|].
      split; [right; apply get_filter_same|].
      intros _. split; [apply get_filter_same|reflexivity].
    + split.
      { exists [GetEventByIdCall id true]. split; [reflexivity|].
        split; [cbn; lia|]. unfold count; cbn. split; [lia|reflexivity]. }
      split; [reflexivity|]. split; [now left|]. intros _. now split.
  - split.
    { exists [GetEventByIdCall id false]. split; [reflexivity|].
      split; [cbn; lia|]. unfold count; cbn. split; [lia|reflexivity]. }
    split; [reflexivity|]. split; [now left|]. discriminate.
  - destruct (JsMap.get id (stored c)) as [g|] eqn:G;
      cbn [failures tl fst snd stored history].
    + destruct rest as [|[msg|] rest']; cbn [tl fst snd stored history].
      * split.
        { exists [GetEventByIdCall id true; DeleteEventCall id true].
          rewrite <- app_assoc. split; [reflexivity|]. split; [cbn; lia|].
          split; [unfold count; cbn; lia|discriminate]. }
        split; [intros id' N; now apply get_filter_other|].
        split; [right; apply get_filter_same|]. discriminate.
      * split.
        { exists [GetEventByIdCall id true; DeleteEventCall id false].
          rewrite <- app_assoc. split; [reflexivity|]. split; [cbn; lia|].
          split; [unfold count; cbn; lia|discriminate]. }
        split; [reflexivity|]. split; [now left|]. discriminate.
      * split.
        { exists [GetEventByIdCall id true; DeleteEventCall id true].
          rewrite <- app_assoc. split; [reflexivity|]. split; [cbn; lia|].
          split; [unfold count; cbn; lia|discriminate]. }
        split; [intros id' N; now apply get_filter_other|].
        split; [right; apply get_filter_same|]. discriminate.
    + split.
      { exists [GetEventByIdCall id true]. split; [reflexivity|].
        split; [cbn; lia|]. unfold count; cbn. split; [lia|reflexivity]. }
      split; [reflexivity|]. split; [now left|]. discriminate.
Qed.

(** X15: a run never edits the source sheets, and it only ever asks the
    calendar to create events read from a row flagged on site, the row
    being one of a department sheet; the title it sends is never empty. *)
Theorem X15_only_on_site_rows_are_created (pf : Platform) (now : Z) (w : World)
    (c c' : Calendar) (ev : Event) (r : option string) :
  calendar w = Some c ->
  calendar (fst (syncToGoogleCalendar pf now w)) = Some c' ->
  In (CreateCall ev r) (callsDuring c c') ->
  sheets (fst (syncToGoogleCalendar pf now w)) = sheets w /\
  surSiteCCFHK ev = true /\ hasSource pf (sheets w) ev /\
  isEmptyString (gtitle (gcalOf ev)) = false.
Proof.
  intros H Hc I.
  destruct (run_summary pf now w c H)
    as (s & c1 & new & seg & dels & _ & Hcal & Hsh & _ & _ & Hh & Hseg & Hd & _).
  assert (c1 = c') by congruence. subst c1.
  unfold callsDuring in I. rewrite Hh in I.
  rewrite skipn_app, skipn_all, Nat.sub_diag in I. cbn [skipn app] in I.
  split; [exact Hsh|].
  assert (Iev : In ev (sourceEvents pf (sheets w))).
  { apply in_app_or in I. destruct I as [I|I].
    - destruct (Hseg _ I) as (ev' & r' & E & Iev & _).
      injection E as -> _. exact Iev.
    - destruct (Hd _ I) as (h & v & _ & _ & D). destruct D. }
  unfold sourceEvents, eventsToSyncOf in Iev. apply filter_In in Iev.
  destruct Iev as [Iall On].
  pose proof (getAllEvents_source pf 0 (sheets w) None) as F.
  rewrite Forall_forall in F. specialize (F ev Iall).
  split; [exact On|]. split; [exact F|].
  destruct F as (sh & hd & rows & cols & row & _ & _ & _ & _ & R).
  destruct R as (_ & _ & _ & _ & _ & NE & _).
  unfold gcalOf. destruct (hasTime ev); [|destruct (endDate ev)];
    cbn [gtitle]; now apply eventTitleOf_nonempty.
Qed.

(** The calendar after the run on two identical rows. *)
Definition twinRowsAfter : Calendar :=
  match calendar (fst (syncToGoogleCalendar hkPlatform 0 twinRowsWorld)) with
  | Some c' => c'
  | None => emptyCalendar []
  end.

Definition rentreeMesse : Event :=
  mkEvent 1756684800000 1756684800000 None true "Messe" "Rentree" "Paroisse"
          7 2 true false "".

Lemma X15_only_on_site_rows_are_created_witness :
  In (CreateCall rentreeMesse (Some "evt0"))
     (callsDuring (emptyCalendar []) twinRowsAfter) /\
  surSiteCCFHK rentreeMesse = true /\
  isEmptyString (gtitle (gcalOf rentreeMesse)) = false.
Proof.
  assert (Hc : calendar (fst (syncToGoogleCalendar hkPlatform 0 twinRowsWorld))
               = Some twinRowsAfter) by (vm_compute; reflexivity).
  assert (I : In (CreateCall rentreeMesse (Some "evt0"))
                 (callsDuring (emptyCalendar []) twinRowsAfter))
    by (vm_compute; left; reflexivity).
  destruct (X15_only_on_site_rows_are_created hkPlatform 0 twinRowsWorld
              (emptyCalendar []) twinRowsAfter rentreeMesse (Some "evt0")
              eq_refl Hc I) as (_ & A & _ & B).
  split; [exact I|]. split; [exact A|exact B].
Defined.

End RunProperties.

Section GridEventProperties.

Import Sheets JSDate Filters Grid GridFacts GridEventFacts.
Local Open Scope string_scope.
Local Open Scope list_scope.
Local Open Scope Z_scope.

(** X16: grouping the events by day files every event under the key of its
    date and nowhere else, in the order of the list; two dates have the same
    key exactly when they are the same local day. *)
Theorem X16_groupEventsByDay (pf : Platform) (events : list Event)
    (t : Z) :
  lookupDay (formatDateKey pf t) (groupEventsByDay pf events)
  = filter (onDay pf (getFullYear pf t) (getMonth pf t) (getDate pf t)) events /\
  (forall ev, In ev events ->
     In ev (lookupDay (formatDateKey pf (date ev))
                      (groupEventsByDay pf events))) /\
  (forall key ev, In ev (lookupDay key (groupEventsByDay pf events)) ->
     In ev events /\ key = formatDateKey pf (date ev)).
Proof.
  split; [|split].
  - apply groupEventsByDay_onDay.
  - intros ev I. rewrite groupEventsByDay_lookup. apply filter_In.
    split; [exact I|]. unfold keyed. apply String.eqb_refl.
  - intros key ev I. rewrite groupEventsByDay_lookup in I.
    apply filter_In in I. destruct I as [I K]. split; [exact I|].
    unfold keyed in K. apply String.eqb_eq in K. now symmetry.
Qed.

(** X17: the events of a rendered month.  When the first and the last day
    of the month are valid dates and the year filter is not the name of an
    inherited property, the cell of day [d], found after the leading blanks
    at the place of its weekday, holds exactly the events whose date falls
    on that day in local time, in the order of the list; so an event of the
    month is in one cell, that of its day. *)
Theorem X17_cells_hold_the_events_of_their_day (pf : Platform) (now : Z)
    (departments : list string) (emojiMap : JsMap.t string)
    (yearFilter : Cell) (year_ month : Z) (events : list Event) :
  ISO.validTime (newDate pf year_ month 1 0 0 0) ->
  ISO.validTime (newDate pf year_ (month + 1) 0 0 0 0) ->
  JsObject.isInherited (getCurrentAcademicYear pf yearFilter) = false ->
  let dim := daysInMonth (ym year_ month) (mn month) in
  let lead := mondayIndex year_ month 1 in
  exists grid,
    generateMonthGrid pf now departments emojiMap yearFilter year_ month
                      (groupEventsByDay pf events) = Normal grid /\
    (forall d, 1 <= d <= dim ->
       exists cell,
         nth_error (List.concat grid) (Z.to_nat (lead + d - 1)) = Some cell /\
         dayNumber cell = Some d /\
         cellEvents cell
         = filter (onDay pf (ym year_ month) (mn month) d) events) /\
    (forall cell, In cell (List.concat grid) -> dayNumber cell = None ->
       cellEvents cell = []).
Proof.
  intros V1 V2 I. cbv zeta.
  rewrite (generateMonthGrid_normal pf now departments emojiMap yearFilter
             year_ month (groupEventsByDay pf events) V1 V2 I).
  set (dim := daysInMonth (ym year_ month) (mn month)).
  set (lead := mondayIndex year_ month 1).
  assert (Rl : 0 <= lead <= 6) by apply mondayIndex_range.
  assert (Rd : 28 <= dim <= 31) by apply daysInMonth_range, mn_range.
  set (f := dayCellAt pf now departments emojiMap yearFilter year_ month
                      (groupEventsByDay pf events)).
  eexists. split; [reflexivity|].
  rewrite (monthOf_cells f blankCell lead dim Rl Rd). split.
  - intros d Hd. exists (f d). split; [apply nth_error_cells; lia|].
    split; [reflexivity|].
    destruct (dayOfMonth_fields pf year_ month d Hd) as (Y & M & D).
    pose proof (groupEventsByDay_onDay pf events
                  (newDate pf year_ month d 0 0 0)) as G.
    rewrite Y, M, D in G. exact G.
  - intros cell Ic Hn. apply in_app_or in Ic. destruct Ic as [Ic|Ic].
    + apply repeat_spec in Ic. now subst.
    + apply in_app_or in Ic. destruct Ic as [Ic|Ic].
      * apply in_map_iff in Ic. destruct Ic as (d & <- & _). discriminate.
      * apply repeat_spec in Ic. now subst.
Qed.

Definition rentreeScolaire : Event :=
  mkEvent 1756684800000 1756684800000 None true "Messe" "Rentree" "Paroisse"
          7 2 true false "".

Lemma X17_cells_hold_the_events_of_their_day_witness :
  exists grid cell,
    generateMonthGrid hkPlatform 0 [] [] (CStr "2025-2026") 2025 8
                      (groupEventsByDay hkPlatform [rentreeScolaire])
    = Normal grid /\
    nth_error (List.concat grid) (Z.to_nat (mondayIndex 2025 8 1 + 1 - 1))
    = Some cell /\
    dayNumber cell = Some 1 /\
    cellEvents cell = [rentreeScolaire].
Proof.
  assert (V1 : ISO.validTime (newDate hkPlatform 2025 8 1 0 0 0))
    by (vm_compute; discriminate).
  assert (V2 : ISO.validTime (newDate hkPlatform 2025 (8 + 1) 0 0 0 0))
    by (vm_compute; discriminate).
  assert (I : JsObject.isInherited
                (getCurrentAcademicYear hkPlatform (CStr "2025-2026")) = false)
    by reflexivity.
  assert (Hd : 1 <= 1 <= daysInMonth (ym 2025 8) (mn 8))
    by (vm_compute; split; discriminate).
  destruct (X17_cells_hold_the_events_of_their_day hkPlatform 0 [] []
              (CStr "2025-2026") 2025 8 [rentreeScolaire] V1 V2 I)
    as (grid & E & C & _).
  destruct (C 1 Hd) as (cell & N & D & CE).
  exists grid, cell. split; [exact E|]. split; [exact N|].
  split; [exact D|]. rewrite CE. vm_compute. reflexivity.
Defined.

End GridEventProperties.

Section EmojiProperties.

Import Sheets Grid EmojiFacts.
Local Open Scope string_scope.
Local Open Scope list_scope.
Local Open Scope Z_scope.

(** X18: the emoji map agrees with the look-up it replaces.  For distinct
    department names, the emoji read from the map built by [buildEmojiMap]
    is the one computed without the map, whenever the name is not that of
    an inherited property of objects: the emoji of the rank of the
    department, and the white circle for a name that is no department.  A
    name of an inherited property that is no department gets the text of
    that property instead. *)
Theorem X18_emoji_map_agrees_with_rank (departments : list string)
    (d : string) :
  NoDup departments ->
  let cached := getDepartmentEmoji departments d (buildEmojiMap departments) in
  (JsObject.isInherited d = false ->
     cached = getDepartmentEmoji departments d []) /\
  (In d departments -> d <> "__proto__" ->
     0 <= indexOf departments d /\
     cached = emojiAt (indexOf departments d)) /\
  (~ In d departments -> JsObject.isInherited d = false -> cached = "⚪") /\
  (forall text, ~ In d departments ->
     JsMap.get d JsObject.inheritedProperties = Some text -> cached = text).
Proof.
  intros ND. cbv zeta.
  assert (Own : In d departments -> d <> "__proto__" ->
                0 <= indexOf departments d /\
                getDepartmentEmoji departments d (buildEmojiMap departments)
                = emojiAt (indexOf departments d)).
  { intros I P. split; [now apply findIndexFrom_present|].
    unfold getDepartmentEmoji, JsObject.get.
    rewrite buildEmojiMap_fold, (emojiMap_own d departments 0 [] ND I P).
    fold (findIndex (String.eqb d) departments). fold (indexOf departments d).
    now rewrite emojiAt_nonempty. }
  assert (Absent : ~ In d departments ->
                   JsMap.get d (buildEmojiMap departments) = None).
  { intros N. rewrite buildEmojiMap_fold, emojiMap_other by now left.
    reflexivity. }
  assert (NoIndex : ~ In d departments -> indexOf departments d = -1)
    by (intros N; now apply findIndexFrom_absent).
  split; [|split; [exact Own|split]].
  - intros NI.
    assert (P : d <> "__proto__") by (intros ->; discriminate NI).
    unfold JsObject.isInherited in NI.
    destruct (in_dec string_dec d departments) as [I|N].
    + destruct (Own I P) as [R ->].
      unfold getDepartmentEmoji, JsObject.get. cbn [JsMap.get].
      destruct (JsMap.get d JsObject.inheritedProperties); [discriminate|].
      apply Z.leb_le in R. now rewrite R.
    + unfold getDepartmentEmoji, JsObject.get. rewrite (Absent N).
      reflexivity.
  - intros N NI. unfold JsObject.isInherited in NI.
    unfold getDepartmentEmoji, JsObject.get. rewrite (Absent N), (NoIndex N).
    destruct (JsMap.get d JsObject.inheritedProperties); [discriminate|].
    reflexivity.
  - intros text N G.
    unfold getDepartmentEmoji, JsObject.get. rewrite (Absent N), G.
    reflexivity.
Qed.

Lemma X18_emoji_map_agrees_with_rank_witness :
  getDepartmentEmoji ["Aumonerie"; "Chorale"; "Paroisse"] "Chorale"
    (buildEmojiMap ["Aumonerie"; "Chorale"; "Paroisse"])
  = getDepartmentEmoji ["Aumonerie"; "Chorale"; "Paroisse"] "Chorale" [].
Proof.
  refine (proj1 (X18_emoji_map_agrees_with_rank
                   ["Aumonerie"; "Chorale"; "Paroisse"] "Chorale" _) _).
  - repeat constructor; cbn; intuition discriminate.
  - reflexivity.
Defined.

End EmojiProperties.
